(** * toc-formatter: the service handlers and the TOC rewrite pass

    A shallow embedding of the three Next.js API handlers of the
    repository (upload, process, download), of the page that calls them
    and of the document rewrite pass they wrap, with the properties
    stated about them.

    Layout of the development:
    - [Js]        the few JavaScript values and string operations used;
    - [Path]      Node's POSIX [path.join];
    - [Fs]        the part of the file system the handlers touch;
    - [Http]      what a handler sends back;
    - [Upload], [Process], [Download]  the handlers;
    - [Home]      the page: its state and its three event handlers;
    - [Engine]    the rewrite pass (classifier, tracker, renderer, rewriter);
    - [Sample], [Visit]  requests, trees and documents for the examples. *)

From Stdlib Require Import ZArith NArith String Ascii Bool Lia.
From Stdlib Require Import DecimalString DecimalPos DecimalN.
From stdpp Require Import gmap strings list.

Open Scope string_scope.
Open Scope list_scope.

(* ===================================================================== *)
(** ** JavaScript values and string operations *)
(* ===================================================================== *)

Module Js.

(** The values a parsed JSON body or a query string can hold.  An
    object literal is kept as its list of fields. *)
Inductive value :=
| Undefined
| Null
| Bool (b : bool)
| Num (n : Z)
| Str (s : string)
| Arr (items : list string)
| Obj (fields : list (string * string)).

(** [!v] is [negb (truthy v)]. *)
Definition truthy (v : value) : bool :=
  match v with
  | Undefined | Null => false
  | Bool b => b
  | Num n => negb (n =? 0)%Z
  | Str s => negb (String.eqb s "")
  | Arr _ | Obj _ => true
  end.

(** An object literal [{ k1: v1, ... }] of a response, keys in the order
    they are written. *)
Definition object := list (string * value).

Fixpoint get (o : object) (k : string) : option value :=
  match o with
  | [] => None
  | (k', v) :: o' => if String.eqb k' k then Some v else get o' k
  end.

(** ** Strings *)

(** A string is kept as its UTF-8 bytes, which is how a string literal
    is written here.  What the handlers do with a string ([endsWith]
    and [replace] with an ASCII pattern, [path.join] cutting at [/], the
    test for the empty string) gives on the bytes what it gives on the
    UTF-16 code units of JavaScript; the one place where the characters
    themselves count is [header_value_ok] below. *)

Definition is_digit (c : ascii) : bool :=
  let n := nat_of_ascii c in Nat.leb 48 n && Nat.leb n 57.

(** [String.prototype.endsWith]. *)
Definition endsWith (s suffix : string) : bool :=
  let n := String.length s in
  let k := String.length suffix in
  Nat.leb k n && String.eqb (substring (n - k) k s) suffix.

(** [s.replace(pat, '')] with a string pattern: the first occurrence
    of [pat], scanning from the left, is removed; no occurrence leaves
    [s] as it is. *)
Fixpoint remove_first (pat s : string) : string :=
  if String.prefix pat s then substring (String.length pat) (String.length s - String.length pat) s
  else match s with
       | EmptyString => EmptyString
       | String c s' => String c (remove_first pat s')
       end.

(** The longest run of decimal digits at the head of [s], and the
    rest. *)
Fixpoint span_digits (s : string) : string * string :=
  match s with
  | String c s' =>
      if is_digit c then let (d, r) := span_digits s' in (String c d, r)
      else (EmptyString, s)
  | EmptyString => (EmptyString, EmptyString)
  end.

(** [s.replace(/^\d+_/, '')].  The pattern is anchored at index 0 and
    has no [g] flag.  [\d+] is greedy; giving digits back can never
    help, since the character after a shorter run is a digit and not
    [_].  So the match is the whole leading digit run, which must not
    be empty, followed by [_]. *)
Definition remove_leading_digits_underscore (s : string) : string :=
  match span_digits s with
  | (String _ _, String "_" rest) => rest
  | _ => s
  end.

(** A header value [res.setHeader] accepts: every character is a tab
    or lies in U+0020..U+007E or U+0080..U+00FF; with any other
    character [setHeader] throws.  On the UTF-8 bytes: a byte below 128
    is the character itself; the characters U+0080..U+00FF are the
    two-byte sequences that start with the byte 194 or 195; every other
    sequence encodes a character above U+00FF. *)
Fixpoint header_value_ok (s : string) : bool :=
  match s with
  | EmptyString => true
  | String c s' =>
      let n := nat_of_ascii c in
      if Nat.ltb n 128 then
        (Nat.eqb n 9 || Nat.leb 32 n && Nat.leb n 126) && header_value_ok s'
      else if Nat.eqb n 194 || Nat.eqb n 195 then
        match s' with
        | String d s'' =>
            Nat.leb 128 (nat_of_ascii d) && Nat.leb (nat_of_ascii d) 191 &&
            header_value_ok s''
        | EmptyString => false
        end
      else false
  end.

(** A template literal [`${n}`] for a non-negative integer [n] below
    1e21 (every value of [Date.now()] is): its decimal digits. *)
Definition number_to_string (n : N) : string :=
  NilZero.string_of_uint (N.to_uint n).

End Js.

(* ===================================================================== *)
(** ** Node's [path.join] on POSIX *)
(* ===================================================================== *)

Module Path.

(** A normalized absolute path: its segments from the root, and whether
    the string ends in a separator.  [process.cwd()] is such a path and
    is kept as its list of segments. *)
Record t := mk { segments : list string; trailing : bool }.

(** The pieces of [s] between its [/] characters. *)
Fixpoint split (s : string) : list string :=
  match s with
  | EmptyString => [EmptyString]
  | String c s' =>
      if Ascii.eqb c "/" then EmptyString :: split s'
      else match split s' with
           | seg :: rest => String c seg :: rest
           | [] => [String c EmptyString]
           end
  end.

(** One step of [normalizeString] on an absolute path.  [stack] holds
    the segments kept so far, last one first.  An empty segment and [.]
    are dropped, [..] removes the last kept segment (nothing is above
    the root), any other segment is kept. *)
Definition push (stack : list string) (seg : string) : list string :=
  if String.eqb seg "" || String.eqb seg "." then stack
  else if String.eqb seg ".." then tail stack
  else seg :: stack.

Definition nonempty (s : string) : bool := negb (String.eqb s "").

(** [path.join(base, ...args)]: the non-empty arguments are glued with
    [/] and the whole is normalized.  The result ends in a separator
    when the last non-empty argument does. *)
Definition join (base : list string) (args : list string) : t :=
  let used := filter (fun a => Is_true (nonempty a)) args in
  {| segments := rev (fold_left push (flat_map split used) (rev base));
     trailing := match last used with
                 | Some a => Js.endsWith a "/"
                 | None => false
                 end |}.

Definition of_segments (segs : list string) : t :=
  {| segments := segs; trailing := false |}.

Fixpoint concat_segments (segs : list string) : string :=
  match segs with
  | [] => ""
  | seg :: rest => "/" +:+ seg +:+ concat_segments rest
  end.

(** The string Node returns. *)
Definition to_string (p : t) : string :=
  match segments p with
  | [] => "/"
  | segs => concat_segments segs +:+ (if trailing p then "/" else "")
  end.

(** [p] lies strictly below the directory [dir]. *)
Definition inside (dir : list string) (p : list string) : Prop :=
  exists rest, rest <> [] /\ p = dir ++ rest.

End Path.

(* ===================================================================== *)
(** ** The file system seen through [fs] *)
(* ===================================================================== *)

Module Fs.

Inductive node :=
| File (content : string)
| Dir.

(** What exists, by normalized absolute path. *)
Abbreviation state := (gmap (list string) node).

(** A path that ends in a separator names a directory only. *)
Definition existsSync (p : Path.t) (fs : state) : bool :=
  match fs !! Path.segments p with
  | Some Dir => true
  | Some (File _) => negb (Path.trailing p)
  | None => false
  end.

(** [None] stands for a thrown error, here and below. *)
Definition readFileSync (p : Path.t) (fs : state) : option string :=
  match fs !! Path.segments p with
  | Some (File c) => if Path.trailing p then None else Some c
  | _ => None
  end.

Definition unlinkSync (p : Path.t) (fs : state) : option state :=
  match fs !! Path.segments p with
  | Some (File _) =>
      if Path.trailing p then None else Some (delete (Path.segments p) fs)
  | _ => None
  end.

(** [renameSync(src, dst)] for a file [src], which is all the handlers
    rename: the directory that is to hold [dst] exists and [dst] is not
    itself a directory. *)
Definition renameSync (src dst : Path.t) (fs : state) : option state :=
  match fs !! Path.segments src with
  | Some (File c) =>
      match Path.segments dst, fs !! removelast (Path.segments dst), fs !! Path.segments dst with
      | _ :: _, Some Dir, (None | Some (File _)) =>
          if Path.trailing src || Path.trailing dst then None
          else Some (<[Path.segments dst := File c]> (delete (Path.segments src) fs))
      | _, _, _ => None
      end
  | _ => None
  end.

(** The directories from the root down to [segs], outermost first. *)
Definition ancestors_and_self (segs : list string) : list (list string) :=
  map (fun n => take n segs) (seq 1 (length segs)).

Definition mkdir_one (acc : option state) (dir : list string) : option state :=
  match acc with
  | None => None
  | Some fs =>
      match fs !! dir with
      | None => Some (<[dir := Dir]> fs)
      | Some Dir => Some fs
      | Some (File _) => None
      end
  end.

(** [mkdirSync(p, { recursive: true })]. *)
Definition mkdirSync (p : Path.t) (fs : state) : option state :=
  fold_left mkdir_one (ancestors_and_self (Path.segments p)) (Some fs).

(** [if (!fs.existsSync(dir)) fs.mkdirSync(dir, { recursive: true })]. *)
Definition ensure_dir (dir : Path.t) (fs : state) : option state :=
  if existsSync dir fs then Some fs else mkdirSync dir fs.

End Fs.

(* ===================================================================== *)
(** ** Responses *)
(* ===================================================================== *)

Module Http.

Inductive body :=
| Json (o : Js.object)
| Buffer (bytes : string).

Record response := mk {
  status : nat;
  headers : list (string * string);
  payload : body
}.

(** [res.status(code).json(o)]. *)
Definition json (code : nat) (o : Js.object) : response :=
  {| status := code; headers := []; payload := Json o |}.

(** A field of a JSON body. *)
Definition field (r : response) (k : string) : option Js.value :=
  match payload r with
  | Json o => Js.get o k
  | Buffer _ => None
  end.

(** How a synchronous handler ends: a response was sent, or an error
    escaped it. *)
Inductive result :=
| Sent (r : response) (fs : Fs.state)
| Uncaught (fs : Fs.state).

Definition fs_of (r : result) : Fs.state :=
  match r with
  | Sent _ fs => fs
  | Uncaught fs => fs
  end.

End Http.

(* ===================================================================== *)
(** ** pages/api/upload.js *)
(* ===================================================================== *)

Module Upload.

(** A [formidable] file: where the library stored it, and the name the
    client gave ([null] when the part has none).  [content] is what was
    written at [filepath]. *)
Record file := mkfile {
  filepath : list string;
  originalFilename : option string;
  content : string
}.

(** A field of the [files] object: one file, or an array of them. *)
Inductive entry :=
| One (f : file)
| Many (l : list file).

Definition files_of (e : entry) : list file :=
  match e with
  | One f => [f]
  | Many l => l
  end.

(** What [form.parse(req)] yields: it rejects, or it resolves to the
    [files] object, field by field. *)
Inductive parsed :=
| Rejected
| Files (files : gmap string entry).

Record request := mkreq {
  method : string;
  form : parsed
}.

(** By the time [form.parse] resolves, formidable has written every
    file part of the request at its [filepath]. *)
Definition store (files : gmap string entry) (fs : Fs.state) : Fs.state :=
  fold_left (fun acc f => <[filepath f := Fs.File (content f)]> acc)
            (flat_map (fun kv => files_of (snd kv)) (map_to_list files)) fs.

(** [Array.isArray(files.file) ? files.file[0] : files.file]. *)
Definition first_file (files : gmap string entry) : option file :=
  match files !! "file" with
  | Some (Many l) => head l
  | Some (One f) => Some f
  | None => None
  end.

(** [file.originalFilename?.endsWith('.docx')], as a condition. *)
Definition is_docx (f : file) : bool :=
  match originalFilename f with
  | Some name => Js.endsWith name ".docx"
  | None => false
  end.

(** [`${timestamp}_${file.originalFilename}`]. *)
Definition stored_name (timestamp : N) (original : string) : string :=
  Js.number_to_string timestamp +:+ "_" +:+ original.

Definition upload_failed : Http.response :=
  Http.json 500 [("error", Js.Str "Upload failed")].

(** The handler.  [cwd] is [process.cwd()], [now] is [Date.now()]. *)
Definition handler (cwd : list string) (now : N) (req : request) (fs : Fs.state)
  : Http.result :=
  if negb (String.eqb (method req) "POST") then
    Http.Sent (Http.json 405 [("error", Js.Str "Method not allowed")]) fs
  else
    let uploadDir := Path.join cwd ["uploads"] in
    match Fs.ensure_dir uploadDir fs with
    | None => Http.Uncaught fs
    | Some fs1 =>
        match form req with
        | Rejected => Http.Sent upload_failed fs1
        | Files files =>
            let fs2 := store files fs1 in
            match first_file files with
            | None =>
                Http.Sent (Http.json 400 [("error", Js.Str "No file uploaded")]) fs2
            | Some f =>
                if negb (is_docx f) then
                  match Fs.unlinkSync (Path.of_segments (filepath f)) fs2 with
                  | None => Http.Sent upload_failed fs2
                  | Some fs3 =>
                      Http.Sent (Http.json 400 [("error", Js.Str "Only .docx files are allowed")]) fs3
                  end
                else
                  let original := default "" (originalFilename f) in
                  let filename := stored_name now original in
                  let newPath := Path.join (Path.segments uploadDir) [filename] in
                  match Fs.renameSync (Path.of_segments (filepath f)) newPath fs2 with
                  | None => Http.Sent upload_failed fs2
                  | Some fs3 =>
                      Http.Sent (Http.json 200 [("success", Js.Bool true);
                                                ("filename", Js.Str filename);
                                                ("originalName", Js.Str original)]) fs3
                  end
            end
        end
    end.

End Upload.

(* ===================================================================== *)
(** ** pages/api/process.js *)
(* ===================================================================== *)

Module Process.

(** [req.body] as the body parser leaves it: [None] when it is [null]
    (the JSON text [null]), and otherwise its own properties, of which
    a body that is no object (a string, a number) has none the handler
    asks for. *)
Record request := incoming {
  method : string;
  parsed : option (gmap string Js.value)
}.

(** A request whose body is an object. *)
Definition mkreq (method : string) (body : gmap string Js.value) : request :=
  {| method := method; parsed := Some body |}.

(** The properties of the body; there are none to read from [null]. *)
Definition body (req : request) : gmap string Js.value :=
  default ∅ (parsed req).

(** What the child process emits, in the order the callbacks run. *)
Inductive event :=
| StdoutData (data : string)
| StderrData (data : string)
| Close (code : option Z)
| Error (err : string).

(** The state the callbacks share: the two accumulators, the file
    system, the response (once sent) and whether the promise is
    resolved.  [crashed] records a second [res.json], which throws
    inside the callback. *)
Record run := mkrun {
  output : string;
  error : string;
  fs : Fs.state;
  response : option Http.response;
  resolved : bool;
  crashed : bool
}.

Definition send (r : Http.response) (st : run) : run :=
  match response st with
  | None =>
      {| output := output st; error := error st; fs := fs st;
         response := Some r; resolved := true; crashed := crashed st |}
  | Some _ =>
      {| output := output st; error := error st; fs := fs st;
         response := response st; resolved := resolved st; crashed := true |}
  end.

(** [error || 'Processing failed']. *)
Definition error_or_default (err : string) : string :=
  if Js.truthy (Js.Str err) then err else "Processing failed".

Definition on_event (inputPath : Path.t) (outputFilename : string)
  (st : run) (e : event) : run :=
  match e with
  | StdoutData d =>
      {| output := output st +:+ d; error := error st; fs := fs st;
         response := response st; resolved := resolved st; crashed := crashed st |}
  | StderrData d =>
      {| output := output st; error := error st +:+ d; fs := fs st;
         response := response st; resolved := resolved st; crashed := crashed st |}
  | Close code =>
      let st1 :=
        {| output := output st; error := error st;
           fs := default (fs st) (Fs.unlinkSync inputPath (fs st));
           response := response st; resolved := resolved st; crashed := crashed st |} in
      match code with
      | Some 0%Z =>
          send (Http.json 200 [("success", Js.Bool true);
                               ("outputFile", Js.Str outputFilename);
                               ("logs", Js.Str (output st1))]) st1
      | _ =>
          send (Http.json 500 [("error", Js.Str (error_or_default (error st1)));
                               ("logs", Js.Str (output st1))]) st1
      end
  | Error _ =>
      send (Http.json 500
              [("error", Js.Str "Failed to start processing. Make sure Python is installed.")])
           st
  end.

(** What one call of the handler did: the command it spawned (if it got
    that far), and the final state of the callbacks. *)
Record result := mkres {
  spawned : option (list string);
  final : run;
  threw : bool
}.

Definition start (fs0 : Fs.state) : run :=
  {| output := ""; error := ""; fs := fs0; response := None;
     resolved := false; crashed := false |}.

Definition reply (r : Http.response) (fs0 : Fs.state) : result :=
  {| spawned := None; final := send r (start fs0); threw := false |}.

Definition throw (fs0 : Fs.state) : result :=
  {| spawned := None; final := start fs0; threw := true |}.

Definition inputPath (cwd : list string) (filename : string) : Path.t :=
  Path.join cwd ["uploads"; filename].

Definition outputFilename (filename : string) : string :=
  "processed_" +:+ filename.

Definition outputPath (cwd : list string) (filename : string) : Path.t :=
  Path.join (Path.segments (Path.join cwd ["outputs"])) [outputFilename filename].

Definition command (cwd : list string) (filename : string) : list string :=
  [ "python3";
    Path.to_string (Path.join cwd ["python"; "toc_formatter.py"]);
    Path.to_string (inputPath cwd filename);
    "-o";
    Path.to_string (outputPath cwd filename) ].

(** The handler, run against the events [trace] of the child. *)
Definition handler (cwd : list string) (req : request) (fs0 : Fs.state)
  (trace : list event) : result :=
  if negb (String.eqb (method req) "POST") then
    reply (Http.json 405 [("error", Js.Str "Method not allowed")]) fs0
  else
    match parsed req with
    | None => throw fs0
    | Some properties =>
        let filename := default Js.Undefined (properties !! "filename") in
        if negb (Js.truthy filename) then
          reply (Http.json 400 [("error", Js.Str "Filename is required")]) fs0
        else
          match filename with
          | Js.Str name =>
              let outputDir := Path.join cwd ["outputs"] in
              if negb (Fs.existsSync (inputPath cwd name) fs0) then
                reply (Http.json 404 [("error", Js.Str "File not found")]) fs0
              else
                match Fs.ensure_dir outputDir fs0 with
                | None => throw fs0
                | Some fs1 =>
                    {| spawned := Some (command cwd name);
                       final := fold_left (on_event (inputPath cwd name)
                                                    (outputFilename name))
                                          trace (start fs1);
                       threw := false |}
                end
          | _ => throw fs0
          end
    end.

(** Chunks of the two streams only. *)
Definition is_data (e : event) : bool :=
  match e with
  | StdoutData _ | StderrData _ => true
  | _ => false
  end.

Definition stdout_of (trace : list event) : string :=
  fold_left (fun acc e => match e with StdoutData d => acc +:+ d | _ => acc end) trace "".

Definition stderr_of (trace : list event) : string :=
  fold_left (fun acc e => match e with StderrData d => acc +:+ d | _ => acc end) trace "".

(** The request names an uploaded file that is there, and the outputs
    directory is there or can be made: the handler gets as far as
    spawning the engine, on the file system [fs1]. *)
Definition located (cwd : list string) (req : request) (fs0 : Fs.state)
  (name : string) (fs1 : Fs.state) : Prop :=
  method req = "POST" /\
  body req !! "filename" = Some (Js.Str name) /\
  name <> "" /\
  Fs.existsSync (inputPath cwd name) fs0 = true /\
  Fs.ensure_dir (Path.join cwd ["outputs"]) fs0 = Some fs1.

End Process.

(* ===================================================================== *)
(** ** pages/api/download.js *)
(* ===================================================================== *)

Module Download.

(** [req.query]: a parameter is a string, or an array when it is
    repeated. *)
Record request := mkreq {
  method : string;
  query : gmap string Js.value
}.

(** [file.replace('processed_', '').replace(/^\d+_/, '')]. *)
Definition originalName (file : string) : string :=
  Js.remove_leading_digits_underscore (Js.remove_first "processed_" file).

Definition quote : string := String (ascii_of_nat 34) EmptyString.

Definition filePath (cwd : list string) (file : string) : Path.t :=
  Path.join cwd ["outputs"; file].

(** [`attachment; filename="${originalName}"`]. *)
Definition disposition (file : string) : string :=
  "attachment; filename=" +:+ quote +:+ originalName file +:+ quote.

(** The response, and the path the one-second timer will unlink. *)
Record result := mkres {
  reply : Http.result;
  timer : option Path.t
}.

Definition now (r : Http.response) (fs : Fs.state) : result :=
  {| reply := Http.Sent r fs; timer := None |}.

Definition handler (cwd : list string) (req : request) (fs : Fs.state) : result :=
  if negb (String.eqb (method req) "GET") then
    now (Http.json 405 [("error", Js.Str "Method not allowed")]) fs
  else
    let file := default Js.Undefined (query req !! "file") in
    if negb (Js.truthy file) then
      now (Http.json 400 [("error", Js.Str "File parameter is required")]) fs
    else
      match file with
      | Js.Str name =>
          if negb (Fs.existsSync (filePath cwd name) fs) then
            now (Http.json 404 [("error", Js.Str "File not found")]) fs
          else
            match Fs.readFileSync (filePath cwd name) fs with
            | None => now (Http.json 500 [("error", Js.Str "Failed to download file")]) fs
            | Some fileBuffer =>
                if negb (Js.header_value_ok (disposition name)) then
                  now (Http.json 500 [("error", Js.Str "Failed to download file")]) fs
                else
                  {| reply :=
                       Http.Sent
                         {| Http.status := 200;
                            Http.headers :=
                              [("Content-Disposition", disposition name);
                               ("Content-Type",
                                "application/vnd.openxmlformats-officedocument.wordprocessingml.document");
                               ("Content-Length",
                                Js.number_to_string (N.of_nat (String.length fileBuffer)))];
                            Http.payload := Http.Buffer fileBuffer |}
                         fs;
                     timer := Some (filePath cwd name) |}
            end
      | _ => {| reply := Http.Uncaught fs; timer := None |}
      end.

(** The timer's callback: unlink, errors swallowed. *)
Definition cleanup (p : Path.t) (fs : Fs.state) : Fs.state :=
  default fs (Fs.unlinkSync p fs).

End Download.

(* ===================================================================== *)
(** ** pages/index.js *)
(* ===================================================================== *)

Module Home.

(** The five pieces of state of the page.  Of the selected [File] only
    the name is used. *)
Record state := mkstate {
  file : option string;
  processing : bool;
  result : option Js.object;
  error : option string;
  logs : Js.value
}.

(** How a [fetch] followed by [.json()] ends: the promise rejects with
    an error of some message, or there is an answer with a status and a
    JSON object. *)
Inductive fetched :=
| Rejected (message : string)
| Answered (status : nat) (json : Js.object).

(** [response.ok]. *)
Definition ok (status : nat) : bool := Nat.leb 200 status && Nat.leb status 299.

Fixpoint join_comma (items : list string) : string :=
  match items with
  | [] => ""
  | [item] => item
  | item :: rest => item +:+ "," +:+ join_comma rest
  end.

(** [String(v)], which is what [new Error(v)] and
    [encodeURIComponent(v)] make of [v].  A number is an integer of
    absolute value below 1e21, as for [Js.number_to_string]: such a
    number prints as its digits. *)
Definition to_string (v : Js.value) : string :=
  match v with
  | Js.Undefined => "undefined"
  | Js.Null => "null"
  | Js.Bool true => "true"
  | Js.Bool false => "false"
  | Js.Num Z0 => "0"
  | Js.Num (Zpos p) => Js.number_to_string (Npos p)
  | Js.Num (Zneg p) => "-" +:+ Js.number_to_string (Npos p)
  | Js.Str s => s
  | Js.Arr items => join_comma items
  | Js.Obj _ => "[object Object]"
  end.

(** [a || b]. *)
Definition or_else (a b : Js.value) : Js.value :=
  if Js.truthy a then a else b.

(** [o.k], [undefined] when the object has no such key. *)
Definition prop (o : Js.object) (k : string) : Js.value :=
  default Js.Undefined (Js.get o k).

(** [handleFileChange]; [selected] is [e.target.files[0]]. *)
Definition handleFileChange (selected : option string) (st : state) : state :=
  let refused :=
    {| file := None; processing := processing st; result := result st;
       error := Some "Please select a .docx file"; logs := logs st |} in
  match selected with
  | Some name =>
      if Js.endsWith name ".docx" then
        {| file := Some name; processing := processing st; result := None;
           error := None; logs := Js.Str "" |}
      else refused
  | None => refused
  end.

(** The body [JSON.stringify({ filename })] carries to the server: a
    key whose value is [undefined] is left out. *)
Definition process_body (filename : Js.value) : gmap string Js.value :=
  match filename with
  | Js.Undefined => ∅
  | v => {[ "filename" := v ]}
  end.

(** The state in which [handleUpload] leaves the page when it caught an
    error. *)
Definition failed (message : string) (st : state) : state :=
  {| file := file st; processing := false; result := None;
     error := Some message; logs := Js.Str "" |}.

(** [handleUpload].  [upload] is how the fetch of [/api/upload] ends;
    [process] is how the fetch of [/api/process] ends for the body sent.
    The result is the state once [finally] has run, and the addresses
    fetched, in order. *)
Definition handleUpload (upload : fetched) (process : gmap string Js.value -> fetched)
  (st : state) : state * list string :=
  match file st with
  | None => (st, [])
  | Some _ =>
      match upload with
      | Rejected message => (failed message st, ["/api/upload"])
      | Answered status json =>
          if negb (ok status) then (failed "Upload failed" st, ["/api/upload"])
          else
            match process (process_body (prop json "filename")) with
            | Rejected message => (failed message st, ["/api/upload"; "/api/process"])
            | Answered status' json' =>
                if negb (ok status') then
                  (failed (to_string (or_else (prop json' "error")
                                              (Js.Str "Processing failed"))) st,
                   ["/api/upload"; "/api/process"])
                else
                  ({| file := file st; processing := false; result := Some json';
                      error := None;
                      logs := or_else (prop json' "logs") (Js.Str "") |},
                   ["/api/upload"; "/api/process"])
            end
      end
  end.

(** [handleDownload]: the value of the [file] parameter of the address
    it opens, when it opens one.  [encodeURIComponent] is undone when
    the server parses the query. *)
Definition handleDownload (st : state) : option string :=
  match result st with
  | Some json =>
      if Js.truthy (prop json "outputFile")
      then Some (to_string (prop json "outputFile"))
      else None
  | None => None
  end.

(** What [fetch] gives for a reply the server sent with [res.json]. *)
Definition delivers (r : Http.response) (f : fetched) : Prop :=
  exists json, Http.payload r = Http.Json json /\ f = Answered (Http.status r) json.

End Home.

(* ===================================================================== *)
(** ** python/toc_formatter.py: the rewrite pass *)
(* ===================================================================== *)

(** Modelled from the spec: the engine that [process.js] spawns,
    [python/toc_formatter.py], is not among the sources.  Every
    definition of this module follows the specification of the Line
    Classifier, the Hierarchy Tracker, the Dot-Leader Renderer and the
    Document Rewriter; where the specification leaves a detail open the
    choice made is stated at the definition. *)
Module Engine.

(** *** Text *)

(** A text is a sequence of Unicode code points; one code point is one
    width unit. *)
Abbreviation text := (list N).

Definition of_string (s : string) : text :=
  map N_of_ascii (list_ascii_of_string s).

Definition space : N := 32.
Definition tab : N := 9.
Definition period : N := 46.
Definition ellipsis : N := 8230.
Definition arrow : N := 8594.
Definition colon : N := 58.
Definition hyphen : N := 45.
Definition en_dash : N := 8211.
Definition em_dash : N := 8212.
Definition lparen : N := 40.
Definition rparen : N := 41.

(** The character classes of the classifier.  Blanks are the space and
    the tab; the dot characters are the period and the ellipsis; the
    arrow glyph is the one the specification names; a dash is a hyphen,
    an en dash or an em dash.  Letters and digits are the ASCII ones. *)
Definition is_space (c : N) : bool := (c =? space)%N || (c =? tab)%N.
Definition is_digit (c : N) : bool := (48 <=? c)%N && (c <=? 57)%N.
Definition is_upper (c : N) : bool := (65 <=? c)%N && (c <=? 90)%N.
Definition is_lower (c : N) : bool := (97 <=? c)%N && (c <=? 122)%N.
Definition is_alpha (c : N) : bool := is_upper c || is_lower c.
Definition is_alnum (c : N) : bool := is_alpha c || is_digit c.
Definition is_dot (c : N) : bool := (c =? period)%N || (c =? ellipsis)%N.
Definition is_arrow (c : N) : bool := (c =? arrow)%N.
Definition is_dash (c : N) : bool :=
  (c =? hyphen)%N || (c =? en_dash)%N || (c =? em_dash)%N.

(** ASCII punctuation, and the glyphs the classifier knows. *)
Definition is_punct (c : N) : bool :=
  ((33 <=? c)%N && (c <=? 47)%N) || ((58 <=? c)%N && (c <=? 64)%N) ||
  ((91 <=? c)%N && (c <=? 96)%N) || ((123 <=? c)%N && (c <=? 126)%N) ||
  is_dot c || is_dash c || is_arrow c.

Definition to_upper (c : N) : N := if is_lower c then (c - 32)%N else c.

Fixpoint take_while (f : N -> bool) (t : text) : text :=
  match t with
  | c :: t' => if f c then c :: take_while f t' else []
  | [] => []
  end.

Fixpoint drop_while (f : N -> bool) (t : text) : text :=
  match t with
  | c :: t' => if f c then drop_while f t' else t
  | [] => []
  end.

Definition lstrip (t : text) : text := drop_while is_space t.
Definition rstrip (t : text) : text := rev (drop_while is_space (rev t)).
Definition trim (t : text) : text := rstrip (lstrip t).

(** *** Page numbers *)

(** What is left of [t] after its prefix [p]. *)
Fixpoint strip_prefix (p t : text) : option text :=
  match p, t with
  | [], _ => Some t
  | a :: p', b :: t' => if (a =? b)%N then strip_prefix p' t' else None
  | _ :: _, [] => None
  end.

(** The value of the first numeral of [table] that [t] starts with, and
    the rest of [t]; zero and [t] when there is none. *)
Fixpoint first_match (table : list (string * nat)) (t : text) : nat * text :=
  match table with
  | [] => (0, t)
  | (p, v) :: rest =>
      match strip_prefix (of_string p) t with
      | Some r => (v, r)
      | None => first_match rest t
      end
  end.

(** The forms of each decimal place, a form before any form that is a
    prefix of it. *)
Definition thousands : list (string * nat) :=
  [("MMM", 3000); ("MM", 2000); ("M", 1000)].
Definition hundreds : list (string * nat) :=
  [("CM", 900); ("CD", 400); ("DCCC", 800); ("DCC", 700); ("DC", 600);
   ("D", 500); ("CCC", 300); ("CC", 200); ("C", 100)].
Definition tens : list (string * nat) :=
  [("XC", 90); ("XL", 40); ("LXXX", 80); ("LXX", 70); ("LX", 60);
   ("L", 50); ("XXX", 30); ("XX", 20); ("X", 10)].
Definition ones : list (string * nat) :=
  [("IX", 9); ("IV", 4); ("VIII", 8); ("VII", 7); ("VI", 6);
   ("V", 5); ("III", 3); ("II", 2); ("I", 1)].

(** Modelled from the spec: [parseRomanNumeral(token) -> optional int],
    the canonical grammar (thousands, then hundreds, tens and ones, each
    in its additive or subtractive form), letters in either case. *)
Definition parseRomanNumeral (token : text) : option nat :=
  let '(m, t1) := first_match thousands (map to_upper token) in
  let '(c, t2) := first_match hundreds t1 in
  let '(x, t3) := first_match tens t2 in
  let '(i, t4) := first_match ones t3 in
  match token, t4 with
  | _ :: _, [] => Some (m + c + x + i)
  | _, _ => None
  end.

(** The digits of a decimal numeral, most significant first. *)
Definition digit_cons (c : N) : option (Decimal.uint -> Decimal.uint) :=
  if is_digit c then
    nth_error [Decimal.D0; Decimal.D1; Decimal.D2; Decimal.D3; Decimal.D4;
               Decimal.D5; Decimal.D6; Decimal.D7; Decimal.D8; Decimal.D9]
              (N.to_nat (c - 48))
  else None.

Fixpoint uint_of_text (t : text) : option Decimal.uint :=
  match t with
  | [] => Some Decimal.Nil
  | c :: t' =>
      match digit_cons c, uint_of_text t' with
      | Some d, Some u => Some (d u)
      | _, _ => None
      end
  end.

Fixpoint text_of_uint (u : Decimal.uint) : text :=
  match u with
  | Decimal.Nil => []
  | Decimal.D0 u' => 48%N :: text_of_uint u'
  | Decimal.D1 u' => 49%N :: text_of_uint u'
  | Decimal.D2 u' => 50%N :: text_of_uint u'
  | Decimal.D3 u' => 51%N :: text_of_uint u'
  | Decimal.D4 u' => 52%N :: text_of_uint u'
  | Decimal.D5 u' => 53%N :: text_of_uint u'
  | Decimal.D6 u' => 54%N :: text_of_uint u'
  | Decimal.D7 u' => 55%N :: text_of_uint u'
  | Decimal.D8 u' => 56%N :: text_of_uint u'
  | Decimal.D9 u' => 57%N :: text_of_uint u'
  end.

(** Modelled from the spec: [pageNumber], an integer or a Roman-numeral
    string.  The Roman token is kept as written, since the renderer
    needs its case. *)
Inductive PageNumber :=
| Arabic (n : N)
| Roman (token : text).

(** The number a page number stands for. *)
Definition page_value (p : PageNumber) : option N :=
  match p with
  | Arabic n => Some n
  | Roman token => option_map N.of_nat (parseRomanNumeral token)
  end.

(** A token of Arabic digits, or a Roman numeral. *)
Definition parse_page (token : text) : option PageNumber :=
  match token with
  | [] => None
  | _ :: _ =>
      match uint_of_text token with
      | Some u => Some (Arabic (N.of_uint u))
      | None =>
          match parseRomanNumeral token with
          | Some _ => Some (Roman token)
          | None => None
          end
      end
  end.

(** The trailing page-number token of a line without trailing blanks,
    and what is before it.  A token is a maximal run of letters and
    digits; it may stand in parentheses. *)
Definition find_page (line : text) : option (text * PageNumber) :=
  match rev line with
  | [] => None
  | c :: r =>
      if (c =? rparen)%N then
        match drop_while is_alnum r with
        | o :: before =>
            if (o =? lparen)%N then
              option_map (pair (rev before)) (parse_page (rev (take_while is_alnum r)))
            else None
        | [] => None
        end
      else
        option_map (pair (rev (drop_while is_alnum (c :: r))))
                   (parse_page (rev (take_while is_alnum (c :: r))))
  end.

(** *** Line Classifier *)

Inductive Kind := TOC_ENTRY | ABBREVIATION | UNMATCHED.

(** Modelled from the spec: [RawParagraph], the text runs of a
    paragraph and its paragraph-level metadata.  [indentation] and
    [tabStops] are the formatting a TOC layout uses; [properties] holds
    everything else (named style, page break, ...). *)
Record RawParagraph := mkpara {
  runs : list text;
  indentation : nat;
  tabStops : list nat;
  properties : list (string * string)
}.

(** Modelled from the spec: [ClassifiedEntry]. *)
Record ClassifiedEntry := mkentry {
  kind : Kind;
  label : text;
  pageNumber : option PageNumber;
  level : nat;
  rawIndentation : nat
}.

Definition paragraph_text (p : RawParagraph) : text := concat (runs p).

Definition tabWidth : nat := 4.

(** Width of the leading blanks: a space is one unit, a tab [tabWidth]. *)
Definition indentation_width (t : text) : nat :=
  sum_list (map (fun c => if (c =? tab)%N then tabWidth else 1) (take_while is_space t)).

(** A run of dots under way: its first dot, whether a second dot was
    met, and the blanks met since its last dot. *)
Definition flush (run : option (N * bool * text)) : text :=
  match run with
  | None => []
  | Some (d, more, blanks) => (if more : bool then [] else [d]) ++ blanks
  end.

(** Removes every run of two or more dot characters, blanks between the
    dots included.  A dot on its own stays. *)
Fixpoint strip_runs (run : option (N * bool * text)) (t : text) : text :=
  match t with
  | [] => flush run
  | c :: t' =>
      match run with
      | None =>
          if is_dot c then strip_runs (Some (c, false, [])) t'
          else c :: strip_runs None t'
      | Some (d, more, blanks) =>
          if is_dot c then strip_runs (Some (d, true, [])) t'
          else if is_space c then strip_runs (Some (d, more, blanks ++ [c])) t'
          else flush run ++ c :: strip_runs None t'
      end
  end.

Definition remove_dot_runs (t : text) : text := strip_runs None t.

Definition remove_arrows (t : text) : text :=
  filter (fun c => Is_true (negb (is_arrow c))) t.

(** The label of a TOC entry, from what precedes the page number: the
    arrows go, then the runs of dots, then the blanks at both ends. *)
Definition clean_label (before : text) : text :=
  trim (remove_dot_runs (remove_arrows before)).

(** Not empty and not punctuation only. *)
Definition has_content (t : text) : bool :=
  existsb (fun c => negb (is_space c || is_punct c)) t.

Definition all_caps (token : text) : bool := forallb is_upper token.

Definition title_case (token : text) : bool :=
  match token with
  | c :: rest => is_upper c && forallb is_lower rest
  | [] => false
  end.

Definition abbreviation_separator : text := [space; em_dash; space].

(** Rule 1.  [line] is trimmed.  The abbreviation is the leading run of
    letters, at most ten, all capitals or capitalized; the separator is
    a colon or a dash with any blanks around it, or two or more blanks;
    the expansion is what follows and is not empty; a line that ends in
    a page number is not a definition.  The result is the label. *)
Definition classify_abbreviation (line : text) : option text :=
  let token := take_while is_alpha line in
  let rest := drop_while is_alpha line in
  if (1 <=? length token)%nat && (length token <=? 10)%nat &&
     (all_caps token || title_case token) then
    match find_page line with
    | Some _ => None
    | None =>
        match drop_while is_space rest with
        | c :: after =>
            if (c =? colon)%N || is_dash c then
              match lstrip after with
              | [] => None
              | e :: expansion =>
                  Some (token ++ abbreviation_separator ++ e :: expansion)
              end
            else if (2 <=? length (take_while is_space rest))%nat then
              Some (token ++ abbreviation_separator ++ c :: after)
            else None
        | [] => None
        end
    end
  else None.

(** Rule 2, with its edge cases.  [line] is trimmed. *)
Definition classify_toc (line : text) : option (text * PageNumber) :=
  match find_page line with
  | Some (before, page) =>
      if has_content (clean_label before) then Some (clean_label before, page)
      else None
  | None => None
  end.

(** Modelled from the spec: [classify(paragraph, priorLevel)], the
    ordered detection policy; the first rule that matches wins.  The
    entry leaves the classifier at [priorLevel]; the tracker settles
    its level. *)
Definition classify (paragraph : RawParagraph) (priorLevel : nat) : ClassifiedEntry :=
  let line := trim (paragraph_text paragraph) in
  let indent := indentation_width (paragraph_text paragraph) in
  match classify_abbreviation line with
  | Some lbl =>
      {| kind := ABBREVIATION; label := lbl; pageNumber := None;
         level := priorLevel; rawIndentation := indent |}
  | None =>
      match classify_toc line with
      | Some (lbl, page) =>
          {| kind := TOC_ENTRY; label := lbl; pageNumber := Some page;
             level := priorLevel; rawIndentation := indent |}
      | None =>
          {| kind := UNMATCHED; label := line; pageNumber := None;
             level := priorLevel; rawIndentation := indent |}
      end
  end.

(** *** Hierarchy Tracker *)

Definition maxLevel : nat := 5.

(** One level per four units of indentation: in the specification's
    scenario four leading spaces are one indent unit. *)
Definition indentUnit : nat := 4.

(** Modelled from the spec: [TrackerState], the level resolved last and
    the indentation it was resolved from ([None] before the first
    entry). *)
Record TrackerState := mkstate {
  lastLevel : nat;
  lastIndentation : option nat
}.

Definition fresh : TrackerState :=
  {| lastLevel := 0; lastIndentation := None |}.

Fixpoint split_on (sep : N) (t : text) : list text :=
  match t with
  | [] => [[]]
  | c :: t' =>
      if (c =? sep)%N then [] :: split_on sep t'
      else match split_on sep t' with
           | item :: rest => (c :: item) :: rest
           | [] => [[c]]
           end
  end.

(** An item of a numbering prefix: [Some true] for a single letter,
    [Some false] for a number. *)
Definition numbering_item (item : text) : option bool :=
  match item with
  | [] => None
  | [c] => if is_alpha c then Some true
           else if is_digit c then Some false else None
  | _ => if forallb is_digit item then Some false else None
  end.

(** The numbering-pattern heuristic: in the first word of the label,
    when it is a numbering prefix such as [1.1] or [a)], the periods
    between items and the letter items are counted. *)
Definition numbering_level (lbl : text) : nat :=
  let word := take_while (fun c => negb (is_space c)) lbl in
  let closed := match rev word with
                | c :: _ => (c =? rparen)%N
                | [] => false
                end in
  let core := match rev word with
              | c :: r => if (c =? rparen)%N || (c =? period)%N then rev r else word
              | [] => []
              end in
  let items := map numbering_item (split_on period core) in
  if forallb (fun i => match i with Some _ => true | None => false end) items &&
     (closed || existsb (fun i => match i with Some false => true | _ => false end) items)
  then (length items - 1) +
       length (filter (fun i => i = Some true) items)
  else 0.

(** Modelled from the spec: [inferLevel(entry, state)].  The
    indentation is quantized and clamped; when it gives no level the
    numbering heuristic decides; an entry indented further than its
    predecessor goes one level below it at least. *)
Definition inferLevel (entry : ClassifiedEntry) (state : TrackerState)
  : nat * TrackerState :=
  let quantized := Nat.min maxLevel (rawIndentation entry / indentUnit) in
  let base := if (quantized =? 0)%nat then Nat.min maxLevel (numbering_level (label entry))
              else quantized in
  let lvl := match lastIndentation state with
             | Some previous =>
                 if (previous <? rawIndentation entry)%nat && (base <=? lastLevel state)%nat
                 then Nat.min maxLevel (S (lastLevel state))
                 else base
             | None => base
             end in
  (lvl, {| lastLevel := lvl; lastIndentation := Some (rawIndentation entry) |}).

(** *** Dot-Leader Renderer *)

(** Modelled from the spec: [RenderConfig].  Widths are natural
    numbers: a configuration with a negative value never reaches the
    pass. *)
Record RenderConfig := mkconfig {
  indentPerLevel : nat;
  marginColumn : nat;
  leaderChar : N;
  minLeaderLength : nat
}.

(** Modelled from the spec: [RenderedLine], with literal fill
    characters. *)
Record RenderedLine := mkline {
  indentWidth : nat;
  labelText : text;
  leader : text;
  pageText : text
}.

Definition is_mixed_case (token : text) : bool :=
  existsb is_upper token && existsb is_lower token.

(** The page number as printed. *)
Definition render_page (p : PageNumber) : text :=
  match p with
  | Arabic n => text_of_uint (N.to_uint n)
  | Roman token => if is_mixed_case token then map to_upper token else token
  end.

Definition leaderLength (config : RenderConfig) (indentW labelW pageW : nat) : nat :=
  Nat.max (minLeaderLength config) (marginColumn config - indentW - labelW - pageW).

(** Modelled from the spec: [render(entry, level, config)]. *)
Definition render (entry : ClassifiedEntry) (lvl : nat) (config : RenderConfig)
  : RenderedLine :=
  match kind entry, pageNumber entry with
  | TOC_ENTRY, Some page =>
      {| indentWidth := indentPerLevel config * lvl;
         labelText := label entry;
         leader := replicate (leaderLength config (indentPerLevel config * lvl)
                                (length (label entry)) (length (render_page page)))
                             (leaderChar config);
         pageText := render_page page |}
  | _, _ =>
      {| indentWidth := indentPerLevel config * lvl;
         labelText := label entry;
         leader := [];
         pageText := [] |}
  end.

(** The characters of a rendered line. *)
Definition line_text (l : RenderedLine) : text :=
  replicate (indentWidth l) space ++ labelText l ++ leader l ++ pageText l.

(** The column at which the page number ends. *)
Definition right_edge (l : RenderedLine) : nat := length (line_text l).

(** *** Document Rewriter *)

(** The paragraph with its content and TOC formatting replaced; the
    other properties stay. *)
Definition replace (p : RawParagraph) (l : RenderedLine) : RawParagraph :=
  {| runs := [line_text l];
     indentation := 0;
     tabStops := [];
     properties := properties p |}.

Fixpoint rewrite_from (state : TrackerState) (config : RenderConfig)
  (document : list RawParagraph) : list RawParagraph :=
  match document with
  | [] => []
  | p :: rest =>
      let entry := classify p (lastLevel state) in
      match kind entry with
      | UNMATCHED => p :: rewrite_from state config rest
      | _ =>
          let (lvl, state') := inferLevel entry state in
          replace p (render entry lvl config) :: rewrite_from state' config rest
      end
  end.

(** Modelled from the spec: [rewrite(document)], one forward pass with
    a fresh tracker. *)
Definition rewrite (config : RenderConfig) (document : list RawParagraph)
  : list RawParagraph :=
  rewrite_from fresh config document.

(** *** Notions for comparing a pass with a second pass *)

Definition ends_in_dot (t : text) : bool :=
  match rev t with
  | c :: _ => is_dot c
  | [] => false
  end.

(** No two dots with only blanks between them.  [pending] says that a
    dot was met and only blanks since. *)
Fixpoint no_runs (pending : bool) (t : text) : bool :=
  match t with
  | [] => true
  | c :: t' =>
      if is_dot c then negb pending && no_runs true t'
      else if is_space c then no_runs pending t'
      else no_runs false t'
  end.

(** [t] does not start with a blank. *)
Definition starts_clean (t : text) : Prop :=
  match t with
  | c :: _ => is_space c = false
  | [] => True
  end.

(** [t] does not end in a blank. *)
Definition ends_clean (t : text) : Prop :=
  match rev t with
  | c :: _ => is_space c = false
  | [] => True
  end.

(** What the classifier knows of a page number it has found: a Roman
    token is a non-empty run of letters and digits that is no decimal
    numeral and that the Roman grammar accepts. *)
Definition well_formed_page (page : PageNumber) : Prop :=
  match page with
  | Arabic _ => True
  | Roman token =>
      token <> [] /\ forallb is_alnum token = true /\
      uint_of_text token = None /\
      exists v, parseRomanNumeral token = Some v
  end.

(** [t] ends in a character that closes a token and is no opening
    parenthesis. *)
Definition ends_in_boundary (t : text) : Prop :=
  match rev t with
  | c :: _ => is_alnum c = false /\ (c =? lparen)%N = false
  | [] => False
  end.

(** The label of a TOC entry does not end in a dot character. *)
Definition label_open (p : RawParagraph) : Prop :=
  kind (classify p 0) = TOC_ENTRY ->
  ends_in_dot (label (classify p 0)) = false.

(** The configurations whose output the classifier reads back as it
    was written: the leader is made of periods, at least two, and a
    level is indented by one indent unit. *)
Definition reads_back (config : RenderConfig) : Prop :=
  leaderChar config = period /\
  2 <= minLeaderLength config /\
  indentPerLevel config = indentUnit.

(** How the tracker of a second pass stands to the tracker of the first
    at the same paragraph: same level, and the indentation it saw is
    that level's. *)
Definition follows (first second : TrackerState) : Prop :=
  lastLevel second = lastLevel first /\
  lastLevel first <= maxLevel /\
  match lastIndentation first, lastIndentation second with
  | None, None => True
  | Some _, Some i => i = indentUnit * lastLevel first
  | _, _ => False
  end.

End Engine.

(* ===================================================================== *)
(** ** A deployment to compute with *)
(* ===================================================================== *)

Module Sample.

Definition cwd : list string := ["srv"; "app"].

Definition upload_name : string := "1700000000000_thesis.docx".

(** The application directory with its two working directories, one
    uploaded document and a file of the application itself. *)
Definition tree : Fs.state :=
  <[ ["srv"; "app"; "uploads"; upload_name] := Fs.File "PK-thesis" ]>
  (<[ ["srv"; "app"; "outputs"; "processed_1699999999999_report.docx"] := Fs.File "PK-report" ]>
  (<[ ["srv"; "app"; ".env"] := Fs.File "API_KEY=secret" ]>
  (<[ ["srv"; "app"; "outputs"] := Fs.Dir ]>
  (<[ ["srv"; "app"; "uploads"] := Fs.Dir ]>
  (<[ ["srv"; "app"] := Fs.Dir ]>
  (<[ ["srv"] := Fs.Dir ]> ∅)))))).

Definition process_request : Process.request :=
  Process.mkreq "POST" {[ "filename" := Js.Str upload_name ]}.


Definition spawn_error : string := "spawn python3 ENOENT".



Definition thesis : Upload.file :=
  {| Upload.filepath := ["srv"; "app"; "uploads"; "c01d7e55.docx"];
     Upload.originalFilename := Some "thesis.docx";
     Upload.content := "PK-thesis" |}.



Definition upload_docx : Upload.request :=
  Upload.mkreq "POST" (Upload.Files {[ "file" := Upload.Many [thesis] ]}).

Definition timestamp : N := 1700000000000.

Definition download_request : Download.request :=
  Download.mkreq "GET" {[ "file" := Js.Str "processed_1699999999999_report.docx" ]}.

(** A download that climbs out of the outputs directory. *)
Definition download_request_climbing : Download.request :=
  Download.mkreq "GET" {[ "file" := Js.Str "../.env" ]}.

(** *** Documents *)

Definition paragraph (t : Engine.text) : Engine.RawParagraph :=
  {| Engine.runs := [t]; Engine.indentation := 0; Engine.tabStops := [];
     Engine.properties := [] |}.

Definition config : Engine.RenderConfig :=
  {| Engine.indentPerLevel := 4; Engine.marginColumn := 40;
     Engine.leaderChar := Engine.period; Engine.minLeaderLength := 3 |}.

(** [Chapter 1 Overview], five ellipses, an arrow, [12]. *)
Definition messy_line : Engine.text :=
  Engine.of_string "Chapter 1 Overview" ++ replicate 5 Engine.ellipsis ++
  [Engine.arrow] ++ Engine.of_string "12".

Definition long_line : Engine.text :=
  Engine.of_string "A very long label that goes on and on past the margin 3".

Definition heading : Engine.RawParagraph :=
  {| Engine.runs := [Engine.of_string "Intro"; Engine.of_string "duction"];
     Engine.indentation := 2; Engine.tabStops := [10];
     Engine.properties := [("pageBreakBefore", "true")] |}.

Definition document : list Engine.RawParagraph :=
  [ paragraph messy_line;
    heading;
    paragraph (Engine.of_string "    1.1 Background .... 5");
    paragraph (Engine.of_string "API: Application Programming Interface");
    paragraph long_line ].

Definition preface (token : string) : Engine.RawParagraph :=
  paragraph (Engine.of_string "Preface " ++ Engine.of_string token).

(** Configurations that differ from [config] in one option each. *)
Definition config_dashes : Engine.RenderConfig :=
  {| Engine.indentPerLevel := 4; Engine.marginColumn := 40;
     Engine.leaderChar := Engine.hyphen; Engine.minLeaderLength := 3 |}.

Definition config_short_leader : Engine.RenderConfig :=
  {| Engine.indentPerLevel := 4; Engine.marginColumn := 10;
     Engine.leaderChar := Engine.period; Engine.minLeaderLength := 1 |}.

Definition config_narrow_indent : Engine.RenderConfig :=
  {| Engine.indentPerLevel := 2; Engine.marginColumn := 40;
     Engine.leaderChar := Engine.period; Engine.minLeaderLength := 3 |}.

Definition config_narrow_margin : Engine.RenderConfig :=
  {| Engine.indentPerLevel := 4; Engine.marginColumn := 10;
     Engine.leaderChar := Engine.period; Engine.minLeaderLength := 3 |}.

(** The characters of each paragraph. *)
Definition texts (document : list Engine.RawParagraph) : list Engine.text :=
  map Engine.paragraph_text document.

End Sample.

(* ===================================================================== *)
(** ** One visit, for the examples of the page *)
(* ===================================================================== *)

Module Visit.

(** The page with a document selected and nothing done yet. *)
Definition page : Home.state :=
  {| Home.file := Some "thesis.docx"; Home.processing := false;
     Home.result := None; Home.error := None; Home.logs := Js.Str "" |}.

(** The form sent under another field name than [file]. *)
Definition upload_other_field : Upload.request :=
  Upload.mkreq "POST" (Upload.Files {[ "document" := Upload.One Sample.thesis ]}).

(** A network that hands the page every JSON answer as it was sent. *)
Definition deliver (answer : option Http.response) : Home.fetched :=
  match answer with
  | Some {| Http.status := status; Http.payload := Http.Json json |} =>
      Home.Answered status json
  | _ => Home.Rejected "Failed to fetch"
  end.

Definition fetch_upload : Home.fetched :=
  match Upload.handler Sample.cwd Sample.timestamp Sample.upload_docx Sample.tree with
  | Http.Sent r _ => deliver (Some r)
  | Http.Uncaught _ => deliver None
  end.

(** The file system once the upload is stored. *)
Definition uploaded : Fs.state :=
  Http.fs_of (Upload.handler Sample.cwd Sample.timestamp Sample.upload_docx Sample.tree).

Definition fetch_process (trace : list Process.event) (body : gmap string Js.value)
  : Home.fetched :=
  deliver (Process.response
             (Process.final
                (Process.handler Sample.cwd (Process.mkreq "POST" body) uploaded trace))).

(** An upload whose name climbs out of the uploads directory. *)
Definition upload_climbing : Upload.request :=
  Upload.mkreq "POST"
    (Upload.Files
       {[ "file" := Upload.Many
            [ {| Upload.filepath := ["srv"; "app"; "uploads"; "c01d7e55.docx"];
                 Upload.originalFilename := Some "x/../../next.config.docx";
                 Upload.content := "PK-thesis" |} ] ]}).

(** A processed file whose name has a line feed in it, and one whose
    name has a character above U+00FF (U+65E5, three bytes). *)
Definition line_feed_name : string :=
  "processed_1700000000000_a" +:+ String (ascii_of_nat 10) "b.docx".

Definition wide_name : string :=
  "processed_1700000000000_" +:+
  String (ascii_of_nat 230) (String (ascii_of_nat 151) (String (ascii_of_nat 165) ".docx")).

(** A name with a character of U+0080..U+00FF (U+00E8, two bytes). *)
Definition accented_name : string :=
  "processed_1700000000000_th" +:+
  String (ascii_of_nat 195) (String (ascii_of_nat 168) "se.docx").

Definition outputs_with (name : string) : Fs.state :=
  <[ ["srv"; "app"; "outputs"; name] := Fs.File "PK-formatted" ]> Sample.tree.

Definition download_of (name : string) : Download.request :=
  Download.mkreq "GET" {[ "file" := Js.Str name ]}.

Definition upload_refused : Home.fetched :=
  Home.Answered 500 [("error", Js.Str "Upload failed")].

Definition offline (body : gmap string Js.value) : Home.fetched :=
  Home.Rejected "Failed to fetch".

(** What the engine prints for the sample document. *)
Definition chunks : list Process.event :=
  [Process.StdoutData "Found 12 "; Process.StdoutData "TOC entries"].

Definition complaints : list Process.event :=
  [Process.StdoutData "Reading"; Process.StderrData "Traceback: bad zip file"].

End Visit.

(* ===================================================================== *)
(** * Properties *)
(* ===================================================================== *)

(** ** Strings *)

Lemma substring_all (s : string) : substring 0 (String.length s) s = s.
Proof. induction s as [|c s IH]; simpl; [reflexivity | now rewrite IH]. Qed.

Lemma span_digits_uint (u : Decimal.uint) (rest : string) :
  Js.span_digits (NilEmpty.string_of_uint u +:+ String "_" rest)
  = (NilEmpty.string_of_uint u, String "_" rest).
Proof.
  induction u as [|u IH|u IH|u IH|u IH|u IH|u IH|u IH|u IH|u IH|u IH];
    [reflexivity | ..];
    simpl; rewrite IH; reflexivity.
Qed.

Lemma number_to_string_digits (n : N) :
  exists c digits,
    Js.number_to_string n = String c digits /\
    exists u, String c digits = NilEmpty.string_of_uint u.
Proof.
  unfold Js.number_to_string, NilZero.string_of_uint.
  destruct (N.to_uint n) as [|u|u|u|u|u|u|u|u|u|u] eqn:E.
  - exists "0"%char, EmptyString. split; [reflexivity | exists (Decimal.D0 Decimal.Nil); reflexivity].
  - eexists _, _; split; [reflexivity | exists (Decimal.D0 u); reflexivity].
  - eexists _, _; split; [reflexivity | exists (Decimal.D1 u); reflexivity].
  - eexists _, _; split; [reflexivity | exists (Decimal.D2 u); reflexivity].
  - eexists _, _; split; [reflexivity | exists (Decimal.D3 u); reflexivity].
  - eexists _, _; split; [reflexivity | exists (Decimal.D4 u); reflexivity].
  - eexists _, _; split; [reflexivity | exists (Decimal.D5 u); reflexivity].
  - eexists _, _; split; [reflexivity | exists (Decimal.D6 u); reflexivity].
  - eexists _, _; split; [reflexivity | exists (Decimal.D7 u); reflexivity].
  - eexists _, _; split; [reflexivity | exists (Decimal.D8 u); reflexivity].
  - eexists _, _; split; [reflexivity | exists (Decimal.D9 u); reflexivity].
Qed.

Lemma remove_timestamp (ts : N) (rest : string) :
  Js.remove_leading_digits_underscore (Js.number_to_string ts +:+ String "_" rest) = rest.
Proof.
  destruct (number_to_string_digits ts) as (c & digits & E & u & Eu).
  unfold Js.remove_leading_digits_underscore.
  rewrite E, Eu, span_digits_uint, <- Eu. reflexivity.
Qed.

Lemma prefix_append (p s : string) : String.prefix p (p +:+ s) = true.
Proof.
  induction p as [|c p IH]; simpl.
  - now destruct s.
  - now destruct (ascii_dec c c).
Qed.

Lemma substring_append (p s : string) :
  substring (String.length p) (String.length (p +:+ s) - String.length p) (p +:+ s) = s.
Proof.
  induction p as [|c p IH]; simpl.
  - rewrite Nat.sub_0_r. apply substring_all.
  - exact IH.
Qed.

Lemma remove_first_unfold (pat s : string) :
  Js.remove_first pat s =
  if String.prefix pat s
  then substring (String.length pat) (String.length s - String.length pat) s
  else match s with
       | EmptyString => EmptyString
       | String c s' => String c (Js.remove_first pat s')
       end.
Proof. destruct s; reflexivity. Qed.

Lemma remove_first_prefix (pat s : string) :
  Js.remove_first pat (pat +:+ s) = s.
Proof.
  rewrite remove_first_unfold, prefix_append. apply substring_append.
Qed.

(** ** The names of a document on its way through the service *)

(** C5.  The name under which the download handler offers a processed
    file is the name the file was uploaded with: for every original name
    and every timestamp, stripping [processed_] and the leading
    [<digits>_] from [processed_<timestamp>_<original>] gives
    [<original>] back. *)
Theorem download_restores_original_name (ts : N) (orig : string) :
  Download.originalName (Process.outputFilename (Upload.stored_name ts orig)) = orig.
Proof.
  unfold Download.originalName, Process.outputFilename, Upload.stored_name.
  rewrite remove_first_prefix.
  apply remove_timestamp.
Qed.

(** ** The processing handler *)

(** A property read from the body is a property of a body that is not
    [null]. *)
Lemma body_property (req : Process.request) (k : string) (v : Js.value) :
  Process.body req !! k = Some v ->
  exists properties,
    Process.parsed req = Some properties /\ properties !! k = Some v.
Proof.
  unfold Process.body. destruct (Process.parsed req) as [properties|].
  - intros H. now exists properties.
  - cbn [default from_option id]. rewrite lookup_empty. discriminate.
Qed.

Lemma body_parsed (req : Process.request) (properties : gmap string Js.value) :
  Process.parsed req = Some properties -> Process.body req = properties.
Proof. unfold Process.body. now intros ->. Qed.

Section ProcessHandler.

Variable cwd : list string.
Variable req : Process.request.
Variable fs0 fs1 : Fs.state.
Variable name : string.
Hypothesis Hlocated : Process.located cwd req fs0 name fs1.

Lemma handler_spawns (trace : list Process.event) :
  Process.handler cwd req fs0 trace =
  {| Process.spawned := Some (Process.command cwd name);
     Process.final :=
       fold_left (Process.on_event (Process.inputPath cwd name) (Process.outputFilename name))
                 trace (Process.start fs1);
     Process.threw := false |}.
Proof.
  destruct Hlocated as (Hm & Hf & Hn & Hin & Hout).
  assert (Js.truthy (Js.Str name) = true) as Ht.
  { cbn. destruct (String.eqb_spec name ""); [contradiction | reflexivity]. }
  destruct (body_property _ _ _ Hf) as (properties & Hp & Hk).
  unfold Process.handler. rewrite Hm, Hp, Hk.
  change (default Js.Undefined (Some (Js.Str name))) with (Js.Str name).
  rewrite Ht, Hin, Hout. reflexivity.
Qed.

End ProcessHandler.

(** The data callbacks only feed the two accumulators. *)
Lemma data_events_accumulate (ip : Path.t) (out : string)
  (chunks : list Process.event) (st : Process.run) :
  forallb Process.is_data chunks = true ->
  fold_left (Process.on_event ip out) chunks st =
  {| Process.output :=
       fold_left (fun acc e => match e with Process.StdoutData d => acc +:+ d | _ => acc end)
                 chunks (Process.output st);
     Process.error :=
       fold_left (fun acc e => match e with Process.StderrData d => acc +:+ d | _ => acc end)
                 chunks (Process.error st);
     Process.fs := Process.fs st;
     Process.response := Process.response st;
     Process.resolved := Process.resolved st;
     Process.crashed := Process.crashed st |}.
Proof.
  revert st. induction chunks as [|e chunks IH]; intros st Hdata.
  - now destruct st.
  - cbn [forallb] in Hdata. apply andb_true_iff in Hdata as [He Hrest].
    cbn [fold_left]. rewrite (IH _ Hrest).
    destruct e; try discriminate; reflexivity.
Qed.

(** The run of a child that writes [chunks] and then closes. *)
Lemma run_until_close (ip : Path.t) (out : string) (fs1 : Fs.state)
  (chunks : list Process.event) (code : option Z) :
  forallb Process.is_data chunks = true ->
  fold_left (Process.on_event ip out) (chunks ++ [Process.Close code]) (Process.start fs1) =
  Process.on_event ip out
    {| Process.output := Process.stdout_of chunks;
       Process.error := Process.stderr_of chunks;
       Process.fs := fs1;
       Process.response := None;
       Process.resolved := false;
       Process.crashed := false |}
    (Process.Close code).
Proof.
  intros Hdata. rewrite fold_left_app. cbn [fold_left].
  now rewrite (data_events_accumulate _ _ _ _ Hdata).
Qed.

(** ** Directories *)

Lemma mkdir_one_preserves (acc : option Fs.state) (dir : list string) (fs' : Fs.state) :
  Fs.mkdir_one acc dir = Some fs' ->
  exists fs, acc = Some fs /\
    forall q n, fs !! q = Some n -> fs' !! q = Some n.
Proof.
  destruct acc as [fs|]; [|discriminate].
  unfold Fs.mkdir_one. intros H. exists fs. split; [reflexivity|].
  destruct (fs !! dir) as [[c|]|] eqn:E; inversion H; subst; try tauto.
  intros q n Hq. rewrite lookup_insert_ne; [exact Hq | congruence].
Qed.

Lemma mkdir_fold_preserves (dirs : list (list string)) (acc : option Fs.state)
  (fs' : Fs.state) :
  fold_left Fs.mkdir_one dirs acc = Some fs' ->
  exists fs, acc = Some fs /\
    forall q n, fs !! q = Some n -> fs' !! q = Some n.
Proof.
  revert acc. induction dirs as [|dir dirs IH]; intros acc H; cbn [fold_left] in H.
  - exists fs'. split; [exact H | tauto].
  - destruct (IH _ H) as (fs2 & E2 & P2).
    destruct (mkdir_one_preserves _ _ _ E2) as (fs & E & P).
    exists fs. split; [exact E | eauto].
Qed.

(** Making a directory leaves everything that exists as it is. *)
Lemma ensure_dir_preserves (dir : Path.t) (fs fs' : Fs.state) :
  Fs.ensure_dir dir fs = Some fs' ->
  forall q n, fs !! q = Some n -> fs' !! q = Some n.
Proof.
  unfold Fs.ensure_dir, Fs.mkdirSync.
  destruct (Fs.existsSync dir fs); intros H.
  - inversion H; subst; tauto.
  - destruct (mkdir_fold_preserves _ _ _ H) as (fs2 & E & P).
    inversion E; subst. exact P.
Qed.

Lemma existsSync_preserved (p : Path.t) (dir : Path.t) (fs fs' : Fs.state) :
  Fs.ensure_dir dir fs = Some fs' ->
  Fs.existsSync p fs = true -> Fs.existsSync p fs' = true.
Proof.
  intros Hd. unfold Fs.existsSync.
  destruct (fs !! Path.segments p) as [n|] eqn:E; [|discriminate].
  now rewrite (ensure_dir_preserves _ _ _ Hd _ _ E).
Qed.

(** ** What the processing handler answers *)

Lemma error_or_default_spec (err : string) :
  Process.error_or_default err =
  if String.eqb err "" then "Processing failed" else err.
Proof.
  unfold Process.error_or_default. cbn. now destruct (String.eqb err "").
Qed.

(** C3.  When the engine exits with a code other than zero, the handler
    answers 500; the body carries the text the engine wrote on stderr,
    or [Processing failed] when it wrote none, and with it the log the
    engine wrote on stdout before it failed. *)
Theorem failure_response_carries_error_and_log
  (cwd : list string) (req : Process.request) (fs0 fs1 : Fs.state) (name : string)
  (chunks : list Process.event) (code : option Z) :
  Process.located cwd req fs0 name fs1 ->
  forallb Process.is_data chunks = true ->
  code <> Some 0%Z ->
  Process.response
    (Process.final (Process.handler cwd req fs0 (chunks ++ [Process.Close code]))) =
  Some (Http.json 500
          [("error", Js.Str (if String.eqb (Process.stderr_of chunks) ""
                             then "Processing failed"
                             else Process.stderr_of chunks));
           ("logs", Js.Str (Process.stdout_of chunks))]).
Proof.
  intros Hloc Hdata Hcode.
  rewrite (handler_spawns _ _ _ _ _ Hloc). cbn [Process.final].
  rewrite (run_until_close _ _ _ _ _ Hdata).
  rewrite <- error_or_default_spec.
  destruct code as [[|c|c]|]; [congruence | reflexivity..].
Qed.

Lemma failure_response_carries_error_and_log_witness :
  Process.response
    (Process.final
       (Process.handler Sample.cwd Sample.process_request Sample.tree
          ([Process.StdoutData "Found 12 TOC entries"; Process.StderrData "PackageNotFoundError"]
           ++ [Process.Close (Some 1%Z)]))) =
  Some (Http.json 500
          [("error", Js.Str "PackageNotFoundError");
           ("logs", Js.Str "Found 12 TOC entries")]).
Proof.
  apply (failure_response_carries_error_and_log
           Sample.cwd Sample.process_request Sample.tree Sample.tree Sample.upload_name
           [Process.StdoutData "Found 12 TOC entries"; Process.StderrData "PackageNotFoundError"]
           (Some 1%Z)).
  - repeat split; try reflexivity. discriminate.
  - reflexivity.
  - discriminate.
Defined.




(** *** What the callbacks keep *)

Lemma send_response (r : Http.response) (st : Process.run) :
  Process.response (Process.send r st) =
  match Process.response st with
  | None => Some r
  | Some sent => Some sent
  end.
Proof. unfold Process.send. now destruct (Process.response st). Qed.

Lemma send_fs (r : Http.response) (st : Process.run) :
  Process.fs (Process.send r st) = Process.fs st.
Proof. unfold Process.send. now destruct (Process.response st). Qed.

Lemma end_of_child_answers (ip : Path.t) (out : string) (st : Process.run)
  (e : Process.event) :
  Process.is_data e = false ->
  exists r, Process.response (Process.on_event ip out st e) = Some r.
Proof.
  destruct e as [d|d|code|err]; try discriminate; intros _; cbn [Process.on_event].
  - destruct code as [[|c|c]|]; rewrite send_response; cbn [Process.response];
      destruct (Process.response st); eauto.
  - rewrite send_response. destruct (Process.response st); eauto.
Qed.

(** What the callbacks do to the file system: the input path is as it
    was or is gone, and every other path is as it was. *)
Lemma events_touch_the_input_only (ip : Path.t) (out : string)
  (events : list Process.event) (st : Process.run) :
  (forall p, p <> Path.segments ip ->
     Process.fs (fold_left (Process.on_event ip out) events st) !! p = Process.fs st !! p) /\
  (Process.fs (fold_left (Process.on_event ip out) events st) !! Path.segments ip
     = Process.fs st !! Path.segments ip \/
   Process.fs (fold_left (Process.on_event ip out) events st) !! Path.segments ip = None).
Proof.
  revert st. induction events as [|e events IH]; intros st; [now split; [|left]|].
  cbn [fold_left]. destruct (IH (Process.on_event ip out st e)) as [Hother Hinput].
  assert (exists fs', Process.fs (Process.on_event ip out st e) = fs' /\
            (fs' = Process.fs st \/ fs' = delete (Path.segments ip) (Process.fs st)))
    as (fs' & Efs & Hfs).
  { destruct e as [d|d|code|err]; cbn [Process.on_event Process.fs].
    - eexists. split; [reflexivity | now left].
    - eexists. split; [reflexivity | now left].
    - assert (default (Process.fs st) (Fs.unlinkSync ip (Process.fs st)) = Process.fs st \/
              default (Process.fs st) (Fs.unlinkSync ip (Process.fs st))
                = delete (Path.segments ip) (Process.fs st)) as Hd.
      { unfold Fs.unlinkSync. destruct (Process.fs st !! Path.segments ip) as [[c|]|];
          try (now left). destruct (Path.trailing ip); [now left | now right]. }
      eexists. split; [|exact Hd].
      destruct code as [[|c|c]|]; now rewrite send_fs.
    - eexists. split; [|now left]. now rewrite send_fs. }
  rewrite Efs in Hother, Hinput. split.
  - intros p Hp. rewrite (Hother p Hp).
    destruct Hfs as [->| ->]; [reflexivity | now apply lookup_delete_ne].
  - destruct Hinput as [Hin|Hin]; [|now right].
    rewrite Hin. destruct Hfs as [->| ->]; [now left | right; apply lookup_delete_eq].
Qed.





(** The failed spawn, computed: the [close] callback unlinks the file
    after the answer was sent and the promise resolved; its own
    [res.json] then throws. *)
Example error_then_close :
  Process.final
    (Process.handler Sample.cwd Sample.process_request Sample.tree
       [Process.Error Sample.spawn_error; Process.Close (Some (-2)%Z)]) =
  {| Process.output := ""; Process.error := "";
     Process.fs := delete ["srv"; "app"; "uploads"; Sample.upload_name] Sample.tree;
     Process.response :=
       Some (Http.json 500
               [("error", Js.Str "Failed to start processing. Make sure Python is installed.")]);
     Process.resolved := true;
     Process.crashed := true |}.
Proof. reflexivity. Qed.

(** ** Paths *)

(** Segments other than [..] never shorten the stack. *)
Lemma push_grows (segs stack : list string) :
  ~ In ".." segs ->
  exists more, fold_left Path.push segs stack = more ++ stack.
Proof.
  revert stack. induction segs as [|seg segs IH]; intros stack Hno.
  - now exists [].
  - cbn [fold_left].
    assert (~ In ".." segs) as Hrest by (intros H; apply Hno; now right).
    assert (seg <> "..") as Hseg by (intros ->; apply Hno; now left).
    unfold Path.push at 2.
    destruct (String.eqb seg "" || String.eqb seg ".").
    + exact (IH stack Hrest).
    + destruct (String.eqb_spec seg ".."); [contradiction|].
      destruct (IH (seg :: stack) Hrest) as (more & E).
      exists (more ++ [seg]). now rewrite E, <- app_assoc.
Qed.

(** A [file] parameter without [..] resolves to the outputs directory
    or below it. *)
Lemma filePath_below_outputs (cwd : list string) (file : string) :
  ~ In ".." (Path.split file) ->
  exists rest,
    Path.segments (Download.filePath cwd file) = (cwd ++ ["outputs"]) ++ rest.
Proof.
  intros Hno. unfold Download.filePath, Path.join. cbn [Path.segments].
  assert (exists segs, ~ In ".." segs /\
            flat_map Path.split
              (filter (fun a => Is_true (Path.nonempty a)) ["outputs"; file])
            = "outputs" :: segs) as (segs & Hsegs & ->).
  { destruct (Path.nonempty file) eqn:E.
    - exists (Path.split file). split; [exact Hno|].
      rewrite filter_cons_True by exact I.
      rewrite filter_cons_True by (now rewrite E).
      cbn. now rewrite app_nil_r.
    - exists []. split; [tauto|].
      rewrite filter_cons_True by exact I.
      rewrite filter_cons_False by (now rewrite E).
      reflexivity. }
  cbn [fold_left]. change (Path.push (rev cwd) "outputs") with ("outputs" :: rev cwd).
  destruct (push_grows segs ("outputs" :: rev cwd) Hsegs) as (more & ->).
  exists (rev more).
  rewrite rev_app_distr. cbn [rev]. now rewrite rev_involutive.
Qed.

(** ** What the download handler serves *)

(** C4, as the handler has it.  When the [file] parameter has no [..]
    segment, a download that succeeds serves a file that lies inside
    the outputs directory. *)
Theorem download_without_dotdot_stays_in_outputs
  (cwd : list string) (req : Download.request) (fs fs' : Fs.state)
  (file : string) (r : Http.response) :
  Download.query req !! "file" = Some (Js.Str file) ->
  ~ In ".." (Path.split file) ->
  (forall c, fs !! (cwd ++ ["outputs"]) <> Some (Fs.File c)) ->
  Download.reply (Download.handler cwd req fs) = Http.Sent r fs' ->
  Http.status r = 200 ->
  exists content,
    Http.payload r = Http.Buffer content /\
    fs !! Path.segments (Download.filePath cwd file) = Some (Fs.File content) /\
    Path.inside (cwd ++ ["outputs"]) (Path.segments (Download.filePath cwd file)).
Proof.
  intros Hq Hno Hdir Hreply Hstatus.
  unfold Download.handler in Hreply. rewrite Hq in Hreply.
  change (default Js.Undefined (Some (Js.Str file))) with (Js.Str file) in Hreply.
  destruct (negb (String.eqb (Download.method req) "GET"));
    [inversion Hreply; subst; discriminate|].
  destruct (negb (Js.truthy (Js.Str file)));
    [inversion Hreply; subst; discriminate|].
  destruct (negb (Fs.existsSync (Download.filePath cwd file) fs));
    [inversion Hreply; subst; discriminate|].
  destruct (Fs.readFileSync (Download.filePath cwd file) fs) as [content|] eqn:Hread;
    [|inversion Hreply; subst; discriminate].
  destruct (negb (Js.header_value_ok (Download.disposition file)));
    [inversion Hreply; subst; discriminate|].
  injection Hreply as Hr _. subst r. exists content. split; [reflexivity|].
  unfold Fs.readFileSync in Hread.
  destruct (fs !! Path.segments (Download.filePath cwd file)) as [[c|]|] eqn:E;
    try discriminate.
  destruct (Path.trailing (Download.filePath cwd file)); [discriminate|].
  inversion Hread; subst. split; [reflexivity|].
  destruct (filePath_below_outputs cwd file Hno) as (rest & Hrest).
  exists rest. split; [|exact Hrest].
  intros ->. rewrite app_nil_r in Hrest. rewrite Hrest in E. exact (Hdir _ E).
Qed.

Lemma download_without_dotdot_stays_in_outputs_witness :
  exists content,
    Http.payload
      {| Http.status := 200;
         Http.headers :=
           [("Content-Disposition",
             "attachment; filename=" +:+ Download.quote +:+ "report.docx" +:+ Download.quote);
            ("Content-Type",
             "application/vnd.openxmlformats-officedocument.wordprocessingml.document");
            ("Content-Length", "9")];
         Http.payload := Http.Buffer "PK-report" |} = Http.Buffer content /\
    Sample.tree !! Path.segments
      (Download.filePath Sample.cwd "processed_1699999999999_report.docx")
      = Some (Fs.File content) /\
    Path.inside (Sample.cwd ++ ["outputs"])
      (Path.segments (Download.filePath Sample.cwd "processed_1699999999999_report.docx")).
Proof.
  apply (download_without_dotdot_stays_in_outputs
           Sample.cwd Sample.download_request Sample.tree Sample.tree
           "processed_1699999999999_report.docx").
  - reflexivity.
  - cbn. intros [H|[]]. discriminate.
  - intros c. vm_compute. discriminate.
  - reflexivity.
  - reflexivity.
Defined.

(** C4 as stated fails: with [file=../.env] the handler resolves a path
    outside the outputs directory and serves the file that is there. *)
Lemma download_climbs_out_of_outputs :
  Path.segments (Download.filePath Sample.cwd "../.env") = ["srv"; "app"; ".env"] /\
  ~ Path.inside (Sample.cwd ++ ["outputs"])
      (Path.segments (Download.filePath Sample.cwd "../.env")) /\
  exists r fs',
    Download.reply (Download.handler Sample.cwd Sample.download_request_climbing Sample.tree)
      = Http.Sent r fs' /\
    Http.status r = 200 /\
    Http.payload r = Http.Buffer "API_KEY=secret".
Proof.
  split; [reflexivity|]. split.
  - intros (rest & _ & H). vm_compute in H. discriminate.
  - eexists _, _. repeat split; reflexivity.
Qed.

(** ** What the upload handler keeps *)

Lemma store_keeps_files (l : list Upload.file) (fs : Fs.state) (p : list string) :
  (exists c, fs !! p = Some (Fs.File c)) ->
  exists c, fold_left (fun acc f => <[Upload.filepath f := Fs.File (Upload.content f)]> acc)
              l fs !! p = Some (Fs.File c).
Proof.
  revert fs. induction l as [|g l IH]; intros fs Hp; [exact Hp|].
  cbn [fold_left]. apply IH.
  destruct (decide (Upload.filepath g = p)) as [<-|Hne].
  - exists (Upload.content g). apply lookup_insert_eq.
  - destruct Hp as (c & Hc). exists c. now rewrite lookup_insert_ne.
Qed.

Lemma store_writes_each (l : list Upload.file) (fs : Fs.state) (f : Upload.file) :
  In f l ->
  exists c, fold_left (fun acc f => <[Upload.filepath f := Fs.File (Upload.content f)]> acc)
              l fs !! Upload.filepath f = Some (Fs.File c).
Proof.
  revert fs. induction l as [|g l IH]; intros fs Hin; [destruct Hin|].
  cbn [fold_left]. destruct Hin as [->|Hin].
  - apply store_keeps_files. exists (Upload.content f). apply lookup_insert_eq.
  - now apply IH.
Qed.




(** The other branch, computed: a [.docx] upload ends under its
    timestamped name. *)
Example upload_docx_renamed :
  exists r fs',
    Upload.handler Sample.cwd Sample.timestamp Sample.upload_docx Sample.tree
      = Http.Sent r fs' /\
    Http.status r = 200 /\
    Http.field r "filename" = Some (Js.Str "1700000000000_thesis.docx") /\
    fs' !! ["srv"; "app"; "uploads"; "1700000000000_thesis.docx"] = Some (Fs.File "PK-thesis") /\
    fs' !! Upload.filepath Sample.thesis = None.
Proof. eexists _, _. repeat split; vm_compute; reflexivity. Qed.


(** ** The scenarios of the specification *)

Example scenario_messy_line :
  Engine.classify (Sample.paragraph Sample.messy_line) 0 =
  {| Engine.kind := Engine.TOC_ENTRY;
     Engine.label := Engine.of_string "Chapter 1 Overview";
     Engine.pageNumber := Some (Engine.Arabic 12);
     Engine.level := 0; Engine.rawIndentation := 0 |} /\
  fst (Engine.inferLevel (Engine.classify (Sample.paragraph Sample.messy_line) 0)
                         Engine.fresh) = 0 /\
  Engine.right_edge
    (Engine.render (Engine.classify (Sample.paragraph Sample.messy_line) 0) 0 Sample.config)
    = Engine.marginColumn Sample.config.
Proof. repeat split. Qed.

Example scenario_indented_line :
  Engine.classify (Sample.paragraph (Engine.of_string "    1.1 Background .... 5")) 0 =
  {| Engine.kind := Engine.TOC_ENTRY;
     Engine.label := Engine.of_string "1.1 Background";
     Engine.pageNumber := Some (Engine.Arabic 5);
     Engine.level := 0; Engine.rawIndentation := 4 |} /\
  fst (Engine.inferLevel
         (Engine.classify (Sample.paragraph (Engine.of_string "    1.1 Background .... 5")) 0)
         Engine.fresh) = 1.
Proof. repeat split. Qed.

Example scenario_abbreviation :
  Engine.classify
    (Sample.paragraph (Engine.of_string "API: Application Programming Interface")) 0 =
  {| Engine.kind := Engine.ABBREVIATION;
     Engine.label := Engine.of_string "API" ++ [Engine.space; Engine.em_dash; Engine.space] ++
                     Engine.of_string "Application Programming Interface";
     Engine.pageNumber := None;
     Engine.level := 0; Engine.rawIndentation := 0 |}.
Proof. reflexivity. Qed.

Example scenario_plain_heading :
  Engine.kind (Engine.classify (Sample.paragraph (Engine.of_string "Introduction")) 0)
    = Engine.UNMATCHED /\
  Engine.rewrite Sample.config [Sample.paragraph (Engine.of_string "Introduction")]
    = [Sample.paragraph (Engine.of_string "Introduction")].
Proof. repeat split. Qed.

(** ** The rewrite pass *)

(** The kind of a paragraph does not depend on the level it is
    classified at. *)
Lemma kind_classify_prior (p : Engine.RawParagraph) (a b : nat) :
  Engine.kind (Engine.classify p a) = Engine.kind (Engine.classify p b).
Proof.
  unfold Engine.classify.
  destruct (Engine.classify_abbreviation _); [reflexivity|].
  destruct (Engine.classify_toc _) as [[lbl page]|]; reflexivity.
Qed.

(** The level at which a paragraph is classified is the one thing the
    prior level decides: what is rendered does not depend on it. *)
Lemma render_classify_prior (p : Engine.RawParagraph) (a b lvl : nat)
  (config : Engine.RenderConfig) :
  Engine.render (Engine.classify p a) lvl config
  = Engine.render (Engine.classify p b) lvl config.
Proof.
  unfold Engine.classify.
  destruct (Engine.classify_abbreviation _); [reflexivity|].
  destruct (Engine.classify_toc _) as [[lbl page]|]; reflexivity.
Qed.

Lemma inferLevel_bounded (entry : Engine.ClassifiedEntry) (state : Engine.TrackerState) :
  fst (Engine.inferLevel entry state) <= Engine.maxLevel.
Proof.
  unfold Engine.inferLevel. cbn [fst].
  destruct (Engine.lastIndentation state) as [previous|];
    [destruct (_ && _)|];
    try apply Nat.le_min_l;
    destruct (_ =? 0)%nat; apply Nat.le_min_l.
Qed.

Lemma rewrite_from_pointwise (config : Engine.RenderConfig)
  (document : list Engine.RawParagraph) (state : Engine.TrackerState) :
  Forall2
    (fun p q =>
       Engine.properties q = Engine.properties p /\
       match Engine.kind (Engine.classify p 0) with
       | Engine.UNMATCHED => q = p
       | _ =>
           exists lvl,
             lvl <= Engine.maxLevel /\
             q = Engine.replace p (Engine.render (Engine.classify p 0) lvl config)
       end)
    document (Engine.rewrite_from state config document).
Proof.
  revert state. induction document as [|p rest IH]; intros state; cbn [Engine.rewrite_from].
  - constructor.
  - pose proof (kind_classify_prior p 0 (Engine.lastLevel state)) as K0.
    pose proof (inferLevel_bounded (Engine.classify p (Engine.lastLevel state)) state) as Hb.
    destruct (Engine.kind (Engine.classify p (Engine.lastLevel state))) eqn:K.
    + destruct (Engine.inferLevel _ state) as [lvl state'].
      constructor; [|apply IH]. split; [reflexivity|]. rewrite K0.
      exists lvl. split; [exact Hb|].
      now rewrite (render_classify_prior p 0 (Engine.lastLevel state)).
    + destruct (Engine.inferLevel _ state) as [lvl state'].
      constructor; [|apply IH]. split; [reflexivity|]. rewrite K0.
      exists lvl. split; [exact Hb|].
      now rewrite (render_classify_prior p 0 (Engine.lastLevel state)).
    + constructor; [|apply IH]. split; [reflexivity|]. now rewrite K0.
Qed.

(** The pass over the first [n] paragraphs is the first [n] paragraphs
    of the pass: what comes later changes nothing before it. *)
Lemma rewrite_from_take (config : Engine.RenderConfig) (n : nat)
  (document : list Engine.RawParagraph) (state : Engine.TrackerState) :
  Engine.rewrite_from state config (take n document)
  = take n (Engine.rewrite_from state config document).
Proof.
  revert n state. induction document as [|p rest IH]; intros n state.
  - now destruct n.
  - destruct n as [|n]; [reflexivity|].
    cbn [take Engine.rewrite_from].
    destruct (Engine.kind (Engine.classify p (Engine.lastLevel state))).
    + destruct (Engine.inferLevel _ state) as [lvl state']. cbn [take]. now rewrite IH.
    + destruct (Engine.inferLevel _ state) as [lvl state']. cbn [take]. now rewrite IH.
    + cbn [take]. now rewrite IH.
Qed.

(** C7.  The pass gives one output paragraph for each input paragraph,
    in the same positions.  The output has the length of the input.
    The paragraph at each position is made from the input paragraph at
    that position and from no other: it is that paragraph unchanged when
    the paragraph is UNMATCHED, and otherwise that paragraph with its
    content replaced by the rendering of its own entry, at some level,
    its other properties kept.  And the pass runs forward: the output
    for the first [n] paragraphs does not depend on what follows
    them. *)
Theorem rewrite_total_and_order_preserving
  (config : Engine.RenderConfig) (document : list Engine.RawParagraph) :
  length (Engine.rewrite config document) = length document /\
  Forall2
    (fun p q =>
       Engine.properties q = Engine.properties p /\
       match Engine.kind (Engine.classify p 0) with
       | Engine.UNMATCHED => q = p
       | _ =>
           exists lvl,
             lvl <= Engine.maxLevel /\
             q = Engine.replace p (Engine.render (Engine.classify p 0) lvl config)
       end)
    document (Engine.rewrite config document) /\
  forall n,
    Engine.rewrite config (take n document) = take n (Engine.rewrite config document).
Proof.
  pose proof (rewrite_from_pointwise config document Engine.fresh) as H.
  split; [|split; [exact H|]].
  - symmetry. exact (Forall2_length _ _ _ H).
  - intros n. apply rewrite_from_take.
Qed.

Lemma rewrite_total_and_order_preserving_witness :
  length (Engine.rewrite Sample.config Sample.document) = length Sample.document /\
  Forall2
    (fun p q =>
       Engine.properties q = Engine.properties p /\
       match Engine.kind (Engine.classify p 0) with
       | Engine.UNMATCHED => q = p
       | _ =>
           exists lvl,
             lvl <= Engine.maxLevel /\
             q = Engine.replace p (Engine.render (Engine.classify p 0) lvl Sample.config)
       end)
    Sample.document (Engine.rewrite Sample.config Sample.document) /\
  forall n,
    Engine.rewrite Sample.config (take n Sample.document)
    = take n (Engine.rewrite Sample.config Sample.document).
Proof.
  exact (rewrite_total_and_order_preserving Sample.config Sample.document).
Defined.

Example rewrite_sample_heading_untouched :
  Engine.rewrite Sample.config Sample.document !! 1 = Some Sample.heading.
Proof. vm_compute. reflexivity. Qed.

(** ** The margin *)

(** C9, as the renderer has it.  The leader of a TOC entry has
    [max(minLeaderLength, marginColumn - indentWidth - labelWidth -
    pageNumberWidth)] fill characters.  The page number ends at the
    margin column when indentation, label, the shortest leader and the
    page number fit in it; it ends past the margin when they do not. *)
Theorem page_number_at_margin_when_line_fits
  (entry : Engine.ClassifiedEntry) (lvl : nat) (config : Engine.RenderConfig)
  (page : Engine.PageNumber) :
  Engine.kind entry = Engine.TOC_ENTRY ->
  Engine.pageNumber entry = Some page ->
  let indentW := Engine.indentPerLevel config * lvl in
  let labelW := length (Engine.label entry) in
  let pageW := length (Engine.render_page page) in
  length (Engine.leader (Engine.render entry lvl config)) =
    Nat.max (Engine.minLeaderLength config)
            (Engine.marginColumn config - indentW - labelW - pageW) /\
  (indentW + labelW + Engine.minLeaderLength config + pageW <= Engine.marginColumn config ->
   Engine.right_edge (Engine.render entry lvl config) = Engine.marginColumn config) /\
  (Engine.marginColumn config < indentW + labelW + Engine.minLeaderLength config + pageW ->
   Engine.right_edge (Engine.render entry lvl config) =
     indentW + labelW + Engine.minLeaderLength config + pageW).
Proof.
  intros Hk Hp indentW labelW pageW.
  unfold Engine.right_edge, Engine.line_text, Engine.render. rewrite Hk, Hp.
  cbn [Engine.leader Engine.indentWidth Engine.labelText Engine.pageText].
  rewrite !length_app, !length_replicate. unfold Engine.leaderLength.
  fold indentW labelW pageW.
  repeat split; intros; lia.
Qed.

Lemma page_number_at_margin_when_line_fits_witness :
  length (Engine.leader
            (Engine.render (Engine.classify (Sample.paragraph Sample.messy_line) 0) 1
                           Sample.config)) = 16 /\
  Engine.right_edge
    (Engine.render (Engine.classify (Sample.paragraph Sample.messy_line) 0) 1 Sample.config)
    = 40.
Proof.
  destruct (page_number_at_margin_when_line_fits
              (Engine.classify (Sample.paragraph Sample.messy_line) 0) 1 Sample.config
              (Engine.Arabic 12) eq_refl eq_refl) as (Hleader & Hfits & _).
  split.
  - exact Hleader.
  - apply Hfits. vm_compute. lia.
Defined.

(** C9 as stated fails: under one configuration two TOC entries of one
    document end at different columns, the long one past the margin. *)
Lemma long_label_ends_past_the_margin :
  Engine.kind (Engine.classify (Sample.paragraph Sample.messy_line) 0) = Engine.TOC_ENTRY /\
  Engine.kind (Engine.classify (Sample.paragraph Sample.long_line) 0) = Engine.TOC_ENTRY /\
  map (fun p => length (Engine.paragraph_text p))
      (Engine.rewrite Sample.config
         [Sample.paragraph Sample.messy_line; Sample.paragraph Sample.long_line])
    = [40; 57] /\
  Engine.right_edge
    (Engine.render (Engine.classify (Sample.paragraph Sample.messy_line) 0) 0 Sample.config)
  <> Engine.right_edge
    (Engine.render (Engine.classify (Sample.paragraph Sample.long_line) 0) 0 Sample.config).
Proof. repeat split; vm_compute; (reflexivity || discriminate). Qed.

(** ** Roman page numbers *)

(** A line that ends, after a blank, in one of the tokens [iv], [IV],
    [Iv] has that token as its page number. *)
Lemma find_page_roman_four (before : Engine.text) (token : string) :
  In token ["iv"; "IV"; "Iv"] ->
  Engine.find_page (before ++ Engine.space :: Engine.of_string token) =
  Some (before ++ [Engine.space], Engine.Roman (Engine.of_string token)).
Proof.
  intros Hin. unfold Engine.find_page.
  assert (rev (before ++ Engine.space :: Engine.of_string token) =
          rev (Engine.of_string token) ++ Engine.space :: rev before) as ->.
  { change (Engine.space :: Engine.of_string token)
      with ([Engine.space] ++ Engine.of_string token).
    rewrite !rev_app_distr. cbn [rev app]. now rewrite <- app_assoc. }
  destruct Hin as [<-|[<-|[<-|[]]]];
    match goal with
    | |- context [Engine.of_string ?t] =>
        let v := eval vm_compute in (Engine.of_string t) in
        change (Engine.of_string t) with v
    end;
    simpl; now rewrite rev_involutive.
Qed.

(** C10, as the renderer has it.  Each of [iv], [IV] and [Iv] is the
    page number four.  A Roman page number is printed as it was written
    unless it mixes the two cases, and in capitals when it does: [IV]
    and [Iv] are printed [IV], and [iv] is printed [iv]. *)
Theorem roman_page_numbers_verbatim_unless_mixed
  (entry : Engine.ClassifiedEntry) (lvl : nat) (config : Engine.RenderConfig)
  (token : Engine.text) :
  Engine.kind entry = Engine.TOC_ENTRY ->
  Engine.pageNumber entry = Some (Engine.Roman token) ->
  (Engine.is_mixed_case token = false ->
   Engine.pageText (Engine.render entry lvl config) = token) /\
  (Engine.is_mixed_case token = true ->
   Engine.pageText (Engine.render entry lvl config) = map Engine.to_upper token) /\
  (forall before t, In t ["iv"; "IV"; "Iv"] ->
     Engine.find_page (before ++ Engine.space :: Engine.of_string t)
       = Some (before ++ [Engine.space], Engine.Roman (Engine.of_string t)) /\
     Engine.pageNumber (Engine.classify (Sample.preface t) 0)
       = Some (Engine.Roman (Engine.of_string t)) /\
     Engine.page_value (Engine.Roman (Engine.of_string t)) = Some 4%N) /\
  Engine.pageText (Engine.render (Engine.classify (Sample.preface "IV") 0) lvl config)
    = Engine.of_string "IV" /\
  Engine.pageText (Engine.render (Engine.classify (Sample.preface "Iv") 0) lvl config)
    = Engine.of_string "IV" /\
  Engine.pageText (Engine.render (Engine.classify (Sample.preface "iv") 0) lvl config)
    = Engine.of_string "iv".
Proof.
  intros Hk Hp. unfold Engine.render at 1 2. rewrite Hk, Hp.
  cbn [Engine.pageText Engine.render_page].
  split; [now intros ->|]. split; [now intros ->|]. split.
  - intros before t Ht. split; [now apply find_page_roman_four|].
    destruct Ht as [<-|[<-|[<-|[]]]]; split; reflexivity.
  - repeat split; reflexivity.
Qed.

Lemma roman_page_numbers_verbatim_unless_mixed_witness :
  Engine.pageText
    (Engine.render (Engine.classify (Sample.preface "xii") 0) 0 Sample.config)
  = Engine.of_string "xii".
Proof.
  apply (roman_page_numbers_verbatim_unless_mixed
           (Engine.classify (Sample.preface "xii") 0) 0 Sample.config
           (Engine.of_string "xii") eq_refl eq_refl).
  reflexivity.
Defined.

(** C10 as stated fails on [iv]: the token is not in mixed case, so it
    is printed as written, and that is not [IV]. *)
Lemma lower_case_four_is_not_capitalized :
  Engine.pageNumber (Engine.classify (Sample.preface "iv") 0)
    = Some (Engine.Roman (Engine.of_string "iv")) /\
  Engine.page_value (Engine.Roman (Engine.of_string "iv")) = Some 4%N /\
  Engine.is_mixed_case (Engine.of_string "iv") = false /\
  Engine.pageText (Engine.render (Engine.classify (Sample.preface "iv") 0) 0 Sample.config)
    = Engine.of_string "iv" /\
  Engine.pageText (Engine.render (Engine.classify (Sample.preface "iv") 0) 0 Sample.config)
    <> Engine.of_string "IV".
Proof. repeat split; vm_compute; (reflexivity || discriminate). Qed.


(** ** Scanning text *)

Lemma take_drop_while (f : N -> bool) (t : Engine.text) :
  Engine.take_while f t ++ Engine.drop_while f t = t.
Proof.
  induction t as [|c t IH]; cbn; [reflexivity|].
  destruct (f c); cbn; [now rewrite IH | reflexivity].
Qed.

Lemma take_while_all (f : N -> bool) (t : Engine.text) :
  forallb f (Engine.take_while f t) = true.
Proof.
  induction t as [|c t IH]; cbn; [reflexivity|].
  destruct (f c) eqn:E; cbn; [now rewrite E | reflexivity].
Qed.

Lemma drop_while_head (f : N -> bool) (t : Engine.text) (c : N) (rest : Engine.text) :
  Engine.drop_while f t = c :: rest -> f c = false.
Proof.
  induction t as [|d t IH]; cbn; [discriminate|].
  destruct (f d) eqn:E; [exact IH|]. intros [= <- _]. exact E.
Qed.

(** A run that is followed by a character outside it ends there. *)
Lemma take_while_stop (f : N -> bool) (run rest : Engine.text) (c : N) :
  forallb f run = true -> f c = false ->
  Engine.take_while f (run ++ c :: rest) = run.
Proof.
  intros Hrun Hc. induction run as [|d run IH]; cbn in *.
  - now rewrite Hc.
  - apply andb_true_iff in Hrun as [Hd Hrun]. rewrite Hd. now rewrite IH.
Qed.

Lemma drop_while_stop (f : N -> bool) (run rest : Engine.text) (c : N) :
  forallb f run = true -> f c = false ->
  Engine.drop_while f (run ++ c :: rest) = c :: rest.
Proof.
  intros Hrun Hc. induction run as [|d run IH]; cbn in *.
  - now rewrite Hc.
  - apply andb_true_iff in Hrun as [Hd Hrun]. rewrite Hd. now apply IH.
Qed.

(** When the run ends inside [t], what follows [t] does not matter. *)
Lemma take_while_inside (f : N -> bool) (t rest : Engine.text) :
  Engine.drop_while f t <> [] ->
  Engine.take_while f (t ++ rest) = Engine.take_while f t /\
  Engine.drop_while f (t ++ rest) = Engine.drop_while f t ++ rest.
Proof.
  induction t as [|c t IH]; cbn; [congruence|].
  destruct (f c); [|now split].
  intros H. destruct (IH H) as [-> ->]. now split.
Qed.

(** ** Blanks at the ends *)


Lemma lstrip_starts_clean (t : Engine.text) : Engine.starts_clean (Engine.lstrip t).
Proof.
  unfold Engine.starts_clean, Engine.lstrip.
  destruct (Engine.drop_while Engine.is_space t) as [|c rest] eqn:E; [exact I|].
  exact (drop_while_head _ _ _ _ E).
Qed.

Lemma rstrip_ends_clean (t : Engine.text) : Engine.ends_clean (Engine.rstrip t).
Proof.
  unfold Engine.ends_clean, Engine.rstrip. rewrite rev_involutive.
  destruct (Engine.drop_while Engine.is_space (rev t)) as [|c rest] eqn:E; [exact I|].
  exact (drop_while_head _ _ _ _ E).
Qed.

(** [rstrip] cuts a run of blanks off the end. *)
Lemma rstrip_cuts (t : Engine.text) :
  exists blanks, t = Engine.rstrip t ++ blanks /\ forallb Engine.is_space blanks = true.
Proof.
  exists (rev (Engine.take_while Engine.is_space (rev t))). split.
  - unfold Engine.rstrip. rewrite <- rev_app_distr, take_drop_while.
    now rewrite rev_involutive.
  - rewrite forallb_forall. intros c Hc. apply in_rev in Hc.
    pose proof (take_while_all Engine.is_space (rev t)) as H.
    rewrite forallb_forall in H. now apply H.
Qed.

Lemma rstrip_starts_clean (t : Engine.text) :
  Engine.starts_clean t -> Engine.starts_clean (Engine.rstrip t).
Proof.
  intros Ht. destruct (rstrip_cuts t) as (blanks & E & _).
  destruct (Engine.rstrip t) as [|c rest]; [exact I|].
  rewrite E in Ht. exact Ht.
Qed.

Lemma trim_clean (t : Engine.text) :
  Engine.starts_clean (Engine.trim t) /\ Engine.ends_clean (Engine.trim t).
Proof.
  unfold Engine.trim. split.
  - apply rstrip_starts_clean, lstrip_starts_clean.
  - apply rstrip_ends_clean.
Qed.

Lemma lstrip_id (t : Engine.text) : Engine.starts_clean t -> Engine.lstrip t = t.
Proof.
  destruct t as [|c t]; [reflexivity|]. cbn. now intros ->.
Qed.

Lemma rstrip_id (t : Engine.text) : Engine.ends_clean t -> Engine.rstrip t = t.
Proof.
  unfold Engine.ends_clean, Engine.rstrip. intros H.
  destruct (rev t) as [|c r] eqn:E.
  - cbn. apply (f_equal (@rev N)) in E. now rewrite rev_involutive in E.
  - cbn. rewrite H. rewrite <- E. apply rev_involutive.
Qed.

Lemma trim_id (t : Engine.text) :
  Engine.starts_clean t -> Engine.ends_clean t -> Engine.trim t = t.
Proof.
  intros Hs He. unfold Engine.trim. rewrite (lstrip_id t Hs). now apply rstrip_id.
Qed.

Lemma lstrip_indent (n : nat) (t : Engine.text) :
  Engine.lstrip (replicate n Engine.space ++ t) = Engine.lstrip t.
Proof. induction n as [|n IH]; [reflexivity | exact IH]. Qed.

(** Indentation in front of a clean text is trimmed away. *)
Lemma trim_indent (n : nat) (t : Engine.text) :
  Engine.starts_clean t -> Engine.ends_clean t ->
  Engine.trim (replicate n Engine.space ++ t) = t.
Proof.
  intros Hs He. unfold Engine.trim. rewrite lstrip_indent.
  rewrite (lstrip_id t Hs). now apply rstrip_id.
Qed.

(** The width of [n] blanks in front of a clean text is [n]. *)
Lemma indentation_width_indent (n : nat) (t : Engine.text) :
  Engine.starts_clean t ->
  Engine.indentation_width (replicate n Engine.space ++ t) = n.
Proof.
  intros Hs. unfold Engine.indentation_width.
  assert (Engine.take_while Engine.is_space (replicate n Engine.space ++ t)
          = replicate n Engine.space) as ->.
  { induction n as [|n IH]; cbn [replicate app Engine.take_while].
    - destruct t as [|c t]; [reflexivity|].
      cbn [Engine.take_while]. unfold Engine.starts_clean in Hs. now rewrite Hs.
    - change (Engine.is_space Engine.space) with true. cbv iota. now rewrite IH. }
  induction n as [|n IH]; [reflexivity|].
  cbn [replicate map sum_list sum_list_with].
  change (Engine.space =? Engine.tab)%N with false. cbv iota.
  cbn [replicate map sum_list sum_list_with] in IH. now rewrite IH.
Qed.

Lemma ends_clean_app (a b : Engine.text) :
  b <> [] -> Engine.ends_clean (a ++ b) -> Engine.ends_clean b.
Proof.
  unfold Engine.ends_clean. rewrite rev_app_distr.
  destruct (rev b) as [|c r] eqn:E; [|tauto].
  intros Hb. apply (f_equal (@rev N)) in E. rewrite rev_involutive in E. contradiction.
Qed.

Lemma ends_clean_app_r (a b : Engine.text) :
  b <> [] -> Engine.ends_clean b -> Engine.ends_clean (a ++ b).
Proof.
  unfold Engine.ends_clean. rewrite rev_app_distr.
  destruct (rev b) as [|c r] eqn:E; [|tauto].
  intros Hb. apply (f_equal (@rev N)) in E. rewrite rev_involutive in E. contradiction.
Qed.


(** ** Runs of dots *)

Lemma space_not_dot (c : N) : Engine.is_space c = true -> Engine.is_dot c = false.
Proof.
  unfold Engine.is_space, Engine.is_dot. intros H.
  apply orb_true_iff in H as [H|H]; apply N.eqb_eq in H; subst; reflexivity.
Qed.

Lemma no_runs_blanks (pending : bool) (blanks t : Engine.text) :
  forallb Engine.is_space blanks = true ->
  Engine.no_runs pending (blanks ++ t) = Engine.no_runs pending t.
Proof.
  induction blanks as [|c blanks IH]; cbn [forallb app Engine.no_runs]; [reflexivity|].
  intros H. apply andb_true_iff in H as [Hc Hrest].
  now rewrite (space_not_dot c Hc), Hc, IH.
Qed.

Lemma no_runs_prefix (pending : bool) (a b : Engine.text) :
  Engine.no_runs pending (a ++ b) = true -> Engine.no_runs pending a = true.
Proof.
  revert pending. induction a as [|c a IH]; intros pending; cbn [app Engine.no_runs];
    [reflexivity|].
  destruct (Engine.is_dot c).
  - intros H. apply andb_true_iff in H as [H1 H2]. rewrite H1. cbn. now apply IH.
  - destruct (Engine.is_space c); apply IH.
Qed.

(** A text without runs goes through [strip_runs] unchanged. *)
Lemma strip_runs_fixed (t : Engine.text) :
  (Engine.no_runs false t = true -> Engine.strip_runs None t = t) /\
  (Engine.no_runs true t = true ->
   forall d blanks, Engine.strip_runs (Some (d, false, blanks)) t = d :: blanks ++ t).
Proof.
  induction t as [|c t [IHnone IHsome]]; cbn [Engine.no_runs Engine.strip_runs].
  - split; [reflexivity|]. intros _ d blanks. cbn [Engine.flush app].
    now rewrite app_nil_r.
  - destruct (Engine.is_dot c) eqn:Ed; cbn [negb andb].
    + split; [|discriminate]. intros H. now rewrite (IHsome H).
    + destruct (Engine.is_space c) eqn:Es.
      * split.
        -- intros H. now rewrite (IHnone H).
        -- intros H d blanks. rewrite (IHsome H). now rewrite <- app_assoc.
      * split.
        -- intros H. now rewrite (IHnone H).
        -- intros H d blanks. rewrite (IHnone H). cbn [Engine.flush].
           now rewrite <- app_assoc.
Qed.

(** What [strip_runs] returns has no runs. *)
Lemma strip_runs_no_runs (t : Engine.text) :
  Engine.no_runs false (Engine.strip_runs None t) = true /\
  (forall d blanks, Engine.is_dot d = true -> forallb Engine.is_space blanks = true ->
     Engine.no_runs false (Engine.strip_runs (Some (d, false, blanks)) t) = true) /\
  (forall d blanks pending, forallb Engine.is_space blanks = true ->
     Engine.no_runs pending (Engine.strip_runs (Some (d, true, blanks)) t) = true).
Proof.
  induction t as [|c t (IHnone & IHone & IHmore)]; cbn [Engine.strip_runs Engine.flush].
  - split; [reflexivity|]. split.
    + intros d blanks Hd Hb. cbn [app Engine.no_runs]. rewrite Hd. cbn [negb andb].
      rewrite <- (app_nil_r blanks). now rewrite no_runs_blanks.
    + intros d blanks pending Hb. cbn [app].
      rewrite <- (app_nil_r blanks). now rewrite no_runs_blanks.
  - assert (forall blanks, forallb Engine.is_space blanks = true ->
              Engine.is_space c = true ->
              forallb Engine.is_space (blanks ++ [c]) = true) as Hsnoc.
    { intros blanks Hb Hc. rewrite forallb_app, Hb. cbn. now rewrite Hc. }
    split; [|split].
    + destruct (Engine.is_dot c) eqn:Ed.
      * now apply IHone.
      * cbn [Engine.no_runs]. rewrite Ed. now destruct (Engine.is_space c).
    + intros d blanks Hd Hb. destruct (Engine.is_dot c) eqn:Ed.
      * now apply IHmore.
      * destruct (Engine.is_space c) eqn:Es.
        -- apply IHone; [exact Hd | now apply Hsnoc].
        -- cbn [app Engine.no_runs]. rewrite Hd. cbn [negb andb].
           rewrite (no_runs_blanks true blanks _ Hb).
           cbn [Engine.no_runs]. now rewrite Ed, Es.
    + intros d blanks pending Hb. destruct (Engine.is_dot c) eqn:Ed.
      * now apply IHmore.
      * destruct (Engine.is_space c) eqn:Es.
        -- apply IHmore. now apply Hsnoc.
        -- cbn [app]. rewrite (no_runs_blanks pending blanks _ Hb).
           cbn [Engine.no_runs]. now rewrite Ed, Es.
Qed.

Lemma no_runs_lstrip (pending : bool) (t : Engine.text) :
  Engine.no_runs pending t = true -> Engine.no_runs pending (Engine.lstrip t) = true.
Proof.
  intros H. rewrite <- (take_drop_while Engine.is_space t) in H.
  rewrite no_runs_blanks in H by apply take_while_all. exact H.
Qed.

Lemma no_runs_trim (t : Engine.text) :
  Engine.no_runs false t = true -> Engine.no_runs false (Engine.trim t) = true.
Proof.
  intros H. unfold Engine.trim.
  destruct (rstrip_cuts (Engine.lstrip t)) as (blanks & E & _).
  apply (no_runs_prefix false _ blanks). rewrite <- E. now apply no_runs_lstrip.
Qed.

(** The last character of a text with at least two characters. *)
Lemma rev_cons_cons (c d : N) (t : Engine.text) :
  exists x r, rev (d :: t) = x :: r /\ rev (c :: d :: t) = x :: r ++ [c].
Proof.
  destruct (rev (d :: t)) as [|x r] eqn:E.
  - apply (f_equal (@rev N)) in E. rewrite rev_involutive in E. discriminate.
  - exists x, r. split; [reflexivity|].
    change (rev (c :: d :: t)) with (rev (d :: t) ++ [c]). now rewrite E.
Qed.

(** After a text that ends in neither a dot nor a blank, the scan starts
    afresh. *)
Lemma strip_runs_app (t rest : Engine.text) (run : option (N * bool * Engine.text)) :
  t <> [] -> Engine.ends_clean t -> Engine.ends_in_dot t = false ->
  Engine.strip_runs run (t ++ rest) =
  Engine.strip_runs run t ++ Engine.strip_runs None rest.
Proof.
  revert run. induction t as [|c t IH]; intros run Hne Hclean Hdot; [contradiction|].
  destruct t as [|d t].
  - unfold Engine.ends_clean in Hclean. unfold Engine.ends_in_dot in Hdot.
    cbn [rev app] in Hclean, Hdot.
    cbn [app Engine.strip_runs]. rewrite Hdot, Hclean.
    destruct run as [[[d more] blanks]|]; cbn [Engine.flush]; [|reflexivity].
    now rewrite <- !app_assoc.
  - destruct (rev_cons_cons c d t) as (x & r & E1 & E2).
    assert (Engine.ends_clean (d :: t)) as Hclean'.
    { unfold Engine.ends_clean in *. rewrite E2 in Hclean. now rewrite E1. }
    assert (Engine.ends_in_dot (d :: t) = false) as Hdot'.
    { unfold Engine.ends_in_dot in *. rewrite E2 in Hdot. now rewrite E1. }
    assert (d :: t <> []) as Hne' by discriminate.
    change ((c :: d :: t) ++ rest) with (c :: ((d :: t) ++ rest)).
    cbn [Engine.strip_runs].
    destruct run as [[[d0 more] blanks]|].
    + destruct (Engine.is_dot c); [now apply IH|].
      destruct (Engine.is_space c); [now apply IH|].
      rewrite (IH None Hne' Hclean' Hdot'). now rewrite <- !app_assoc.
    + destruct (Engine.is_dot c); [now apply IH|].
      now rewrite (IH None Hne' Hclean' Hdot').
Qed.

Lemma strip_runs_more_periods (d : N) (n : nat) :
  Engine.strip_runs (Some (d, true, [])) (replicate n Engine.period) = [].
Proof. induction n as [|n IH]; [reflexivity | exact IH]. Qed.

(** A leader of two periods or more is a run. *)
Lemma strip_runs_leader (n : nat) :
  2 <= n -> Engine.strip_runs None (replicate n Engine.period) = [].
Proof.
  destruct n as [|[|n]]; [lia | lia |]. intros _.
  exact (strip_runs_more_periods Engine.period n).
Qed.


(** ** Characters *)

Ltac char_facts :=
  unfold Engine.is_alnum, Engine.is_alpha, Engine.is_upper, Engine.is_lower,
         Engine.is_digit, Engine.is_space, Engine.is_dot, Engine.is_dash,
         Engine.is_arrow,
         Engine.space, Engine.tab, Engine.period, Engine.ellipsis, Engine.arrow,
         Engine.colon, Engine.hyphen, Engine.en_dash, Engine.em_dash,
         Engine.lparen, Engine.rparen in *;
  repeat first
    [ rewrite andb_true_iff in * | rewrite orb_true_iff in *
    | rewrite andb_false_iff in * | rewrite orb_false_iff in *
    | rewrite N.leb_le in * | rewrite N.leb_gt in *
    | rewrite N.eqb_eq in * | rewrite N.eqb_neq in * ];
  lia.

Lemma to_upper_not_lower (c : N) : Engine.is_lower (Engine.to_upper c) = false.
Proof.
  unfold Engine.to_upper. destruct (Engine.is_lower c) eqn:E; [|exact E]. char_facts.
Qed.

Lemma to_upper_alnum (c : N) :
  Engine.is_alnum c = true -> Engine.is_alnum (Engine.to_upper c) = true.
Proof.
  unfold Engine.to_upper. destruct (Engine.is_lower c) eqn:E; [|tauto]. char_facts.
Qed.

Lemma to_upper_idem (c : N) : Engine.to_upper (Engine.to_upper c) = Engine.to_upper c.
Proof.
  unfold Engine.to_upper at 1. now rewrite to_upper_not_lower.
Qed.

Lemma to_upper_digit (c : N) : Engine.is_digit (Engine.to_upper c) = Engine.is_digit c.
Proof.
  unfold Engine.to_upper. destruct (Engine.is_lower c) eqn:E; [|reflexivity].
  assert (Engine.is_digit c = false) as -> by char_facts. char_facts.
Qed.

Lemma digit_is_alnum (c : N) : Engine.is_digit c = true -> Engine.is_alnum c = true.
Proof. char_facts. Qed.

Lemma alnum_not_rparen (c : N) : Engine.is_alnum c = true -> (c =? Engine.rparen)%N = false.
Proof. char_facts. Qed.

Lemma alnum_not_space (c : N) : Engine.is_alnum c = true -> Engine.is_space c = false.
Proof. char_facts. Qed.

Lemma alpha_not_space (c : N) : Engine.is_alpha c = true -> Engine.is_space c = false.
Proof. char_facts. Qed.

Lemma to_upper_keeps_digit (c : N) :
  Engine.is_digit c = true -> Engine.to_upper c = c.
Proof.
  intros H. unfold Engine.to_upper.
  assert (Engine.is_lower c = false) as -> by char_facts. reflexivity.
Qed.

(** ** Page numbers read back *)

Lemma forallb_rev (f : N -> bool) (t : Engine.text) :
  forallb f (rev t) = forallb f t.
Proof.
  induction t as [|c t IH]; [reflexivity|].
  cbn [rev forallb]. rewrite forallb_app, IH. cbn. now rewrite andb_true_r, andb_comm.
Qed.

Lemma text_of_uint_digits (u : Decimal.uint) :
  forallb Engine.is_digit (Engine.text_of_uint u) = true.
Proof. induction u; cbn [Engine.text_of_uint forallb]; try rewrite IHu; reflexivity. Qed.

Lemma uint_of_text_of_uint (u : Decimal.uint) :
  Engine.uint_of_text (Engine.text_of_uint u) = Some u.
Proof.
  induction u; cbn [Engine.text_of_uint Engine.uint_of_text];
    try rewrite IHu; reflexivity.
Qed.

Lemma text_of_uint_nonempty (u : Decimal.uint) :
  u <> Decimal.Nil -> Engine.text_of_uint u <> [].
Proof. destruct u; [congruence | discriminate..]. Qed.

Lemma digit_cons_upper (c : N) :
  Engine.digit_cons (Engine.to_upper c) = Engine.digit_cons c.
Proof.
  unfold Engine.digit_cons. rewrite to_upper_digit.
  destruct (Engine.is_digit c) eqn:E; [|reflexivity].
  now rewrite (to_upper_keeps_digit c E).
Qed.

Lemma uint_of_text_upper (t : Engine.text) :
  Engine.uint_of_text (map Engine.to_upper t) = Engine.uint_of_text t.
Proof.
  induction t as [|c t IH]; [reflexivity|].
  cbn [map Engine.uint_of_text]. now rewrite digit_cons_upper, IH.
Qed.

Lemma map_to_upper_idem (t : Engine.text) :
  map Engine.to_upper (map Engine.to_upper t) = map Engine.to_upper t.
Proof.
  induction t as [|c t IH]; [reflexivity|].
  cbn [map]. now rewrite to_upper_idem, IH.
Qed.

Lemma parseRomanNumeral_upper (t : Engine.text) :
  Engine.parseRomanNumeral (map Engine.to_upper t) = Engine.parseRomanNumeral t.
Proof.
  unfold Engine.parseRomanNumeral. rewrite map_to_upper_idem.
  destruct (Engine.first_match Engine.thousands _) as [m t1].
  destruct (Engine.first_match Engine.hundreds _) as [c t2].
  destruct (Engine.first_match Engine.tens _) as [x t3].
  destruct (Engine.first_match Engine.ones _) as [i t4].
  now destruct t.
Qed.

Lemma upper_not_mixed (t : Engine.text) :
  Engine.is_mixed_case (map Engine.to_upper t) = false.
Proof.
  unfold Engine.is_mixed_case.
  assert (existsb Engine.is_lower (map Engine.to_upper t) = false) as ->.
  { induction t as [|c t IH]; [reflexivity|].
    cbn [map existsb]. now rewrite to_upper_not_lower, IH. }
  apply andb_false_r.
Qed.

Lemma parse_page_well_formed (token : Engine.text) (page : Engine.PageNumber) :
  forallb Engine.is_alnum token = true ->
  Engine.parse_page token = Some page ->
  Engine.well_formed_page page.
Proof.
  intros Halnum. unfold Engine.parse_page.
  destruct token as [|c token]; [discriminate|].
  destruct (Engine.uint_of_text (c :: token)) as [u|] eqn:Eu.
  - intros [= <-]. exact I.
  - destruct (Engine.parseRomanNumeral (c :: token)) as [v|] eqn:Er; [|discriminate].
    intros [= <-]. cbn. repeat split; try assumption; try discriminate. now exists v.
Qed.

Lemma find_page_well_formed (line before : Engine.text) (page : Engine.PageNumber) :
  Engine.find_page line = Some (before, page) ->
  Engine.well_formed_page page.
Proof.
  unfold Engine.find_page. destruct (rev line) as [|c r]; [discriminate|].
  destruct (c =? Engine.rparen)%N.
  - destruct (Engine.drop_while Engine.is_alnum r) as [|o rest]; [discriminate|].
    destruct (o =? Engine.lparen)%N; [|discriminate].
    destruct (Engine.parse_page _) as [pg|] eqn:E; [|discriminate].
    intros [= _ <-]. apply (parse_page_well_formed _ _ (eq_trans (forallb_rev _ _) (take_while_all _ _)) E).
  - destruct (Engine.parse_page _) as [pg|] eqn:E; [|discriminate].
    intros [= _ <-]. apply (parse_page_well_formed _ _ (eq_trans (forallb_rev _ _) (take_while_all _ _)) E).
Qed.

(** The page number as printed is a token, and the classifier reads it
    as a page number that prints the same. *)
Lemma render_page_reads_back (page : Engine.PageNumber) :
  Engine.well_formed_page page ->
  Engine.render_page page <> [] /\
  forallb Engine.is_alnum (Engine.render_page page) = true /\
  exists page',
    Engine.parse_page (Engine.render_page page) = Some page' /\
    Engine.render_page page' = Engine.render_page page.
Proof.
  destruct page as [n|token]; cbn [Engine.well_formed_page Engine.render_page].
  - intros _.
    assert (N.to_uint n <> Decimal.Nil) as Hnil.
    { destruct n as [|p]; [discriminate | apply DecimalPos.Unsigned.to_uint_nonnil]. }
    split; [now apply text_of_uint_nonempty|]. split.
    + pose proof (text_of_uint_digits (N.to_uint n)) as H.
      rewrite forallb_forall in H. rewrite forallb_forall.
      intros c Hc. apply digit_is_alnum. now apply H.
    + exists (Engine.Arabic n). split; [|reflexivity].
      unfold Engine.parse_page.
      destruct (Engine.text_of_uint (N.to_uint n)) as [|c t] eqn:E.
      * now apply text_of_uint_nonempty in E.
      * rewrite <- E, uint_of_text_of_uint. now rewrite DecimalN.Unsigned.of_to.
  - intros (Hne & Halnum & Hnum & v & Hroman).
    destruct (Engine.is_mixed_case token) eqn:Emixed.
    + split; [destruct token; [congruence | discriminate]|]. split.
      * rewrite forallb_forall in Halnum. rewrite forallb_forall.
        intros c Hc. apply in_map_iff in Hc as (c0 & <- & Hc0).
        apply to_upper_alnum. now apply Halnum.
      * exists (Engine.Roman (map Engine.to_upper token)). split.
        -- unfold Engine.parse_page.
           destruct (map Engine.to_upper token) as [|c t] eqn:E.
           ++ destruct token; [congruence | discriminate].
           ++ rewrite <- E, uint_of_text_upper, Hnum, parseRomanNumeral_upper, Hroman.
              reflexivity.
        -- cbn [Engine.render_page]. now rewrite upper_not_mixed.
    + split; [exact Hne|]. split; [exact Halnum|].
      exists (Engine.Roman token). split.
      * unfold Engine.parse_page. destruct token as [|c t]; [congruence|].
        now rewrite Hnum, Hroman.
      * cbn [Engine.render_page]. now rewrite Emixed.
Qed.


(** ** A rendered TOC line, read again *)

Lemma rev_replicate_text (n : nat) (c : N) : rev (replicate n c) = replicate n c.
Proof.
  induction n as [|n IH]; [reflexivity|].
  cbn [replicate rev]. rewrite IH. clear IH.
  induction n as [|n IH]; [reflexivity|]. cbn [replicate app]. now rewrite IH.
Qed.

(** The page number of a rendered line is found behind its leader. *)
Lemma find_page_rendered (lbl page_text : Engine.text) (n : nat)
  (page : Engine.PageNumber) :
  page_text <> [] ->
  forallb Engine.is_alnum page_text = true ->
  1 <= n ->
  Engine.parse_page page_text = Some page ->
  Engine.find_page (lbl ++ replicate n Engine.period ++ page_text) =
  Some (lbl ++ replicate n Engine.period, page).
Proof.
  intros Hne Halnum Hn Hparse. unfold Engine.find_page.
  destruct n as [|n]; [lia|].
  assert (rev (lbl ++ replicate (S n) Engine.period ++ page_text) =
          rev page_text ++ Engine.period :: replicate n Engine.period ++ rev lbl) as ->.
  { rewrite !rev_app_distr, rev_replicate_text. now rewrite <- app_assoc. }
  assert (forallb Engine.is_alnum (rev page_text) = true) as Hrev
    by now rewrite forallb_rev.
  destruct (rev page_text) as [|c r] eqn:E.
  { apply (f_equal (@rev N)) in E. rewrite rev_involutive in E. contradiction. }
  cbn [app].
  assert (Engine.is_alnum c = true) as Hc.
  { cbn [forallb] in Hrev. now apply andb_true_iff in Hrev as [? _]. }
  rewrite (alnum_not_rparen c Hc).
  change (c :: r ++ Engine.period :: replicate n Engine.period ++ rev lbl)
    with ((c :: r) ++ Engine.period :: replicate n Engine.period ++ rev lbl).
  rewrite (take_while_stop Engine.is_alnum (c :: r) _ Engine.period Hrev eq_refl),
          (drop_while_stop Engine.is_alnum (c :: r) _ Engine.period Hrev eq_refl).
  rewrite <- E, rev_involutive, Hparse. cbn [option_map]. f_equal. f_equal.
  change (Engine.period :: replicate n Engine.period ++ rev lbl)
    with (replicate (S n) Engine.period ++ rev lbl).
  now rewrite rev_app_distr, rev_involutive, rev_replicate_text.
Qed.

(** *** Labels *)

Lemma strip_runs_Forall (P : N -> Prop) (t : Engine.text)
  (run : option (N * bool * Engine.text)) :
  Forall P t ->
  match run with
  | Some (d, _, blanks) => P d /\ Forall P blanks
  | None => True
  end ->
  Forall P (Engine.strip_runs run t).
Proof.
  intros Ht. revert run. induction Ht as [|c t Hc Ht IH]; intros run Hrun.
  - cbn [Engine.strip_runs]. destruct run as [[[d more] blanks]|]; [|constructor].
    destruct Hrun as [Hd Hb]. cbn [Engine.flush].
    destruct more; cbn [app]; [exact Hb | now constructor].
  - cbn [Engine.strip_runs]. destruct run as [[[d more] blanks]|].
    + destruct Hrun as [Hd Hb].
      destruct (Engine.is_dot c).
      * apply IH. now split.
      * destruct (Engine.is_space c).
        -- apply IH. split; [exact Hd|]. apply Forall_app. split; [exact Hb | now constructor].
        -- apply Forall_app. split.
           ++ cbn [Engine.flush]. destruct more; cbn [app]; [exact Hb | now constructor].
           ++ constructor; [exact Hc | now apply IH].
    + destruct (Engine.is_dot c).
      * apply IH. split; [exact Hc | constructor].
      * constructor; [exact Hc | now apply IH].
Qed.

Lemma trim_Forall (P : N -> Prop) (t : Engine.text) :
  Forall P t -> Forall P (Engine.trim t).
Proof.
  intros Ht. unfold Engine.trim.
  assert (Forall P (Engine.lstrip t)) as Hl.
  { rewrite <- (take_drop_while Engine.is_space t) in Ht.
    now apply Forall_app in Ht as [_ ?]. }
  destruct (rstrip_cuts (Engine.lstrip t)) as (blanks & E & _).
  rewrite E in Hl. now apply Forall_app in Hl as [? _].
Qed.

Lemma remove_arrows_Forall (t : Engine.text) :
  Forall (fun c => Engine.is_arrow c = false) (Engine.remove_arrows t).
Proof.
  unfold Engine.remove_arrows. apply Forall_forall. intros c Hc.
  apply list_elem_of_filter in Hc as [Hc _].
  now destruct (Engine.is_arrow c).
Qed.

Lemma remove_arrows_id (t : Engine.text) :
  Forall (fun c => Engine.is_arrow c = false) t -> Engine.remove_arrows t = t.
Proof.
  unfold Engine.remove_arrows. induction 1 as [|c t Hc Ht IH]; [reflexivity|].
  rewrite filter_cons_True by (now rewrite Hc). now rewrite IH.
Qed.

(** What a cleaned label is like. *)
Lemma clean_label_facts (before : Engine.text) :
  Forall (fun c => Engine.is_arrow c = false) (Engine.clean_label before) /\
  Engine.no_runs false (Engine.clean_label before) = true /\
  Engine.starts_clean (Engine.clean_label before) /\
  Engine.ends_clean (Engine.clean_label before).
Proof.
  unfold Engine.clean_label. split; [|split].
  - apply trim_Forall. unfold Engine.remove_dot_runs.
    apply strip_runs_Forall; [apply remove_arrows_Forall | exact I].
  - apply no_runs_trim. apply strip_runs_no_runs.
  - apply trim_clean.
Qed.

Lemma has_content_nonempty (t : Engine.text) : Engine.has_content t = true -> t <> [].
Proof. now destruct t. Qed.

(** Cleaning a label followed by its leader gives the label back. *)
Lemma clean_label_rendered (lbl : Engine.text) (n : nat) :
  lbl <> [] ->
  Forall (fun c => Engine.is_arrow c = false) lbl ->
  Engine.no_runs false lbl = true ->
  Engine.starts_clean lbl -> Engine.ends_clean lbl ->
  Engine.ends_in_dot lbl = false ->
  2 <= n ->
  Engine.clean_label (lbl ++ replicate n Engine.period) = lbl.
Proof.
  intros Hne Harrow Hruns Hs He Hdot Hn. unfold Engine.clean_label.
  rewrite remove_arrows_id.
  - unfold Engine.remove_dot_runs.
    rewrite (strip_runs_app lbl _ None Hne He Hdot), (strip_runs_leader n Hn), app_nil_r.
    rewrite (proj1 (strip_runs_fixed lbl) Hruns). now apply trim_id.
  - apply Forall_app. split; [exact Harrow|].
    apply Forall_forall. intros c Hc. apply elem_of_replicate in Hc as [-> _]. reflexivity.
Qed.


(** ** An abbreviation line, read again *)

Lemma option_map_none {A B : Type} (f : A -> B) (x : option A) :
  option_map f x = None -> x = None.
Proof. now destruct x. Qed.

Lemma drop_while_nil_all (f : N -> bool) (t : Engine.text) :
  Engine.drop_while f t = [] -> forallb f t = true.
Proof.
  intros H. pose proof (take_drop_while f t) as E. rewrite H, app_nil_r in E.
  rewrite <- E. apply take_while_all.
Qed.

(** Whether a line ends in a page number is decided by its end: what
    stands before a token boundary plays no part. *)
Lemma find_page_suffix (a b e : Engine.text) :
  e <> [] -> Engine.ends_in_boundary a -> Engine.ends_in_boundary b ->
  Engine.find_page (a ++ e) = None -> Engine.find_page (b ++ e) = None.
Proof.
  intros He Ha Hb. unfold Engine.find_page, Engine.ends_in_boundary in *.
  rewrite !rev_app_distr.
  destruct (rev e) as [|c r] eqn:Ee.
  { apply (f_equal (@rev N)) in Ee. rewrite rev_involutive in Ee. contradiction. }
  destruct (rev a) as [|x a'] eqn:Ea; [contradiction|]. destruct Ha as [Hx Hxp].
  destruct (rev b) as [|y b'] eqn:Eb; [contradiction|]. destruct Hb as [Hy Hyp].
  cbn [app]. destruct (c =? Engine.rparen)%N.
  - destruct (Engine.drop_while Engine.is_alnum r) as [|o rest] eqn:Ed.
    + apply drop_while_nil_all in Ed.
      rewrite (drop_while_stop Engine.is_alnum r b' y Ed Hy), Hyp. reflexivity.
    + assert (Engine.drop_while Engine.is_alnum r <> []) as Hne by (rewrite Ed; discriminate).
      destruct (take_while_inside Engine.is_alnum r (x :: a') Hne) as [-> ->].
      destruct (take_while_inside Engine.is_alnum r (y :: b') Hne) as [-> ->].
      rewrite Ed. cbn [app]. destruct (o =? Engine.lparen)%N; [|reflexivity].
      intros H. apply option_map_none in H. now rewrite H.
  - change (c :: r ++ x :: a') with ((c :: r) ++ x :: a').
    change (c :: r ++ y :: b') with ((c :: r) ++ y :: b').
    destruct (Engine.drop_while Engine.is_alnum (c :: r)) as [|o rest] eqn:Ed.
    + apply drop_while_nil_all in Ed.
      rewrite (take_while_stop Engine.is_alnum (c :: r) a' x Ed Hx),
              (take_while_stop Engine.is_alnum (c :: r) b' y Ed Hy).
      intros H. apply option_map_none in H. now rewrite H.
    + assert (Engine.drop_while Engine.is_alnum (c :: r) <> []) as Hne
        by (rewrite Ed; discriminate).
      destruct (take_while_inside Engine.is_alnum (c :: r) (x :: a') Hne) as [-> _].
      destruct (take_while_inside Engine.is_alnum (c :: r) (y :: b') Hne) as [-> _].
      intros H. apply option_map_none in H. now rewrite H.
Qed.

Lemma boundary_snoc (t : Engine.text) (c : N) :
  Engine.is_alnum c = false -> (c =? Engine.lparen)%N = false ->
  Engine.ends_in_boundary (t ++ [c]).
Proof.
  intros H1 H2. unfold Engine.ends_in_boundary. rewrite rev_app_distr. now split.
Qed.

Lemma boundary_blanks (t blanks : Engine.text) :
  blanks <> [] -> forallb Engine.is_space blanks = true ->
  Engine.ends_in_boundary (t ++ blanks).
Proof.
  intros Hne Hb. unfold Engine.ends_in_boundary. rewrite rev_app_distr.
  destruct (rev blanks) as [|c r] eqn:E.
  { apply (f_equal (@rev N)) in E. rewrite rev_involutive in E. contradiction. }
  cbn [app]. assert (Engine.is_space c = true) as Hc.
  { rewrite forallb_forall in Hb. apply Hb. apply in_rev. rewrite E. now left. }
  clear - Hc. split; char_facts.
Qed.

Lemma separator_char_boundary (c : N) :
  (c =? Engine.colon)%N || Engine.is_dash c = true ->
  Engine.is_alnum c = false /\ (c =? Engine.lparen)%N = false /\ Engine.is_space c = false.
Proof. intros H. repeat split; char_facts. Qed.

(** The normalized label, read as a line. *)
Lemma abbreviation_label_again (token e : Engine.text) :
  token <> [] -> forallb Engine.is_alpha token = true ->
  (1 <=? length token)%nat && (length token <=? 10)%nat &&
    (Engine.all_caps token || Engine.title_case token) = true ->
  e <> [] -> Engine.starts_clean e ->
  Engine.find_page (token ++ Engine.abbreviation_separator ++ e) = None ->
  Engine.classify_abbreviation (token ++ Engine.abbreviation_separator ++ e) =
  Some (token ++ Engine.abbreviation_separator ++ e).
Proof.
  intros Hne Halpha Hcond He Hs Hpage. unfold Engine.classify_abbreviation.
  rewrite Hpage.
  change (token ++ Engine.abbreviation_separator ++ e)
    with (token ++ Engine.space :: Engine.em_dash :: Engine.space :: e).
  rewrite (take_while_stop Engine.is_alpha token _ Engine.space Halpha eq_refl),
          (drop_while_stop Engine.is_alpha token _ Engine.space Halpha eq_refl).
  rewrite Hcond.
  change (Engine.drop_while Engine.is_space
            (Engine.space :: Engine.em_dash :: Engine.space :: e))
    with (Engine.em_dash :: Engine.space :: e).
  change ((Engine.em_dash =? Engine.colon)%N || Engine.is_dash Engine.em_dash) with true.
  cbv iota.
  change (Engine.lstrip (Engine.space :: e)) with (Engine.lstrip e).
  rewrite (lstrip_id e Hs). destruct e as [|e0 expansion]; [contradiction|]. reflexivity.
Qed.

(** The label of an abbreviation entry is classified as the same
    abbreviation entry. *)
Lemma abbreviation_reads_back (line lbl : Engine.text) :
  Engine.ends_clean line ->
  Engine.classify_abbreviation line = Some lbl ->
  Engine.classify_abbreviation lbl = Some lbl /\
  Engine.starts_clean lbl /\ Engine.ends_clean lbl.
Proof.
  intros Hclean H. unfold Engine.classify_abbreviation in H.
  pose proof (take_drop_while Engine.is_alpha line) as Hline.
  pose proof (take_while_all Engine.is_alpha line) as Halpha.
  remember (Engine.take_while Engine.is_alpha line) as token eqn:Etoken.
  remember (Engine.drop_while Engine.is_alpha line) as rest eqn:Erest.
  clear Etoken Erest.
  destruct ((1 <=? length token)%nat && (length token <=? 10)%nat &&
            (Engine.all_caps token || Engine.title_case token)) eqn:Hcond; [|discriminate].
  assert (token <> []) as Hne.
  { intros E. rewrite E in Hcond. discriminate. }
  destruct (Engine.find_page line) as [found|] eqn:Hpage; [discriminate|].
  pose proof (take_drop_while Engine.is_space rest) as Hrest.
  pose proof (take_while_all Engine.is_space rest) as Hblanks.
  remember (Engine.take_while Engine.is_space rest) as blanks eqn:Eblanks.
  clear Eblanks.
  destruct (Engine.drop_while Engine.is_space rest) as [|c after] eqn:Hdrop; [discriminate|].
  pose proof (drop_while_head _ _ _ _ Hdrop) as Hc.
  assert (Engine.starts_clean (token ++ Engine.abbreviation_separator ++ c :: after)
          /\ forall e, Engine.starts_clean (token ++ Engine.abbreviation_separator ++ e))
    as [_ Hstart].
  { assert (forall e, Engine.starts_clean (token ++ Engine.abbreviation_separator ++ e)) as G.
    { intros e. destruct token as [|t0 token']; [contradiction|].
      cbn [app Engine.starts_clean]. cbn [forallb] in Halpha.
      apply andb_true_iff in Halpha as [Ht0 _]. now apply alpha_not_space. }
    split; [apply G | exact G]. }
  assert (forall a e, e <> [] -> Engine.starts_clean e -> Engine.ends_in_boundary a ->
            line = a ++ e ->
            Engine.classify_abbreviation (token ++ Engine.abbreviation_separator ++ e)
              = Some (token ++ Engine.abbreviation_separator ++ e) /\
            Engine.ends_clean (token ++ Engine.abbreviation_separator ++ e)) as Hagain.
  { intros a e He Hs Ha Hsplit. split.
    - apply abbreviation_label_again; try assumption.
      rewrite app_assoc. apply (find_page_suffix a); try assumption.
      + change (token ++ Engine.abbreviation_separator)
          with (token ++ [Engine.space; Engine.em_dash] ++ [Engine.space]).
        rewrite app_assoc. now apply boundary_snoc.
      + now rewrite <- Hsplit.
    - rewrite app_assoc. apply ends_clean_app_r; [exact He|].
      apply (ends_clean_app a); [exact He|]. now rewrite <- Hsplit. }
  destruct ((c =? Engine.colon)%N || Engine.is_dash c) eqn:Hsep.
  - pose proof (take_drop_while Engine.is_space after) as Hafter.
    pose proof (take_while_all Engine.is_space after) as Hblanks2.
    remember (Engine.take_while Engine.is_space after) as blanks2 eqn:Eblanks2.
    clear Eblanks2.
    unfold Engine.lstrip in H.
    destruct (Engine.drop_while Engine.is_space after) as [|e0 expansion] eqn:Hexp;
      [discriminate|].
    pose proof (drop_while_head _ _ _ _ Hexp) as He0.
    injection H as <-.
    destruct (separator_char_boundary c Hsep) as (Hc1 & Hc2 & _).
    destruct (Hagain ((token ++ blanks ++ [c]) ++ blanks2)
                     (e0 :: expansion)) as [G1 G2]; try discriminate; try assumption.
    + destruct blanks2 as [|b0 bs].
      * rewrite app_nil_r, app_assoc. now apply boundary_snoc.
      * apply boundary_blanks; [discriminate | exact Hblanks2].
    + rewrite <- Hline, <- Hrest, <- Hafter. now rewrite <- !app_assoc.
    + split; [exact G1|]. split; [apply Hstart | exact G2].
  - destruct (2 <=? length blanks)%nat eqn:Hlen; [|discriminate].
    injection H as <-.
    destruct (Hagain (token ++ blanks) (c :: after)) as [G1 G2];
      try discriminate; try assumption.
    + apply boundary_blanks; [|exact Hblanks].
      intros E. rewrite E in Hlen. discriminate.
    + rewrite <- Hline, <- Hrest. now rewrite <- app_assoc.
    + split; [exact G1|]. split; [apply Hstart | exact G2].
Qed.


(** ** The tracker on a second pass *)

(** An entry that was rendered at [lvl] and is read back with the
    indentation of [lvl] is given [lvl] again. *)
Lemma inferLevel_again (e e' : Engine.ClassifiedEntry) (first second : Engine.TrackerState) :
  Engine.follows first second ->
  Engine.label e' = Engine.label e ->
  Engine.rawIndentation e' = Engine.indentUnit * fst (Engine.inferLevel e first) ->
  fst (Engine.inferLevel e' second) = fst (Engine.inferLevel e first) /\
  Engine.follows (snd (Engine.inferLevel e first)) (snd (Engine.inferLevel e' second)).
Proof.
  intros (Hlevel & Hmax & Hind) Hlabel Hraw.
  assert (fst (Engine.inferLevel e first) <= Engine.maxLevel) as Hbound.
  { unfold Engine.inferLevel. cbn [fst].
    destruct (Engine.lastIndentation first) as [previous|];
      repeat match goal with |- context [if ?b then _ else _] => destruct b end;
      apply Nat.le_min_l. }
  assert (fst (Engine.inferLevel e' second) = fst (Engine.inferLevel e first)) as Hsame.
  { remember (fst (Engine.inferLevel e first)) as lvl eqn:Elvl.
    unfold Engine.inferLevel at 1. cbn [fst]. rewrite Hraw, Hlabel.
    rewrite (Nat.mul_comm Engine.indentUnit lvl), Nat.div_mul by discriminate.
    rewrite (Nat.min_r _ _ Hbound).
    destruct (Nat.eqb_spec lvl 0) as [Hzero|Hpos].
    - assert (Nat.min Engine.maxLevel (Engine.numbering_level (Engine.label e)) = 0) as ->.
      { unfold Engine.inferLevel in Elvl. cbn [fst] in Elvl.
        destruct (Engine.lastIndentation first) as [previous|];
          repeat match type of Elvl with
                 | context [if ?b then _ else _] => destruct b eqn:?
                 end;
          unfold Engine.maxLevel in *; try lia;
          match goal with
          | H : (_ =? 0)%nat = false |- _ => apply Nat.eqb_neq in H; lia
          end. }
      rewrite Hzero, Nat.mul_0_l.
      destruct (Engine.lastIndentation second) as [i|]; [|reflexivity].
      destruct (i <? 0)%nat eqn:Hlt; [apply Nat.ltb_lt in Hlt; lia | reflexivity].
    - destruct (Engine.lastIndentation second) as [i|] eqn:Ei; [|reflexivity].
      destruct (Engine.lastIndentation first) as [previous|]; [|contradiction].
      subst i. rewrite Hlevel.
      destruct ((Engine.indentUnit * Engine.lastLevel first <? lvl * Engine.indentUnit)%nat
                && (lvl <=? Engine.lastLevel first)%nat) eqn:Htie; [|reflexivity].
      apply andb_true_iff in Htie as [H1 H2].
      apply Nat.ltb_lt in H1. apply Nat.leb_le in H2.
      unfold Engine.indentUnit in H1. lia. }
  split; [exact Hsame|].
  unfold Engine.follows.
  assert (forall x s, Engine.lastLevel (snd (Engine.inferLevel x s))
                      = fst (Engine.inferLevel x s)) as Hlast by reflexivity.
  assert (forall x s, Engine.lastIndentation (snd (Engine.inferLevel x s))
                      = Some (Engine.rawIndentation x)) as Hlasti by reflexivity.
  rewrite !Hlast, !Hlasti, Hsame. repeat split; [exact Hbound | exact Hraw].
Qed.


(** ** A rendered paragraph, classified again *)

Lemma find_page_excludes_abbreviation (line : Engine.text) :
  Engine.find_page line <> None -> Engine.classify_abbreviation line = None.
Proof.
  intros H. unfold Engine.classify_abbreviation.
  destruct (_ && _ && _); [|reflexivity].
  now destruct (Engine.find_page line).
Qed.

Lemma starts_clean_app (a b : Engine.text) :
  a <> [] -> Engine.starts_clean a -> Engine.starts_clean (a ++ b).
Proof. now destruct a. Qed.

Lemma alnum_ends_clean (t : Engine.text) :
  forallb Engine.is_alnum t = true -> Engine.ends_clean t.
Proof.
  intros H. unfold Engine.ends_clean. rewrite <- forallb_rev in H.
  destruct (rev t) as [|c r]; [exact I|].
  cbn [forallb] in H. apply andb_true_iff in H as [Hc _]. now apply alnum_not_space.
Qed.

Lemma paragraph_text_replace (p : Engine.RawParagraph) (l : Engine.RenderedLine) :
  Engine.paragraph_text (Engine.replace p l) = Engine.line_text l.
Proof. unfold Engine.paragraph_text, Engine.replace. cbn. apply app_nil_r. Qed.

(** A rendered abbreviation is classified as the abbreviation it was
    rendered from, at the indentation it was rendered with. *)
Lemma rendered_abbreviation_again (p : Engine.RawParagraph) (prior' lvl : nat)
  (config : Engine.RenderConfig) (lbl : Engine.text) :
  Engine.classify_abbreviation (Engine.trim (Engine.paragraph_text p)) = Some lbl ->
  Engine.classify
    (Engine.replace p
       {| Engine.indentWidth := Engine.indentPerLevel config * lvl;
          Engine.labelText := lbl; Engine.leader := []; Engine.pageText := [] |}) prior' =
  {| Engine.kind := Engine.ABBREVIATION; Engine.label := lbl; Engine.pageNumber := None;
     Engine.level := prior';
     Engine.rawIndentation := Engine.indentPerLevel config * lvl |}.
Proof.
  intros Habbr.
  destruct (abbreviation_reads_back _ lbl (proj2 (trim_clean _)) Habbr) as (Hagain & Hs & He).
  unfold Engine.classify. rewrite paragraph_text_replace.
  unfold Engine.line_text. cbn [Engine.indentWidth Engine.labelText Engine.leader Engine.pageText].
  rewrite !app_nil_r.
  rewrite (trim_indent _ lbl Hs He), (indentation_width_indent _ lbl Hs), Hagain.
  reflexivity.
Qed.

(** A rendered TOC line is classified as a TOC entry with the label it
    was rendered from and a page number that prints the same. *)
Lemma rendered_toc_again (prior' indent n : nat) (p : Engine.RawParagraph)
  (before : Engine.text) (page : Engine.PageNumber) :
  Engine.well_formed_page page ->
  Engine.has_content (Engine.clean_label before) = true ->
  Engine.ends_in_dot (Engine.clean_label before) = false ->
  2 <= n ->
  exists page',
    Engine.render_page page' = Engine.render_page page /\
    Engine.classify
      (Engine.replace p
         {| Engine.indentWidth := indent;
            Engine.labelText := Engine.clean_label before;
            Engine.leader := replicate n Engine.period;
            Engine.pageText := Engine.render_page page |}) prior' =
    {| Engine.kind := Engine.TOC_ENTRY; Engine.label := Engine.clean_label before;
       Engine.pageNumber := Some page'; Engine.level := prior';
       Engine.rawIndentation := indent |}.
Proof.
  intros Hpage Hcontent Hdot Hn.
  destruct (clean_label_facts before) as (Harrow & Hruns & Hs & He).
  pose proof (has_content_nonempty _ Hcontent) as Hne.
  destruct (render_page_reads_back page Hpage) as (Hpne & Halnum & page' & Hparse & Hprint).
  exists page'. split; [exact Hprint|].
  remember (Engine.clean_label before) as lbl eqn:Elbl.
  remember (Engine.render_page page) as printed eqn:Eprinted.
  assert (Engine.find_page (lbl ++ replicate n Engine.period ++ printed)
          = Some (lbl ++ replicate n Engine.period, page')) as Hfind.
  { apply find_page_rendered; try assumption. lia. }
  assert (Engine.starts_clean (lbl ++ replicate n Engine.period ++ printed)) as Hs'.
  { now apply starts_clean_app. }
  assert (Engine.ends_clean (lbl ++ replicate n Engine.period ++ printed)) as He'.
  { rewrite app_assoc. apply ends_clean_app_r; [exact Hpne|]. now apply alnum_ends_clean. }
  unfold Engine.classify. rewrite paragraph_text_replace.
  unfold Engine.line_text. cbn [Engine.indentWidth Engine.labelText Engine.leader Engine.pageText].
  rewrite (trim_indent _ _ Hs' He'), (indentation_width_indent _ _ Hs').
  rewrite find_page_excludes_abbreviation by (rewrite Hfind; discriminate).
  unfold Engine.classify_toc. rewrite Hfind.
  rewrite (clean_label_rendered lbl n Hne Harrow Hruns Hs He Hdot Hn).
  rewrite Hcontent. reflexivity.
Qed.


(** ** A second pass *)

Lemma rewrite_from_again (config : Engine.RenderConfig)
  (document : list Engine.RawParagraph) (first second : Engine.TrackerState) :
  Engine.reads_back config ->
  Engine.follows first second ->
  Forall Engine.label_open document ->
  Engine.rewrite_from second config (Engine.rewrite_from first config document) =
  Engine.rewrite_from first config document.
Proof.
  intros (Hchar & Hmin & Hunit) Hfollows Hopen. revert first second Hfollows.
  induction Hopen as [|p rest Hp Hrest IH]; intros first second Hfollows; [reflexivity|].
  cbn [Engine.rewrite_from].
  destruct (Engine.classify_abbreviation (Engine.trim (Engine.paragraph_text p)))
    as [lbl|] eqn:Ha.
  - (* an abbreviation *)
    assert (forall prior, Engine.classify p prior =
              {| Engine.kind := Engine.ABBREVIATION; Engine.label := lbl;
                 Engine.pageNumber := None; Engine.level := prior;
                 Engine.rawIndentation :=
                   Engine.indentation_width (Engine.paragraph_text p) |}) as Hclass.
    { intros prior. unfold Engine.classify. now rewrite Ha. }
    rewrite Hclass. cbn [Engine.kind].
    destruct (Engine.inferLevel _ first) as [lvl first'] eqn:E1.
    cbn [Engine.rewrite_from].
    unfold Engine.render. cbn [Engine.kind Engine.pageNumber Engine.label].
    rewrite (rendered_abbreviation_again p (Engine.lastLevel second) lvl config lbl Ha).
    cbn [Engine.kind].
    match goal with
    | |- context [Engine.inferLevel ?e' second] =>
        destruct (inferLevel_again
                    {| Engine.kind := Engine.ABBREVIATION; Engine.label := lbl;
                       Engine.pageNumber := None; Engine.level := Engine.lastLevel first;
                       Engine.rawIndentation :=
                         Engine.indentation_width (Engine.paragraph_text p) |}
                    e' first second Hfollows eq_refl) as [Hlvl Hnext];
        [ rewrite E1; cbn [fst Engine.rawIndentation]; now rewrite Hunit
        | destruct (Engine.inferLevel e' second) as [lvl' second'] eqn:E2 ]
    end.
    rewrite E1 in Hlvl, Hnext. cbn [fst snd] in Hlvl, Hnext. subst lvl'.
    rewrite (IH _ _ Hnext). f_equal.
  - destruct (Engine.classify_toc (Engine.trim (Engine.paragraph_text p)))
      as [[lbl page]|] eqn:Ht.
    + (* a TOC entry *)
      assert (forall prior, Engine.classify p prior =
                {| Engine.kind := Engine.TOC_ENTRY; Engine.label := lbl;
                   Engine.pageNumber := Some page; Engine.level := prior;
                   Engine.rawIndentation :=
                     Engine.indentation_width (Engine.paragraph_text p) |}) as Hclass.
      { intros prior. unfold Engine.classify. now rewrite Ha, Ht. }
      unfold Engine.label_open in Hp. rewrite Hclass in Hp. cbn [Engine.kind Engine.label] in Hp.
      specialize (Hp eq_refl).
      unfold Engine.classify_toc in Ht.
      destruct (Engine.find_page _) as [[before pg]|] eqn:Hfind; [|discriminate].
      destruct (Engine.has_content (Engine.clean_label before)) eqn:Hcontent; [|discriminate].
      injection Ht as <- <-.
      pose proof (find_page_well_formed _ _ _ Hfind) as Hpage.
      rewrite Hclass. cbn [Engine.kind].
      destruct (Engine.inferLevel _ first) as [lvl first'] eqn:E1.
      cbn [Engine.rewrite_from].
      unfold Engine.render. cbn [Engine.kind Engine.pageNumber Engine.label].
      rewrite Hchar.
      match goal with
      | |- context [replicate ?n Engine.period] =>
          assert (2 <= n) as Hn
            by (unfold Engine.leaderLength; etransitivity; [exact Hmin | apply Nat.le_max_l]);
          destruct (rendered_toc_again (Engine.lastLevel second)
                      (Engine.indentPerLevel config * lvl) n p before pg
                      Hpage Hcontent Hp Hn) as (page' & Hprint & Hagain)
      end.
      rewrite Hagain. cbn [Engine.kind].
      match goal with
      | |- context [Engine.inferLevel ?e' second] =>
          destruct (inferLevel_again
                      {| Engine.kind := Engine.TOC_ENTRY;
                         Engine.label := Engine.clean_label before;
                         Engine.pageNumber := Some pg; Engine.level := Engine.lastLevel first;
                         Engine.rawIndentation :=
                           Engine.indentation_width (Engine.paragraph_text p) |}
                      e' first second Hfollows eq_refl) as [Hlvl Hnext];
          [ rewrite E1; cbn [fst Engine.rawIndentation]; now rewrite Hunit
          | destruct (Engine.inferLevel e' second) as [lvl' second'] eqn:E2 ]
      end.
      rewrite E1 in Hlvl, Hnext. cbn [fst snd] in Hlvl, Hnext. subst lvl'.
      rewrite (IH _ _ Hnext). f_equal.
      cbn [Engine.kind Engine.pageNumber Engine.label].
      rewrite Hprint. reflexivity.
    + (* neither *)
      assert (forall prior, Engine.kind (Engine.classify p prior) = Engine.UNMATCHED) as Hclass.
      { intros prior. unfold Engine.classify. now rewrite Ha, Ht. }
      rewrite !Hclass. cbn [Engine.rewrite_from]. rewrite !Hclass.
      now rewrite (IH _ _ Hfollows).
Qed.

(** On this model, with its literal fill characters and its indent
    unit of four: under a configuration that the classifier reads back
    (leader of periods, two at least, one indent unit per level), a
    document none of whose TOC labels ends in a dot is rewritten to a
    document that a second pass leaves as it is. *)
Theorem second_pass_changes_nothing
  (config : Engine.RenderConfig) (document : list Engine.RawParagraph) :
  Engine.reads_back config ->
  Forall Engine.label_open document ->
  Engine.rewrite config (Engine.rewrite config document) =
  Engine.rewrite config document.
Proof.
  intros Hconfig Hopen. unfold Engine.rewrite.
  apply rewrite_from_again; [exact Hconfig | | exact Hopen].
  unfold Engine.follows, Engine.fresh, Engine.maxLevel. cbn. repeat split. lia.
Qed.

Lemma second_pass_changes_nothing_witness :
  Engine.rewrite Sample.config (Engine.rewrite Sample.config Sample.document) =
  Engine.rewrite Sample.config Sample.document.
Proof.
  apply (second_pass_changes_nothing Sample.config Sample.document).
  - unfold Engine.reads_back. repeat split; [cbn; lia].
  - repeat constructor; intros _; vm_compute; reflexivity.
Defined.

(** On this model a second pass can change the output, once for each
    condition above.  With a leader of hyphens the second pass takes the
    leader for a part of the label and adds a leader.  With a leader of
    one period the period stays in the label.  With two units per level
    an entry indented by one level is read back at level zero.  With a
    label that ends in a dot and a line longer than the margin the dot
    is taken for a part of the leader.  A renderer that sets a tab stop
    instead of fill characters, which the specification allows as well,
    or a tracker with another indent unit, can behave otherwise. *)
Lemma second_pass_differs :
  Engine.rewrite Sample.config_dashes
    (Engine.rewrite Sample.config_dashes [Sample.paragraph Sample.messy_line])
  <> Engine.rewrite Sample.config_dashes [Sample.paragraph Sample.messy_line] /\
  Engine.rewrite Sample.config_short_leader
    (Engine.rewrite Sample.config_short_leader
       [Sample.paragraph (Engine.of_string "Some long label 7")])
  <> Engine.rewrite Sample.config_short_leader
       [Sample.paragraph (Engine.of_string "Some long label 7")] /\
  Engine.rewrite Sample.config_narrow_indent
    (Engine.rewrite Sample.config_narrow_indent
       [Sample.paragraph (Engine.of_string "    Background 5")])
  <> Engine.rewrite Sample.config_narrow_indent
       [Sample.paragraph (Engine.of_string "    Background 5")] /\
  Engine.rewrite Sample.config_narrow_margin
    (Engine.rewrite Sample.config_narrow_margin
       [Sample.paragraph (Engine.of_string "Section 1. 5")])
  <> Engine.rewrite Sample.config_narrow_margin
       [Sample.paragraph (Engine.of_string "Section 1. 5")].
Proof.
  repeat split; intros H; apply (f_equal Sample.texts) in H;
    vm_compute in H; discriminate H.
Qed.

(* ===================================================================== *)
(** * Further properties of the handlers *)
(* ===================================================================== *)

(** ** The processing handler, event by event *)

(** X1.  The handler starts the engine for a POST that names, by a non-empty
    string, a file that exists in the uploads directory, once the
    outputs directory is there; for no other request; and the command is
    the one built from that name, whatever else the body holds. *)
Theorem engine_spawned_exactly_for_an_upload
  (cwd : list string) (req : Process.request) (fs0 : Fs.state)
  (trace : list Process.event) (cmd : list string) :
  Process.spawned (Process.handler cwd req fs0 trace) = Some cmd <->
  exists name fs1,
    Process.located cwd req fs0 name fs1 /\ cmd = Process.command cwd name.
Proof.
  split; [|intros (name & fs1 & Hloc & ->); now rewrite (handler_spawns _ _ _ _ _ Hloc)].
  pose (none := fun r : Process.result => Process.spawned r = None).
  assert (forall r fs, none (Process.reply r fs)) as Hreply by reflexivity.
  assert (forall fs, none (Process.throw fs)) as Hthrow by reflexivity.
  unfold none in *. unfold Process.handler.
  destruct (String.eqb_spec (Process.method req) "POST") as [Hm|Hm]; cbn [negb];
    [|rewrite Hreply; discriminate].
  destruct (Process.parsed req) as [properties|] eqn:Hp; [|rewrite Hthrow; discriminate].
  rewrite <- (body_parsed _ _ Hp).
  destruct (Process.body req !! "filename") as [[| |b|n|name|items|fields]|] eqn:Hf;
    cbn [default from_option id];
    (destruct (Js.truthy _) eqn:Ht; cbn [negb]; [|rewrite Hreply; discriminate]);
    try (rewrite Hthrow; discriminate).
  destruct (Fs.existsSync (Process.inputPath cwd name) fs0) eqn:Hin; cbn [negb];
    [|rewrite Hreply; discriminate].
  destruct (Fs.ensure_dir (Path.join cwd ["outputs"]) fs0) as [fs1|] eqn:Hout;
    [|rewrite Hthrow; discriminate].
  cbn [Process.spawned]. intros [= <-]. exists name, fs1. split; [|reflexivity].
  repeat split; try assumption.
  intros ->. discriminate Ht.
Qed.

Lemma not_all_data (trace : list Process.event) :
  forallb Process.is_data trace = false ->
  exists before e after,
    trace = before ++ e :: after /\ Process.is_data e = false.
Proof.
  induction trace as [|e trace IH]; [discriminate|].
  cbn [forallb]. destruct (Process.is_data e) eqn:He.
  - intros H. destruct (IH H) as (before & e' & after & -> & He').
    now exists (e :: before), e', after.
  - intros _. now exists [], e, trace.
Qed.

Lemma reply_kept (ip : Path.t) (out : string) (events : list Process.event)
  (st : Process.run) (r : Http.response) :
  Process.response st = Some r ->
  Process.response (fold_left (Process.on_event ip out) events st) = Some r.
Proof.
  revert st. induction events as [|e events IH]; intros st Hr; [exact Hr|].
  cbn [fold_left]. apply IH.
  destruct e as [d|d|code|err]; cbn [Process.on_event Process.response]; try exact Hr.
  - destruct code as [[|c|c]|]; rewrite send_response; cbn [Process.response];
      now rewrite Hr.
  - rewrite send_response. now rewrite Hr.
Qed.

(** X2.  The request is answered when the child closes or fails to start,
    and not before: as long as the child only writes on its two streams
    there is no answer, and the first other event brings one.  The
    handler sets no time limit of its own. *)
Theorem answered_exactly_when_the_child_ends
  (cwd : list string) (req : Process.request) (fs0 fs1 : Fs.state) (name : string)
  (trace : list Process.event) :
  Process.located cwd req fs0 name fs1 ->
  Process.response (Process.final (Process.handler cwd req fs0 trace)) = None <->
  forallb Process.is_data trace = true.
Proof.
  intros Hloc. rewrite (handler_spawns _ _ _ _ _ Hloc). cbn [Process.final].
  split.
  - intros Hnone. destruct (forallb Process.is_data trace) eqn:Hdata; [reflexivity|].
    destruct (not_all_data trace Hdata) as (before & e & after & -> & He).
    rewrite fold_left_app in Hnone. cbn [fold_left] in Hnone.
    destruct (end_of_child_answers (Process.inputPath cwd name) (Process.outputFilename name)
                (fold_left (Process.on_event (Process.inputPath cwd name)
                                             (Process.outputFilename name))
                           before (Process.start fs1)) e He) as (r & Hr).
    rewrite (reply_kept _ _ after _ r Hr) in Hnone. discriminate Hnone.
  - intros Hdata. now rewrite (data_events_accumulate _ _ _ _ Hdata).
Qed.

Lemma answered_exactly_when_the_child_ends_witness :
  Process.response
    (Process.final
       (Process.handler Sample.cwd Sample.process_request Sample.tree
          [Process.StdoutData "Found 12 "; Process.StderrData "warning";
           Process.StdoutData "TOC entries"])) = None <->
  forallb Process.is_data
    [Process.StdoutData "Found 12 "; Process.StderrData "warning";
     Process.StdoutData "TOC entries"] = true.
Proof.
  apply (answered_exactly_when_the_child_ends
           Sample.cwd Sample.process_request Sample.tree Sample.tree Sample.upload_name).
  repeat split; try reflexivity. discriminate.
Defined.

(** The state of the callbacks after more events is the state after the
    first of them, taken through the rest; a handler that did not start
    the engine has no callbacks, and events change nothing. *)
Lemma handler_more_events (cwd : list string) (req : Process.request) (fs0 : Fs.state)
  (first rest : list Process.event) :
  Process.final (Process.handler cwd req fs0 (first ++ rest)) =
    Process.final (Process.handler cwd req fs0 first) \/
  exists ip out,
    Process.final (Process.handler cwd req fs0 (first ++ rest)) =
    fold_left (Process.on_event ip out) rest
              (Process.final (Process.handler cwd req fs0 first)).
Proof.
  unfold Process.handler.
  destruct (negb (String.eqb (Process.method req) "POST")); [now left|].
  destruct (Process.parsed req) as [properties|]; [|now left].
  destruct (negb (Js.truthy _)); [now left|].
  destruct (default Js.Undefined _) as [| |b|n|name|items|fields]; try now left.
  destruct (negb (Fs.existsSync _ fs0)); [now left|].
  destruct (Fs.ensure_dir _ fs0) as [fs1|]; [|now left].
  right. eexists _, _. cbn [Process.final]. now rewrite fold_left_app.
Qed.

(** X3.  An answer, once sent, stays: whatever the child emits afterwards,
    the answer of the invocation is the one that was sent first. *)
Theorem answer_is_sent_once
  (cwd : list string) (req : Process.request) (fs0 : Fs.state)
  (first rest : list Process.event) (r : Http.response) :
  Process.response (Process.final (Process.handler cwd req fs0 first)) = Some r ->
  Process.response (Process.final (Process.handler cwd req fs0 (first ++ rest))) = Some r.
Proof.
  intros Hr. destruct (handler_more_events cwd req fs0 first rest) as [->|(ip & out & ->)].
  - exact Hr.
  - now apply reply_kept.
Qed.

Lemma answer_is_sent_once_witness :
  Process.response
    (Process.final
       (Process.handler Sample.cwd Sample.process_request Sample.tree
          ([Process.Error Sample.spawn_error] ++ [Process.Close (Some (-2)%Z)]))) =
  Some (Http.json 500
          [("error", Js.Str "Failed to start processing. Make sure Python is installed.")]).
Proof.
  apply (answer_is_sent_once Sample.cwd Sample.process_request Sample.tree
           [Process.Error Sample.spawn_error] [Process.Close (Some (-2)%Z)]).
  reflexivity.
Defined.

(** X4.  Of all that exists when the engine is started, the handler can
    remove the input file and nothing else: every other path is at the
    end what it was, whatever events the child emits. *)
Theorem only_the_input_file_is_removed
  (cwd : list string) (req : Process.request) (fs0 fs1 : Fs.state) (name : string)
  (trace : list Process.event) (p : list string) :
  Process.located cwd req fs0 name fs1 ->
  p <> Path.segments (Process.inputPath cwd name) ->
  Process.fs (Process.final (Process.handler cwd req fs0 trace)) !! p = fs1 !! p.
Proof.
  intros Hloc Hp. rewrite (handler_spawns _ _ _ _ _ Hloc). cbn [Process.final].
  now rewrite (proj1 (events_touch_the_input_only _ _ trace (Process.start fs1)) p Hp).
Qed.

Lemma only_the_input_file_is_removed_witness :
  Process.fs
    (Process.final
       (Process.handler Sample.cwd Sample.process_request Sample.tree
          [Process.StdoutData "done"; Process.Close (Some 0%Z)]))
    !! ["srv"; "app"; "outputs"; "processed_1699999999999_report.docx"]
  = Sample.tree !! ["srv"; "app"; "outputs"; "processed_1699999999999_report.docx"].
Proof.
  apply (only_the_input_file_is_removed
           Sample.cwd Sample.process_request Sample.tree Sample.tree Sample.upload_name).
  - repeat split; try reflexivity. discriminate.
  - discriminate.
Defined.

Lemma gone_stays_gone (ip : Path.t) (out : string) (events : list Process.event)
  (st : Process.run) :
  Process.fs st !! Path.segments ip = None ->
  Process.fs (fold_left (Process.on_event ip out) events st) !! Path.segments ip = None.
Proof.
  intros Hgone.
  destruct (proj2 (events_touch_the_input_only ip out events st)) as [H|H];
    [now rewrite H | exact H].
Qed.

(** X5.  Once the child has closed, with whatever code and whatever comes
    before or after in the trace, an input that was a regular file is
    gone from the uploads directory; and the same request, made again,
    is answered with 404 and starts no engine: one upload is processed
    once. *)
Theorem input_file_gone_once_the_engine_closed
  (cwd : list string) (req : Process.request) (fs0 fs1 : Fs.state) (name : string)
  (trace : list Process.event) (code : option Z) (content : string) :
  Process.located cwd req fs0 name fs1 ->
  Fs.readFileSync (Process.inputPath cwd name) fs0 = Some content ->
  In (Process.Close code) trace ->
  Fs.existsSync (Process.inputPath cwd name)
    (Process.fs (Process.final (Process.handler cwd req fs0 trace))) = false /\
  forall again,
    Process.handler cwd req
      (Process.fs (Process.final (Process.handler cwd req fs0 trace))) again =
    Process.reply (Http.json 404 [("error", Js.Str "File not found")])
      (Process.fs (Process.final (Process.handler cwd req fs0 trace))).
Proof.
  intros Hloc Hread Hin.
  assert (Fs.existsSync (Process.inputPath cwd name)
            (Process.fs (Process.final (Process.handler cwd req fs0 trace))) = false)
    as Hgone.
  { rewrite (handler_spawns _ _ _ _ _ Hloc). cbn [Process.final].
    destruct Hloc as (_ & _ & _ & _ & Hout).
    set (ip := Process.inputPath cwd name) in *.
    unfold Fs.readFileSync in Hread.
    destruct (fs0 !! Path.segments ip) as [[c|]|] eqn:E; try discriminate.
    destruct (Path.trailing ip) eqn:Et; [discriminate|].
    pose proof (ensure_dir_preserves _ _ _ Hout _ _ E) as E1.
    apply in_split in Hin as (before & after & ->).
    rewrite fold_left_app. cbn [fold_left].
    set (st := fold_left _ before _).
    assert (Process.fs (Process.on_event ip (Process.outputFilename name) st
                          (Process.Close code)) !! Path.segments ip = None) as Hnone.
    { assert (Process.fs st !! Path.segments ip = Some (Fs.File c) \/
              Process.fs st !! Path.segments ip = None) as Hst.
      { destruct (proj2 (events_touch_the_input_only ip (Process.outputFilename name)
                           before (Process.start fs1))) as [H|H]; fold st in H.
        - left. now rewrite H.
        - now right. }
      assert (default (Process.fs st) (Fs.unlinkSync ip (Process.fs st))
                !! Path.segments ip = None) as Hd.
      { unfold Fs.unlinkSync. destruct Hst as [H|H]; rewrite H.
        - rewrite Et. cbn [default from_option id]. apply lookup_delete_eq.
        - exact H. }
      cbn [Process.on_event]. destruct code as [[|z|z]|]; now rewrite send_fs. }
    unfold Fs.existsSync. now rewrite (gone_stays_gone _ _ after _ Hnone). }
  split; [exact Hgone|]. intros again.
  destruct Hloc as (Hm & Hf & Hn & _ & _).
  destruct (body_property _ _ _ Hf) as (properties & Hp & Hk).
  unfold Process.handler at 1. rewrite Hm, Hp, Hk. cbn [default from_option id].
  change (negb (String.eqb "POST" "POST")) with false. cbv iota.
  assert (Js.truthy (Js.Str name) = true) as ->.
  { cbn. destruct (String.eqb_spec name ""); [contradiction | reflexivity]. }
  cbn [negb]. now rewrite Hgone.
Qed.

Lemma input_file_gone_once_the_engine_closed_witness :
  Fs.existsSync (Process.inputPath Sample.cwd Sample.upload_name)
    (Process.fs
       (Process.final
          (Process.handler Sample.cwd Sample.process_request Sample.tree
             [Process.StderrData "Traceback"; Process.Close (Some 1%Z);
              Process.StdoutData "late"]))) = false /\
  forall again,
    Process.handler Sample.cwd Sample.process_request
      (Process.fs
         (Process.final
            (Process.handler Sample.cwd Sample.process_request Sample.tree
               [Process.StderrData "Traceback"; Process.Close (Some 1%Z);
                Process.StdoutData "late"]))) again =
    Process.reply (Http.json 404 [("error", Js.Str "File not found")])
      (Process.fs
         (Process.final
            (Process.handler Sample.cwd Sample.process_request Sample.tree
               [Process.StderrData "Traceback"; Process.Close (Some 1%Z);
                Process.StdoutData "late"]))).
Proof.
  apply (input_file_gone_once_the_engine_closed
           Sample.cwd Sample.process_request Sample.tree Sample.tree Sample.upload_name
           _ (Some 1%Z) "PK-thesis").
  - repeat split; try reflexivity. discriminate.
  - reflexivity.
  - right. now left.
Defined.

(** A name without [..] resolves to the uploads directory or below
    it. *)
Lemma inputPath_below_uploads (cwd : list string) (name : string) :
  ~ In ".." (Path.split name) ->
  exists rest,
    Path.segments (Process.inputPath cwd name) = (cwd ++ ["uploads"]) ++ rest.
Proof.
  intros Hno. unfold Process.inputPath, Path.join. cbn [Path.segments].
  assert (exists segs, ~ In ".." segs /\
            flat_map Path.split
              (filter (fun a => Is_true (Path.nonempty a)) ["uploads"; name])
            = "uploads" :: segs) as (segs & Hsegs & ->).
  { destruct (Path.nonempty name) eqn:E.
    - exists (Path.split name). split; [exact Hno|].
      rewrite filter_cons_True by exact I.
      rewrite filter_cons_True by (now rewrite E).
      cbn. now rewrite app_nil_r.
    - exists []. split; [tauto|].
      rewrite filter_cons_True by exact I.
      rewrite filter_cons_False by (now rewrite E).
      reflexivity. }
  cbn [fold_left]. change (Path.push (rev cwd) "uploads") with ("uploads" :: rev cwd).
  destruct (push_grows segs ("uploads" :: rev cwd) Hsegs) as (more & ->).
  exists (rev more).
  rewrite rev_app_distr. cbn [rev]. now rewrite rev_involutive.
Qed.

(** X6.  When the name in the request has no [..] segment, whatever the
    handler removes lay in the uploads directory: a path that was there
    when the engine started and is gone at the end is the uploads
    directory's or below it. *)
Theorem removal_stays_in_uploads
  (cwd : list string) (req : Process.request) (fs0 fs1 : Fs.state) (name : string)
  (trace : list Process.event) (p : list string) (x : Fs.node) :
  Process.located cwd req fs0 name fs1 ->
  ~ In ".." (Path.split name) ->
  fs1 !! p = Some x ->
  Process.fs (Process.final (Process.handler cwd req fs0 trace)) !! p = None ->
  exists rest, p = (cwd ++ ["uploads"]) ++ rest.
Proof.
  intros Hloc Hno Hthere Hgone.
  rewrite (handler_spawns _ _ _ _ _ Hloc) in Hgone. cbn [Process.final] in Hgone.
  destruct (decide (p = Path.segments (Process.inputPath cwd name))) as [->|Hp].
  - now apply inputPath_below_uploads.
  - rewrite (proj1 (events_touch_the_input_only _ _ trace (Process.start fs1)) p Hp) in Hgone.
    cbn [Process.start Process.fs] in Hgone. congruence.
Qed.

Lemma removal_stays_in_uploads_witness :
  exists rest,
    ["srv"; "app"; "uploads"; "1700000000000_thesis.docx"] = (Sample.cwd ++ ["uploads"]) ++ rest.
Proof.
  apply (removal_stays_in_uploads
           Sample.cwd Sample.process_request Sample.tree Sample.tree Sample.upload_name
           [Process.Close (Some 0%Z)] _ (Fs.File "PK-thesis")).
  - repeat split; try reflexivity. discriminate.
  - cbn. intros [H|[]]. discriminate.
  - reflexivity.
  - reflexivity.
Defined.

(** With [..] in the name the handler leaves the uploads directory:
    asked for [../.env] it starts the engine on the application's own
    file and removes that file when the engine closes. *)
Example removal_climbs_out_of_uploads :
  let req := Process.mkreq "POST" {[ "filename" := Js.Str "../.env" ]} in
  Sample.tree !! ["srv"; "app"; ".env"] = Some (Fs.File "API_KEY=secret") /\
  Process.fs
    (Process.final (Process.handler Sample.cwd req Sample.tree [Process.Close (Some 1%Z)]))
    !! ["srv"; "app"; ".env"] = None.
Proof. split; reflexivity. Qed.

(** X7.  A request the handler turns away changes nothing: when the engine
    is not started and there is an answer, the answer is 405, 400 or 404
    with an [error] text and every file is as it was. *)
Theorem rejected_request_changes_nothing
  (cwd : list string) (req : Process.request) (fs0 : Fs.state)
  (trace : list Process.event) (r : Http.response) :
  Process.spawned (Process.handler cwd req fs0 trace) = None ->
  Process.response (Process.final (Process.handler cwd req fs0 trace)) = Some r ->
  Process.fs (Process.final (Process.handler cwd req fs0 trace)) = fs0 /\
  (Http.status r = 405 \/ Http.status r = 400 \/ Http.status r = 404) /\
  exists message, Http.payload r = Http.Json [("error", Js.Str message)].
Proof.
  assert (forall r' fs,
            Process.reply r' fs =
            {| Process.spawned := None;
               Process.final :=
                 {| Process.output := ""; Process.error := ""; Process.fs := fs;
                    Process.response := Some r'; Process.resolved := true;
                    Process.crashed := false |};
               Process.threw := false |}) as Hreply by reflexivity.
  unfold Process.handler.
  destruct (negb (String.eqb (Process.method req) "POST")).
  { rewrite Hreply. cbn. intros _ [= <-]. split; [reflexivity|]. split; [now left|].
    eexists; reflexivity. }
  destruct (Process.parsed req) as [properties|]; [|discriminate].
  destruct (negb (Js.truthy _)).
  { rewrite Hreply. cbn. intros _ [= <-]. split; [reflexivity|].
    split; [right; now left|]. eexists; reflexivity. }
  destruct (default Js.Undefined _) as [| |b|n|name|items|fields]; try discriminate.
  destruct (negb (Fs.existsSync _ fs0)).
  { rewrite Hreply. cbn. intros _ [= <-]. split; [reflexivity|].
    split; [right; now right|]. eexists; reflexivity. }
  destruct (Fs.ensure_dir _ fs0) as [fs1|]; discriminate.
Qed.

Lemma rejected_request_changes_nothing_witness :
  Process.fs
    (Process.final
       (Process.handler Sample.cwd
          (Process.mkreq "POST" {[ "filename" := Js.Str "missing.docx" ]}) Sample.tree
          [Process.Close (Some 0%Z)])) = Sample.tree /\
  (Http.status (Http.json 404 [("error", Js.Str "File not found")]) = 405 \/
   Http.status (Http.json 404 [("error", Js.Str "File not found")]) = 400 \/
   Http.status (Http.json 404 [("error", Js.Str "File not found")]) = 404) /\
  exists message,
    Http.payload (Http.json 404 [("error", Js.Str "File not found")])
    = Http.Json [("error", Js.Str message)].
Proof.
  apply (rejected_request_changes_nothing
           Sample.cwd (Process.mkreq "POST" {[ "filename" := Js.Str "missing.docx" ]})
           Sample.tree [Process.Close (Some 0%Z)]).
  - reflexivity.
  - reflexivity.
Defined.

(** ** From one handler to the next *)

(** Joining in two steps, as the upload and the processing handler do
    for their targets, gives what joining at once gives. *)
Lemma join_nested (cwd : list string) (dir name : string) :
  Path.nonempty dir = true ->
  Path.nonempty name = true ->
  Path.join (Path.segments (Path.join cwd [dir])) [name] = Path.join cwd [dir; name].
Proof.
  intros Hdir Hname. unfold Path.join.
  rewrite !filter_cons_True by (now rewrite ?Hdir, ?Hname).
  rewrite !filter_nil. cbn [flat_map last Path.segments].
  rewrite !app_nil_r, rev_involutive, fold_left_app. reflexivity.
Qed.

Lemma append_nonempty (a b : string) : a <> "" -> Path.nonempty (a +:+ b) = true.
Proof. destruct a; [contradiction | reflexivity]. Qed.

Lemma stored_name_nonempty (ts : N) (original : string) :
  Path.nonempty (Upload.stored_name ts original) = true.
Proof.
  unfold Upload.stored_name.
  destruct (number_to_string_digits ts) as (c & digits & -> & _). reflexivity.
Qed.

(** X8.  The file the download handler reads for the [outputFile] of a
    processing answer is the file the engine was told to write, for
    every name, also one with [..] or [/] in it. *)
Theorem download_reads_what_the_engine_wrote (cwd : list string) (name : string) :
  Download.filePath cwd (Process.outputFilename name) = Process.outputPath cwd name.
Proof.
  unfold Download.filePath, Process.outputPath. symmetry. now apply join_nested.
Qed.

(** What an upload answered with 200 has done. *)
Lemma accepted_upload
  (cwd : list string) (now : N) (req : Upload.request) (fs fs' : Fs.state)
  (r : Http.response) :
  Upload.handler cwd now req fs = Http.Sent r fs' ->
  Http.status r = 200 ->
  exists files f original content,
    Upload.form req = Upload.Files files /\
    Upload.first_file files = Some f /\
    Upload.originalFilename f = Some original /\
    r = Http.json 200 [("success", Js.Bool true);
                       ("filename", Js.Str (Upload.stored_name now original));
                       ("originalName", Js.Str original)] /\
    fs' !! Path.segments (Process.inputPath cwd (Upload.stored_name now original))
      = Some (Fs.File content) /\
    Path.trailing (Process.inputPath cwd (Upload.stored_name now original)) = false.
Proof.
  unfold Upload.handler.
  destruct (negb (String.eqb (Upload.method req) "POST")); [intros [= <- _]; discriminate|].
  destruct (Fs.ensure_dir (Path.join cwd ["uploads"]) fs) as [fs1|]; [|discriminate].
  destruct (Upload.form req) as [|files]; [intros [= <- _]; discriminate|].
  destruct (Upload.first_file files) as [f|] eqn:Hfirst; [|intros [= <- _]; discriminate].
  destruct (Upload.is_docx f) eqn:Hdocx; cbn [negb];
    [|destruct (Fs.unlinkSync _ _); intros [= <- _]; discriminate].
  unfold Upload.is_docx in Hdocx.
  destruct (Upload.originalFilename f) as [original|] eqn:Ho; [|discriminate Hdocx].
  cbn [default from_option id].
  set (name := Upload.stored_name now original).
  rewrite (join_nested cwd "uploads" name eq_refl (stored_name_nonempty now original)).
  fold (Process.inputPath cwd name).
  destruct (Fs.renameSync _ _ _) as [fs3|] eqn:Hren; [|intros [= <- _]; discriminate].
  intros [= <- <-] _.
  unfold Fs.renameSync in Hren.
  destruct (Upload.store files fs1 !! Path.segments (Path.of_segments (Upload.filepath f)))
    as [[c|]|]; try discriminate Hren.
  destruct (Path.segments (Process.inputPath cwd name)) as [|s0 rest0] eqn:Hseg;
    [discriminate Hren|].
  destruct (Upload.store files fs1 !! removelast (s0 :: rest0)) as [[?|]|];
    try discriminate Hren.
  assert (Path.trailing (Process.inputPath cwd name) = false /\
          fs3 = <[s0 :: rest0 := Fs.File c]>
                  (delete (Path.segments (Path.of_segments (Upload.filepath f)))
                          (Upload.store files fs1))) as [Ht ->].
  { destruct (Upload.store files fs1 !! (s0 :: rest0)) as [[?|]|]; try discriminate Hren;
      cbn [Path.of_segments Path.trailing orb] in Hren;
      destruct (Path.trailing (Process.inputPath cwd name)); try discriminate Hren;
      injection Hren as <-; now split. }
  exists files, f, original, c.
  split; [reflexivity|]. split; [exact Hfirst|]. split; [exact Ho|].
  split; [reflexivity|].
  split; [fold name; rewrite Hseg; apply lookup_insert_eq | exact Ht].
Qed.

(** X9.  An upload answered with 200 leaves, in its [filename] field, a name
    the processing handler accepts: a non-empty string, and under it a
    regular file in the uploads directory as the processing handler
    resolves it. *)
Theorem uploaded_file_is_there_for_processing
  (cwd : list string) (now : N) (req : Upload.request) (fs fs' : Fs.state)
  (r : Http.response) :
  Upload.handler cwd now req fs = Http.Sent r fs' ->
  Http.status r = 200 ->
  exists name content,
    Http.field r "filename" = Some (Js.Str name) /\
    Js.truthy (Js.Str name) = true /\
    Fs.existsSync (Process.inputPath cwd name) fs' = true /\
    Fs.readFileSync (Process.inputPath cwd name) fs' = Some content.
Proof.
  intros Hsent Hstatus.
  destruct (accepted_upload _ _ _ _ _ _ Hsent Hstatus)
    as (files & f & original & c & _ & _ & _ & -> & Hfile & Ht).
  exists (Upload.stored_name now original), c.
  split; [reflexivity|]. split; [apply stored_name_nonempty|].
  unfold Fs.existsSync, Fs.readFileSync. rewrite Hfile, Ht. now split.
Qed.

Lemma uploaded_file_is_there_for_processing_witness :
  exists name content,
    Http.field
      (Http.json 200 [("success", Js.Bool true);
                      ("filename", Js.Str "1700000000000_thesis.docx");
                      ("originalName", Js.Str "thesis.docx")]) "filename"
      = Some (Js.Str name) /\
    Js.truthy (Js.Str name) = true /\
    Fs.existsSync (Process.inputPath Sample.cwd name)
      (Http.fs_of (Upload.handler Sample.cwd Sample.timestamp Sample.upload_docx Sample.tree))
      = true /\
    Fs.readFileSync (Process.inputPath Sample.cwd name)
      (Http.fs_of (Upload.handler Sample.cwd Sample.timestamp Sample.upload_docx Sample.tree))
      = Some content.
Proof.
  apply (uploaded_file_is_there_for_processing
           Sample.cwd Sample.timestamp Sample.upload_docx Sample.tree).
  - vm_compute. reflexivity.
  - reflexivity.
Defined.

Lemma to_uint_nonnil (n : N) : N.to_uint n <> Decimal.Nil.
Proof.
  destruct n as [|p]; [discriminate|]. apply DecimalPos.Unsigned.to_uint_nonnil.
Qed.

Lemma number_to_string_inj (m n : N) :
  Js.number_to_string m = Js.number_to_string n -> m = n.
Proof.
  unfold Js.number_to_string. intros H.
  apply DecimalN.Unsigned.to_uint_inj.
  pose proof (NilZero.usu _ (to_uint_nonnil m)) as Hm.
  pose proof (NilZero.usu _ (to_uint_nonnil n)) as Hn.
  rewrite H, Hn in Hm. now injection Hm.
Qed.

Lemma span_digits_stored_name (ts : N) (original : string) :
  Js.span_digits (Upload.stored_name ts original)
  = (Js.number_to_string ts, String "_" original).
Proof.
  unfold Upload.stored_name.
  destruct (number_to_string_digits ts) as (c & digits & E & u & Eu).
  rewrite E, Eu. change ("_" +:+ original) with (String "_" original).
  apply span_digits_uint.
Qed.

(** X10.  Two uploads are stored under the same name only when they arrive in
    the same millisecond under the same original name: the stored name
    determines both, also when the original name itself starts with
    digits and an underscore. *)
Theorem stored_name_determines_upload (ts ts' : N) (original original' : string) :
  Upload.stored_name ts original = Upload.stored_name ts' original' ->
  ts = ts' /\ original = original'.
Proof.
  intros H. pose proof (span_digits_stored_name ts original) as E.
  rewrite H, span_digits_stored_name in E. injection E as Hts Ho.
  split; [now apply number_to_string_inj | now symmetry].
Qed.

Lemma stored_name_determines_upload_witness :
  1700000000000%N = 1700000000000%N /\ "2024_report.docx" = "2024_report.docx".
Proof.
  apply (stored_name_determines_upload 1700000000000 1700000000000
           "2024_report.docx" "2024_report.docx").
  reflexivity.
Defined.

(** ** The download handler and its timer *)

(** X11.  A processed file can be fetched until the timer set by a successful
    download has fired.  The download itself changes no file; the timer
    removes the served file and no other; and the same request, made
    after that, is answered with 404 and sets no timer. *)
Theorem download_is_served_until_the_timer_fires
  (cwd : list string) (req : Download.request) (fs fs' : Fs.state) (r : Http.response) :
  Download.reply (Download.handler cwd req fs) = Http.Sent r fs' ->
  Http.status r = 200 ->
  exists p,
    Download.timer (Download.handler cwd req fs) = Some p /\
    fs' = fs /\
    Download.cleanup p fs !! Path.segments p = None /\
    (forall q, q <> Path.segments p -> Download.cleanup p fs !! q = fs !! q) /\
    Download.handler cwd req (Download.cleanup p fs) =
      Download.now (Http.json 404 [("error", Js.Str "File not found")])
                   (Download.cleanup p fs).
Proof.
  unfold Download.handler.
  destruct (negb (String.eqb (Download.method req) "GET"));
    [intros [= <- _]; discriminate|].
  destruct (Download.query req !! "file") as [[| |b|n|name|items|fields]|];
    cbn [default from_option id];
    (destruct (negb (Js.truthy _)); [intros [= <- _]; discriminate|]);
    try discriminate.
  destruct (Fs.existsSync (Download.filePath cwd name) fs) eqn:Hex; cbn [negb];
    [|intros [= <- _]; discriminate].
  destruct (Fs.readFileSync (Download.filePath cwd name) fs) as [content|] eqn:Hread;
    [|intros [= <- _]; discriminate].
  destruct (negb (Js.header_value_ok (Download.disposition name)));
    [intros [= <- _]; discriminate|].
  cbn [Download.reply Download.timer]. intros [= _ <-] _.
  exists (Download.filePath cwd name).
  unfold Fs.readFileSync in Hread.
  destruct (fs !! Path.segments (Download.filePath cwd name)) as [[c|]|] eqn:E;
    try discriminate Hread.
  destruct (Path.trailing (Download.filePath cwd name)) eqn:Et; [discriminate Hread|].
  assert (Download.cleanup (Download.filePath cwd name) fs
          = delete (Path.segments (Download.filePath cwd name)) fs) as ->.
  { unfold Download.cleanup, Fs.unlinkSync. now rewrite E, Et. }
  split; [reflexivity|]. split; [reflexivity|].
  split; [apply lookup_delete_eq|].
  split; [intros q Hq; now apply lookup_delete_ne|].
  unfold Fs.existsSync. now rewrite lookup_delete_eq.
Qed.

Lemma download_is_served_until_the_timer_fires_witness :
  exists p,
    Download.timer (Download.handler Sample.cwd Sample.download_request Sample.tree) = Some p /\
    Sample.tree = Sample.tree /\
    Download.cleanup p Sample.tree !! Path.segments p = None /\
    (forall q, q <> Path.segments p ->
       Download.cleanup p Sample.tree !! q = Sample.tree !! q) /\
    Download.handler Sample.cwd Sample.download_request (Download.cleanup p Sample.tree) =
      Download.now (Http.json 404 [("error", Js.Str "File not found")])
                   (Download.cleanup p Sample.tree).
Proof.
  apply (download_is_served_until_the_timer_fires
           Sample.cwd Sample.download_request Sample.tree Sample.tree
           {| Http.status := 200;
              Http.headers :=
                [("Content-Disposition",
                  "attachment; filename=" +:+ Download.quote +:+ "report.docx"
                    +:+ Download.quote);
                 ("Content-Type",
                  "application/vnd.openxmlformats-officedocument.wordprocessingml.document");
                 ("Content-Length", "9")];
              Http.payload := Http.Buffer "PK-report" |}).
  - reflexivity.
  - reflexivity.
Defined.

(** A name that cannot stand in a header: [setHeader] throws inside the
    [try], the answer is 500, no timer is set and the file stays.  A
    name with an accented letter of U+0080..U+00FF is served. *)
Example download_refuses_names_no_header_takes :
  Download.handler Sample.cwd (Visit.download_of Visit.line_feed_name)
    (Visit.outputs_with Visit.line_feed_name)
  = Download.now (Http.json 500 [("error", Js.Str "Failed to download file")])
      (Visit.outputs_with Visit.line_feed_name) /\
  Download.handler Sample.cwd (Visit.download_of Visit.wide_name)
    (Visit.outputs_with Visit.wide_name)
  = Download.now (Http.json 500 [("error", Js.Str "Failed to download file")])
      (Visit.outputs_with Visit.wide_name) /\
  Download.timer
    (Download.handler Sample.cwd (Visit.download_of Visit.accented_name)
       (Visit.outputs_with Visit.accented_name))
  = Some (Download.filePath Sample.cwd Visit.accented_name).
Proof. repeat split; vm_compute; reflexivity. Qed.

(** X12.  Nothing is scheduled for removal that was not served: when the
    handler sets its timer, the path is that of a regular file, the
    answer is 200 and its body is the content of that file. *)
Theorem timer_set_only_for_the_served_file
  (cwd : list string) (req : Download.request) (fs : Fs.state) (p : Path.t) :
  Download.timer (Download.handler cwd req fs) = Some p ->
  exists name content r,
    Download.query req !! "file" = Some (Js.Str name) /\
    p = Download.filePath cwd name /\
    fs !! Path.segments p = Some (Fs.File content) /\
    Download.reply (Download.handler cwd req fs) = Http.Sent r fs /\
    Http.status r = 200 /\
    Http.payload r = Http.Buffer content.
Proof.
  unfold Download.handler.
  destruct (negb (String.eqb (Download.method req) "GET")); [discriminate|].
  destruct (Download.query req !! "file") as [[| |b|n|name|items|fields]|];
    cbn [default from_option id];
    (destruct (negb (Js.truthy _)); [discriminate|]);
    try discriminate.
  destruct (negb (Fs.existsSync (Download.filePath cwd name) fs)); [discriminate|].
  destruct (Fs.readFileSync (Download.filePath cwd name) fs) as [content|] eqn:Hread;
    [|discriminate].
  destruct (negb (Js.header_value_ok (Download.disposition name))); [discriminate|].
  cbn [Download.reply Download.timer]. intros [= <-].
  unfold Fs.readFileSync in Hread.
  destruct (fs !! Path.segments (Download.filePath cwd name)) as [[c|]|] eqn:E;
    try discriminate Hread.
  destruct (Path.trailing (Download.filePath cwd name)); [discriminate Hread|].
  injection Hread as ->.
  eexists name, content, _. repeat split; try reflexivity.
Qed.

Lemma timer_set_only_for_the_served_file_witness :
  exists name content r,
    Download.query Sample.download_request !! "file" = Some (Js.Str name) /\
    Download.filePath Sample.cwd "processed_1699999999999_report.docx"
      = Download.filePath Sample.cwd name /\
    Sample.tree !! Path.segments
      (Download.filePath Sample.cwd "processed_1699999999999_report.docx")
      = Some (Fs.File content) /\
    Download.reply (Download.handler Sample.cwd Sample.download_request Sample.tree)
      = Http.Sent r Sample.tree /\
    Http.status r = 200 /\
    Http.payload r = Http.Buffer content.
Proof.
  apply (timer_set_only_for_the_served_file Sample.cwd Sample.download_request Sample.tree).
  reflexivity.
Defined.

(** ** The upload handler, the field it does not look at *)

(** X13.  A form that carries its files under another field than [file] is
    answered with 400, and every file formidable wrote for it stays
    where it was written: the handler unlinks none of them. *)
Theorem parts_outside_the_file_field_are_kept
  (cwd : list string) (now : N) (req : Upload.request) (fs fs1 : Fs.state)
  (files : gmap string Upload.entry) :
  Upload.method req = "POST" ->
  Fs.ensure_dir (Path.join cwd ["uploads"]) fs = Some fs1 ->
  Upload.form req = Upload.Files files ->
  files !! "file" = None ->
  exists fs',
    Upload.handler cwd now req fs =
      Http.Sent (Http.json 400 [("error", Js.Str "No file uploaded")]) fs' /\
    forall field e f,
      files !! field = Some e -> In f (Upload.files_of e) ->
      exists c, fs' !! Upload.filepath f = Some (Fs.File c).
Proof.
  intros Hm Hdir Hform Hnone. exists (Upload.store files fs1). split.
  - unfold Upload.handler, Upload.first_file. now rewrite Hm, Hdir, Hform, Hnone.
  - intros field e f He Hf. unfold Upload.store. apply store_writes_each.
    apply in_flat_map. exists (field, e). split; [|exact Hf].
    now apply list_elem_of_In, elem_of_map_to_list.
Qed.

Lemma parts_outside_the_file_field_are_kept_witness :
  exists fs',
    Upload.handler Sample.cwd Sample.timestamp
      Visit.upload_other_field Sample.tree =
      Http.Sent (Http.json 400 [("error", Js.Str "No file uploaded")]) fs' /\
    forall field e f,
      ({[ "document" := Upload.One Sample.thesis ]} : gmap string Upload.entry) !! field
        = Some e ->
      In f (Upload.files_of e) ->
      exists c, fs' !! Upload.filepath f = Some (Fs.File c).
Proof.
  apply (parts_outside_the_file_field_are_kept
           Sample.cwd Sample.timestamp Visit.upload_other_field Sample.tree Sample.tree).
  - reflexivity.
  - reflexivity.
  - reflexivity.
  - reflexivity.
Defined.

(** ** The page *)

(** X14.  The file picker of the page and the upload handler draw the same
    line: the page keeps a selected file exactly when the server would
    take a part of that name. *)
Theorem picker_accepts_what_the_server_accepts
  (name : string) (st : Home.state) (part : list string) (content : string) :
  Home.file (Home.handleFileChange (Some name) st) = Some name <->
  Upload.is_docx {| Upload.filepath := part;
                    Upload.originalFilename := Some name;
                    Upload.content := content |} = true.
Proof.
  unfold Home.handleFileChange, Upload.is_docx. cbn [Upload.originalFilename].
  destruct (Js.endsWith name ".docx"); cbn [Home.file]; split; congruence.
Qed.

(** X15.  A click on the button, with a file selected, ends with the page no
    longer processing, the selection as it was, and either a result or
    an error, never both and never neither; with an error there is no
    log.  The processing handler is asked exactly when the upload was
    answered with a status from 200 to 299. *)
Theorem click_ends_with_result_or_error
  (upload : Home.fetched) (process : gmap string Js.value -> Home.fetched)
  (st : Home.state) :
  Home.file st <> None ->
  Home.processing (fst (Home.handleUpload upload process st)) = false /\
  Home.file (fst (Home.handleUpload upload process st)) = Home.file st /\
  (Home.result (fst (Home.handleUpload upload process st)) = None <->
   Home.error (fst (Home.handleUpload upload process st)) <> None) /\
  (Home.error (fst (Home.handleUpload upload process st)) <> None ->
   Home.logs (fst (Home.handleUpload upload process st)) = Js.Str "") /\
  (In "/api/process" (snd (Home.handleUpload upload process st)) <->
   exists status json, upload = Home.Answered status json /\ Home.ok status = true).
Proof.
  intros Hfile. unfold Home.handleUpload.
  destruct (Home.file st) as [name|] eqn:Ef; [clear Hfile | contradiction].
  assert (~ In "/api/process" ["/api/upload"]) as Hnot by (intros [H|[]]; discriminate H).
  assert (In "/api/process" ["/api/upload"; "/api/process"]) as Hin by (right; now left).
  destruct upload as [message|status json].
  { cbn [fst snd Home.failed Home.processing Home.file Home.result Home.error Home.logs].
    repeat split; try congruence; try tauto.
    intros (s & j & H & _). discriminate H. }
  destruct (Home.ok status) eqn:Hok; cbn [negb].
  2:{ cbn [fst snd Home.failed Home.processing Home.file Home.result Home.error Home.logs].
      repeat split; try congruence; try tauto.
      intros (s & j & [= <- _] & H). congruence. }
  assert (exists s j, Home.Answered status json = Home.Answered s j /\ Home.ok s = true)
    as Hasked by (now exists status, json).
  destruct (process _) as [message|status' json'].
  { cbn [fst snd Home.failed Home.processing Home.file Home.result Home.error Home.logs].
    repeat split; try congruence; tauto. }
  destruct (Home.ok status'); cbn [negb];
    cbn [fst snd Home.failed Home.processing Home.file Home.result Home.error Home.logs];
    repeat split; try congruence; try tauto.
Qed.

Lemma click_ends_with_result_or_error_witness :
  Home.processing (fst (Home.handleUpload Visit.upload_refused Visit.offline Visit.page))
    = false /\
  Home.file (fst (Home.handleUpload Visit.upload_refused Visit.offline Visit.page))
    = Home.file Visit.page /\
  (Home.result (fst (Home.handleUpload Visit.upload_refused Visit.offline Visit.page)) = None
   <-> Home.error (fst (Home.handleUpload Visit.upload_refused Visit.offline Visit.page))
       <> None) /\
  (Home.error (fst (Home.handleUpload Visit.upload_refused Visit.offline Visit.page)) <> None ->
   Home.logs (fst (Home.handleUpload Visit.upload_refused Visit.offline Visit.page))
     = Js.Str "") /\
  (In "/api/process" (snd (Home.handleUpload Visit.upload_refused Visit.offline Visit.page)) <->
   exists status json,
     Visit.upload_refused = Home.Answered status json /\ Home.ok status = true).
Proof.
  apply (click_ends_with_result_or_error Visit.upload_refused Visit.offline Visit.page).
  discriminate.
Defined.

(** ** One document, from the page to the download *)

Lemma readable_exists (p : Path.t) (fs : Fs.state) (content : string) :
  Fs.readFileSync p fs = Some content -> Fs.existsSync p fs = true.
Proof.
  unfold Fs.readFileSync, Fs.existsSync.
  destruct (fs !! Path.segments p) as [[c|]|]; try discriminate.
  now destruct (Path.trailing p).
Qed.

(** The answer of the handler when the child writes [chunks] and
    closes. *)
Lemma closing_answer
  (cwd : list string) (req : Process.request) (fs0 fs1 : Fs.state) (name : string)
  (chunks : list Process.event) (code : option Z) :
  Process.located cwd req fs0 name fs1 ->
  forallb Process.is_data chunks = true ->
  Process.response
    (Process.final (Process.handler cwd req fs0 (chunks ++ [Process.Close code]))) =
  Some (match code with
        | Some 0%Z =>
            Http.json 200 [("success", Js.Bool true);
                           ("outputFile", Js.Str (Process.outputFilename name));
                           ("logs", Js.Str (Process.stdout_of chunks))]
        | _ =>
            Http.json 500
              [("error", Js.Str (Process.error_or_default (Process.stderr_of chunks)));
               ("logs", Js.Str (Process.stdout_of chunks))]
        end).
Proof.
  intros Hloc Hdata. rewrite (handler_spawns _ _ _ _ _ Hloc). cbn [Process.final].
  rewrite (run_until_close _ _ _ _ _ Hdata). cbn [Process.on_event].
  destruct code as [[|c|c]|]; rewrite send_response; reflexivity.
Qed.

(** The page, after an upload the server accepted, asks the processing
    handler for the stored name, and the handler finds the file. *)
Lemma page_asks_for_the_stored_name
  (cwd : list string) (now : N) (ureq : Upload.request) (fs fs1 fs2 : Fs.state)
  (r1 : Http.response) (upload : Home.fetched)
  (process : gmap string Js.value -> Home.fetched) (st : Home.state) :
  Home.file st <> None ->
  Upload.handler cwd now ureq fs = Http.Sent r1 fs1 ->
  Http.status r1 = 200 ->
  Home.delivers r1 upload ->
  Fs.ensure_dir (Path.join cwd ["outputs"]) fs1 = Some fs2 ->
  exists original body,
    Http.field r1 "originalName" = Some (Js.Str original) /\
    Process.located cwd (Process.mkreq "POST" body) fs1
      (Upload.stored_name now original) fs2 /\
    Home.handleUpload upload process st =
      match process body with
      | Home.Rejected message =>
          (Home.failed message st, ["/api/upload"; "/api/process"])
      | Home.Answered status json =>
          if negb (Home.ok status) then
            (Home.failed
               (Home.to_string (Home.or_else (Home.prop json "error")
                                             (Js.Str "Processing failed"))) st,
             ["/api/upload"; "/api/process"])
          else
            ({| Home.file := Home.file st; Home.processing := false;
                Home.result := Some json; Home.error := None;
                Home.logs := Home.or_else (Home.prop json "logs") (Js.Str "") |},
             ["/api/upload"; "/api/process"])
      end.
Proof.
  intros Hfile Hup Hok (json1 & Hpay & ->) Hout.
  destruct (accepted_upload _ _ _ _ _ _ Hup Hok)
    as (files & f & original & c & _ & _ & _ & -> & Hstored & Ht).
  cbn [Http.json Http.payload] in Hpay. injection Hpay as <-.
  exists original, {[ "filename" := Js.Str (Upload.stored_name now original) ]}.
  split; [reflexivity|]. split.
  - split; [reflexivity|]. split; [apply lookup_singleton_eq|].
    split.
    { intros E. pose proof (stored_name_nonempty now original) as Hn.
      rewrite E in Hn. discriminate Hn. }
    split; [|exact Hout].
    unfold Fs.existsSync. now rewrite Hstored, Ht.
  - unfold Home.handleUpload. destruct (Home.file st); [|contradiction].
    reflexivity.
Qed.

Lemma header_value_ok_cons (c : ascii) (s : string) :
  Js.header_value_ok (String c s) =
  if Nat.ltb (nat_of_ascii c) 128 then
    (Nat.eqb (nat_of_ascii c) 9 || Nat.leb 32 (nat_of_ascii c) && Nat.leb (nat_of_ascii c) 126)
    && Js.header_value_ok s
  else if Nat.eqb (nat_of_ascii c) 194 || Nat.eqb (nat_of_ascii c) 195 then
    match s with
    | String d s' =>
        Nat.leb 128 (nat_of_ascii d) && Nat.leb (nat_of_ascii d) 191 && Js.header_value_ok s'
    | EmptyString => false
    end
  else false.
Proof. reflexivity. Qed.

(** A quotation mark after a value is accepted when the value is. *)
Lemma header_value_ok_quoted (s : string) :
  Js.header_value_ok (s +:+ Download.quote) = Js.header_value_ok s.
Proof.
  assert (forall t,
            Js.header_value_ok (t +:+ Download.quote) = Js.header_value_ok t /\
            forall c, Js.header_value_ok (String c t +:+ Download.quote)
                      = Js.header_value_ok (String c t)) as H.
  { induction t as [|d t [IH1 IH2]].
    - split; [reflexivity|]. intros c.
      change (String c "" +:+ Download.quote) with (String c Download.quote).
      rewrite !header_value_ok_cons.
      destruct (nat_of_ascii c <? 128)%nat; [reflexivity|].
      now destruct (Nat.eqb (nat_of_ascii c) 194 || Nat.eqb (nat_of_ascii c) 195).
    - split; [apply IH2|]. intros c.
      change (String c (String d t) +:+ Download.quote)
        with (String c (String d t +:+ Download.quote)).
      rewrite (header_value_ok_cons c (String d t +:+ Download.quote)).
      rewrite (header_value_ok_cons c (String d t)).
      destruct (nat_of_ascii c <? 128)%nat; [now rewrite IH2|].
      destruct (Nat.eqb (nat_of_ascii c) 194 || Nat.eqb (nat_of_ascii c) 195);
        [|reflexivity].
      change (String d t +:+ Download.quote) with (String d (t +:+ Download.quote)).
      cbv iota. now rewrite IH1. }
  apply H.
Qed.

(** The header the download handler writes for the processed file of an
    upload is accepted exactly when the name the upload came with is. *)
Lemma disposition_of_processed (ts : N) (original : string) :
  Download.disposition (Process.outputFilename (Upload.stored_name ts original))
    = "attachment; filename=" +:+ Download.quote +:+ original +:+ Download.quote /\
  Js.header_value_ok
    (Download.disposition (Process.outputFilename (Upload.stored_name ts original)))
    = Js.header_value_ok original.
Proof.
  assert (Download.originalName (Process.outputFilename (Upload.stored_name ts original))
          = original) as E.
  { unfold Download.originalName, Process.outputFilename, Upload.stored_name.
    rewrite remove_first_prefix. apply remove_timestamp. }
  unfold Download.disposition. rewrite E. split; [reflexivity|].
  change (Js.header_value_ok
            ("attachment; filename=" +:+ Download.quote +:+ original +:+ Download.quote))
    with (Js.header_value_ok (original +:+ Download.quote)).
  apply header_value_ok_quoted.
Qed.

(** X16.  The whole way of one document.  The page has a file selected and
    the button is clicked; the upload is accepted; the engine writes
    [chunks] on its stdout and exits with code 0; the network hands the
    page both answers.  Then the page has asked the two handlers in
    turn, shows no error, shows the log of the engine, and holds a
    result whose download link names the processed file.  And once the
    engine's output is where the engine was told to write it, a GET with
    that link is answered with the content of that output, offered under
    the name the document was uploaded with, when that name can stand in
    a header; when it cannot (a control character, a character above
    U+00FF), the GET is answered with 500 and the output stays where it
    is. *)
Theorem document_round_trip
  (cwd : list string) (now : N) (ureq : Upload.request) (fs fs1 fs2 : Fs.state)
  (r1 : Http.response) (upload : Home.fetched)
  (process : gmap string Js.value -> Home.fetched) (st : Home.state)
  (chunks : list Process.event) :
  Home.file st <> None ->
  Upload.handler cwd now ureq fs = Http.Sent r1 fs1 ->
  Http.status r1 = 200 ->
  Home.delivers r1 upload ->
  Fs.ensure_dir (Path.join cwd ["outputs"]) fs1 = Some fs2 ->
  forallb Process.is_data chunks = true ->
  (forall body r2,
     Process.response
       (Process.final
          (Process.handler cwd (Process.mkreq "POST" body) fs1
             (chunks ++ [Process.Close (Some 0%Z)]))) = Some r2 ->
     Home.delivers r2 (process body)) ->
  exists original link,
    Http.field r1 "originalName" = Some (Js.Str original) /\
    link = Process.outputFilename (Upload.stored_name now original) /\
    snd (Home.handleUpload upload process st) = ["/api/upload"; "/api/process"] /\
    Home.error (fst (Home.handleUpload upload process st)) = None /\
    Home.logs (fst (Home.handleUpload upload process st))
      = Js.Str (Process.stdout_of chunks) /\
    Home.handleDownload (fst (Home.handleUpload upload process st)) = Some link /\
    forall fs3 out,
      Fs.readFileSync (Process.outputPath cwd (Upload.stored_name now original)) fs3
        = Some out ->
      if Js.header_value_ok original then
        exists r3,
          Download.reply
            (Download.handler cwd (Download.mkreq "GET" {[ "file" := Js.Str link ]}) fs3)
            = Http.Sent r3 fs3 /\
          Download.timer
            (Download.handler cwd (Download.mkreq "GET" {[ "file" := Js.Str link ]}) fs3)
            = Some (Process.outputPath cwd (Upload.stored_name now original)) /\
          Http.status r3 = 200 /\
          Http.payload r3 = Http.Buffer out /\
          In ("Content-Disposition",
              "attachment; filename=" +:+ Download.quote +:+ original +:+ Download.quote)
             (Http.headers r3)
      else
        Download.handler cwd (Download.mkreq "GET" {[ "file" := Js.Str link ]}) fs3
        = Download.now (Http.json 500 [("error", Js.Str "Failed to download file")]) fs3.
Proof.
  intros Hfile Hup Hok Hnet1 Hout Hdata Hnet2.
  destruct (page_asks_for_the_stored_name cwd now ureq fs fs1 fs2 r1 upload process st
              Hfile Hup Hok Hnet1 Hout) as (original & body & Horig & Hloc & ->).
  pose proof (closing_answer _ _ _ _ _ chunks (Some 0%Z) Hloc Hdata) as Hans.
  destruct (Hnet2 _ _ Hans) as (json2 & Hpay & ->).
  cbn [Http.json Http.payload Http.status] in Hpay |- *. injection Hpay as <-.
  set (sname := Upload.stored_name now original).
  exists original, (Process.outputFilename sname).
  split; [exact Horig|]. split; [reflexivity|].
  change (negb (Home.ok 200)) with false. cbv iota.
  split; [reflexivity|]. split; [reflexivity|].
  split.
  { cbn [fst Home.logs].
    change (Home.prop _ "logs") with (Js.Str (Process.stdout_of chunks)).
    unfold Home.or_else. cbn [Js.truthy].
    destruct (String.eqb_spec (Process.stdout_of chunks) "") as [->|]; reflexivity. }
  split.
  { unfold Home.handleDownload. cbn [fst Home.result].
    change (Home.prop _ "outputFile") with (Js.Str (Process.outputFilename sname)).
    reflexivity. }
  intros fs3 out Hread.
  unfold Process.outputPath in *. fold sname in Hread |- *.
  rewrite (join_nested cwd "outputs" (Process.outputFilename sname) eq_refl eq_refl) in *.
  fold (Download.filePath cwd (Process.outputFilename sname)) in *.
  destruct (disposition_of_processed now original) as [Hvalue Hok'].
  fold sname in Hvalue, Hok'.
  unfold Download.handler. cbn [Download.method Download.query].
  rewrite lookup_singleton_eq. cbn [default from_option id].
  change (negb (String.eqb "GET" "GET")) with false.
  change (negb (Js.truthy (Js.Str (Process.outputFilename sname)))) with false.
  cbv iota. rewrite (readable_exists _ _ _ Hread), Hread, Hok'. cbn [negb].
  destruct (Js.header_value_ok original); cbn [negb]; [|reflexivity].
  eexists. split; [reflexivity|]. split; [reflexivity|]. split; [reflexivity|].
  split; [reflexivity|]. left. now rewrite Hvalue.
Qed.

Lemma events_answer_in_json (ip : Path.t) (out : string) (events : list Process.event)
  (st : Process.run) :
  (forall r, Process.response st = Some r -> exists json, Http.payload r = Http.Json json) ->
  forall r, Process.response (fold_left (Process.on_event ip out) events st) = Some r ->
            exists json, Http.payload r = Http.Json json.
Proof.
  revert st. induction events as [|e events IH]; intros st Hst; [exact Hst|].
  cbn [fold_left]. apply IH. intros r.
  destruct e as [d|d|code|err]; cbn [Process.on_event Process.response]; try apply Hst.
  - destruct code as [[|c|c]|]; rewrite send_response; cbn [Process.response];
      (destruct (Process.response st) as [sent|] eqn:E;
       [intros [= <-]; now apply Hst | intros [= <-]; eexists; reflexivity]).
  - rewrite send_response.
    destruct (Process.response st) as [sent|] eqn:E;
      [intros [= <-]; now apply Hst | intros [= <-]; eexists; reflexivity].
Qed.

(** Whatever the processing handler answers, it answers in JSON. *)
Lemma process_answers_in_json
  (cwd : list string) (req : Process.request) (fs0 : Fs.state)
  (trace : list Process.event) (r : Http.response) :
  Process.response (Process.final (Process.handler cwd req fs0 trace)) = Some r ->
  exists json, Http.payload r = Http.Json json.
Proof.
  assert (forall r' fs, Process.response (Process.final (Process.reply r' fs)) = Some r'
                        /\ Process.response (Process.final (Process.throw fs)) = None)
    as Hends by (intros; split; reflexivity).
  unfold Process.handler.
  destruct (negb (String.eqb (Process.method req) "POST"));
    [rewrite (proj1 (Hends _ _)); intros [= <-]; eexists; reflexivity|].
  destruct (Process.parsed req) as [properties|];
    [|rewrite (proj2 (Hends (Http.json 0 []) _)); discriminate].
  destruct (negb (Js.truthy _));
    [rewrite (proj1 (Hends _ _)); intros [= <-]; eexists; reflexivity|].
  destruct (default Js.Undefined _) as [| |b|n|name|items|fields];
    try (rewrite (proj2 (Hends (Http.json 0 []) _)); discriminate).
  destruct (negb (Fs.existsSync _ fs0));
    [rewrite (proj1 (Hends _ _)); intros [= <-]; eexists; reflexivity|].
  destruct (Fs.ensure_dir _ fs0) as [fs1|];
    [|rewrite (proj2 (Hends (Http.json 0 []) _)); discriminate].
  cbn [Process.final]. apply events_answer_in_json. discriminate.
Qed.

Lemma document_round_trip_witness :
  exists original link,
    Http.field
      (Http.json 200 [("success", Js.Bool true);
                      ("filename", Js.Str "1700000000000_thesis.docx");
                      ("originalName", Js.Str "thesis.docx")]) "originalName"
      = Some (Js.Str original) /\
    link = Process.outputFilename (Upload.stored_name Sample.timestamp original) /\
    snd (Home.handleUpload Visit.fetch_upload
           (Visit.fetch_process (Visit.chunks ++ [Process.Close (Some 0%Z)])) Visit.page)
      = ["/api/upload"; "/api/process"] /\
    Home.error
      (fst (Home.handleUpload Visit.fetch_upload
              (Visit.fetch_process (Visit.chunks ++ [Process.Close (Some 0%Z)])) Visit.page))
      = None /\
    Home.logs
      (fst (Home.handleUpload Visit.fetch_upload
              (Visit.fetch_process (Visit.chunks ++ [Process.Close (Some 0%Z)])) Visit.page))
      = Js.Str (Process.stdout_of Visit.chunks) /\
    Home.handleDownload
      (fst (Home.handleUpload Visit.fetch_upload
              (Visit.fetch_process (Visit.chunks ++ [Process.Close (Some 0%Z)])) Visit.page))
      = Some link /\
    forall fs3 out,
      Fs.readFileSync
        (Process.outputPath Sample.cwd (Upload.stored_name Sample.timestamp original)) fs3
        = Some out ->
      if Js.header_value_ok original then
        exists r3,
          Download.reply
            (Download.handler Sample.cwd
               (Download.mkreq "GET" {[ "file" := Js.Str link ]}) fs3)
            = Http.Sent r3 fs3 /\
          Download.timer
            (Download.handler Sample.cwd
               (Download.mkreq "GET" {[ "file" := Js.Str link ]}) fs3)
            = Some (Process.outputPath Sample.cwd
                      (Upload.stored_name Sample.timestamp original)) /\
          Http.status r3 = 200 /\
          Http.payload r3 = Http.Buffer out /\
          In ("Content-Disposition",
              "attachment; filename=" +:+ Download.quote +:+ original +:+ Download.quote)
             (Http.headers r3)
      else
        Download.handler Sample.cwd
          (Download.mkreq "GET" {[ "file" := Js.Str link ]}) fs3
        = Download.now (Http.json 500 [("error", Js.Str "Failed to download file")]) fs3.
Proof.
  apply (document_round_trip
           Sample.cwd Sample.timestamp Sample.upload_docx Sample.tree
           Visit.uploaded Visit.uploaded
           (Http.json 200 [("success", Js.Bool true);
                           ("filename", Js.Str "1700000000000_thesis.docx");
                           ("originalName", Js.Str "thesis.docx")])
           Visit.fetch_upload
           (Visit.fetch_process (Visit.chunks ++ [Process.Close (Some 0%Z)]))
           Visit.page Visit.chunks).
  - discriminate.
  - reflexivity.
  - reflexivity.
  - eexists. split; reflexivity.
  - reflexivity.
  - reflexivity.
  - intros body r2 H. unfold Visit.fetch_process. rewrite H.
    destruct (process_answers_in_json _ _ _ _ _ H) as (json & Hjson).
    destruct r2 as [status headers payload]. cbn [Http.payload] in Hjson. subst payload.
    exists json. split; reflexivity.
Defined.

(** X17.  The other end of a visit: the engine exits with a code other than
    0.  The page then shows what the engine wrote on stderr, or
    [Processing failed] when it wrote nothing there; it holds no result,
    so there is nothing to download; and it shows no log, although the
    answer of the handler carried one. *)
Theorem engine_failure_reaches_the_page
  (cwd : list string) (now : N) (ureq : Upload.request) (fs fs1 fs2 : Fs.state)
  (r1 : Http.response) (upload : Home.fetched)
  (process : gmap string Js.value -> Home.fetched) (st : Home.state)
  (chunks : list Process.event) (code : option Z) :
  Home.file st <> None ->
  Upload.handler cwd now ureq fs = Http.Sent r1 fs1 ->
  Http.status r1 = 200 ->
  Home.delivers r1 upload ->
  Fs.ensure_dir (Path.join cwd ["outputs"]) fs1 = Some fs2 ->
  forallb Process.is_data chunks = true ->
  code <> Some 0%Z ->
  (forall body r2,
     Process.response
       (Process.final
          (Process.handler cwd (Process.mkreq "POST" body) fs1
             (chunks ++ [Process.Close code]))) = Some r2 ->
     Home.delivers r2 (process body)) ->
  Home.error (fst (Home.handleUpload upload process st))
    = Some (if String.eqb (Process.stderr_of chunks) "" then "Processing failed"
            else Process.stderr_of chunks) /\
  Home.result (fst (Home.handleUpload upload process st)) = None /\
  Home.logs (fst (Home.handleUpload upload process st)) = Js.Str "" /\
  Home.handleDownload (fst (Home.handleUpload upload process st)) = None.
Proof.
  intros Hfile Hup Hok Hnet1 Hout Hdata Hcode Hnet2.
  destruct (page_asks_for_the_stored_name cwd now ureq fs fs1 fs2 r1 upload process st
              Hfile Hup Hok Hnet1 Hout) as (original & body & _ & Hloc & ->).
  pose proof (closing_answer _ _ _ _ _ chunks code Hloc Hdata) as Hans.
  assert (match code with
          | Some 0%Z =>
              Http.json 200 [("success", Js.Bool true);
                             ("outputFile",
                              Js.Str (Process.outputFilename (Upload.stored_name now original)));
                             ("logs", Js.Str (Process.stdout_of chunks))]
          | _ =>
              Http.json 500
                [("error", Js.Str (Process.error_or_default (Process.stderr_of chunks)));
                 ("logs", Js.Str (Process.stdout_of chunks))]
          end =
          Http.json 500
            [("error", Js.Str (Process.error_or_default (Process.stderr_of chunks)));
             ("logs", Js.Str (Process.stdout_of chunks))]) as E.
  { destruct code as [[|c|c]|]; [contradiction | reflexivity..]. }
  rewrite E in Hans. clear E.
  destruct (Hnet2 _ _ Hans) as (json2 & Hpay & ->).
  cbn [Http.json Http.payload Http.status] in Hpay |- *. injection Hpay as <-.
  change (negb (Home.ok 500)) with true. cbv iota.
  cbn [fst Home.failed Home.error Home.result Home.logs].
  split; [|split; [reflexivity | split; reflexivity]].
  change (Home.prop _ "error")
    with (Js.Str (Process.error_or_default (Process.stderr_of chunks))).
  rewrite error_or_default_spec. unfold Home.or_else. cbn [Js.truthy].
  destruct (String.eqb_spec (Process.stderr_of chunks) "") as [_|Hne]; [reflexivity|].
  destruct (String.eqb_spec (Process.stderr_of chunks) ""); [contradiction | reflexivity].
Qed.

Lemma engine_failure_reaches_the_page_witness :
  Home.error
    (fst (Home.handleUpload Visit.fetch_upload
            (Visit.fetch_process (Visit.complaints ++ [Process.Close (Some 1%Z)]))
            Visit.page))
    = Some (if String.eqb (Process.stderr_of Visit.complaints) "" then "Processing failed"
            else Process.stderr_of Visit.complaints) /\
  Home.result
    (fst (Home.handleUpload Visit.fetch_upload
            (Visit.fetch_process (Visit.complaints ++ [Process.Close (Some 1%Z)]))
            Visit.page)) = None /\
  Home.logs
    (fst (Home.handleUpload Visit.fetch_upload
            (Visit.fetch_process (Visit.complaints ++ [Process.Close (Some 1%Z)]))
            Visit.page)) = Js.Str "" /\
  Home.handleDownload
    (fst (Home.handleUpload Visit.fetch_upload
            (Visit.fetch_process (Visit.complaints ++ [Process.Close (Some 1%Z)]))
            Visit.page)) = None.
Proof.
  apply (engine_failure_reaches_the_page
           Sample.cwd Sample.timestamp Sample.upload_docx Sample.tree
           Visit.uploaded Visit.uploaded
           (Http.json 200 [("success", Js.Bool true);
                           ("filename", Js.Str "1700000000000_thesis.docx");
                           ("originalName", Js.Str "thesis.docx")])
           Visit.fetch_upload
           (Visit.fetch_process (Visit.complaints ++ [Process.Close (Some 1%Z)]))
           Visit.page Visit.complaints (Some 1%Z)).
  - discriminate.
  - reflexivity.
  - reflexivity.
  - eexists. split; reflexivity.
  - reflexivity.
  - reflexivity.
  - discriminate.
  - intros body r2 H. unfold Visit.fetch_process. rewrite H.
    destruct (process_answers_in_json _ _ _ _ _ H) as (json & Hjson).
    destruct r2 as [status headers payload]. cbn [Http.payload] in Hjson. subst payload.
    exists json. split; reflexivity.
Defined.

(** ** Where an error escapes a handler *)

(** X18.  The upload handler lets an error escape only from the
    [mkdirSync] before its [try]: it ends without an answer exactly for
    a POST whose uploads directory is not there and cannot be made, and
    then it has changed nothing. *)
Theorem upload_error_escapes_only_from_mkdir
  (cwd : list string) (now : N) (req : Upload.request) (fs fs' : Fs.state) :
  Upload.handler cwd now req fs = Http.Uncaught fs' <->
  Upload.method req = "POST" /\
  Fs.ensure_dir (Path.join cwd ["uploads"]) fs = None /\
  fs' = fs.
Proof.
  unfold Upload.handler.
  destruct (String.eqb_spec (Upload.method req) "POST") as [Hm|Hm]; cbn [negb].
  2:{ split; [discriminate | intros (H & _); contradiction]. }
  destruct (Fs.ensure_dir (Path.join cwd ["uploads"]) fs) as [fs1|].
  2:{ split; [intros [= <-]; now repeat split | intros (_ & _ & ->); reflexivity]. }
  split; [|intros (_ & H & _); discriminate H].
  destruct (Upload.form req) as [|files]; [discriminate|].
  destruct (Upload.first_file files) as [f|]; [|discriminate].
  destruct (negb (Upload.is_docx f)).
  - destruct (Fs.unlinkSync _ _); discriminate.
  - destruct (Fs.renameSync _ _ _); discriminate.
Qed.

(** X19.  The download handler lets an error escape only from the
    [path.join] before its [try]: it ends without an answer exactly for
    a GET whose [file] parameter is given more than once, or is
    otherwise something truthy that is no string; nothing is changed and
    no timer is set. *)
Theorem download_error_escapes_only_for_a_non_string
  (cwd : list string) (req : Download.request) (fs fs' : Fs.state) :
  Download.reply (Download.handler cwd req fs) = Http.Uncaught fs' <->
  Download.method req = "GET" /\
  fs' = fs /\
  Download.timer (Download.handler cwd req fs) = None /\
  exists v, Download.query req !! "file" = Some v /\
            Js.truthy v = true /\ forall s, v <> Js.Str s.
Proof.
  unfold Download.handler.
  destruct (String.eqb_spec (Download.method req) "GET") as [Hm|Hm]; cbn [negb].
  2:{ split; [discriminate | intros (H & _); contradiction]. }
  destruct (Download.query req !! "file") as [v|] eqn:Hq; cbn [default from_option id].
  2:{ cbn. split; [discriminate | intros (_ & _ & _ & v & H & _); discriminate H]. }
  destruct (Js.truthy v) eqn:Ht; cbn [negb].
  2:{ split; [discriminate|]. intros (_ & _ & _ & w & [= <-] & H & _). congruence. }
  destruct v as [| |b|n|name|items|fields]; try discriminate Ht;
    try (cbn [Download.reply Download.timer]; split;
         [intros [= <-]; split; [exact Hm|]; split; [reflexivity|]; split; [reflexivity|];
          eexists; split; [reflexivity|]; split; [exact Ht | discriminate]
         |intros (_ & -> & _); reflexivity]).
  split.
  - destruct (negb (Fs.existsSync _ fs)); [discriminate|].
    destruct (Fs.readFileSync _ fs); [|discriminate].
    destruct (negb (Js.header_value_ok _)); discriminate.
  - intros (_ & _ & _ & w & [= <-] & _ & H). now destruct (H name).
Qed.

(** X20.  The processing handler throws, instead of answering, exactly
    for a POST whose body is [null], or whose [filename] is truthy and
    no string, or names an existing input while the outputs directory
    is not there and cannot be made.  These are the destructuring of
    [req.body], the [path.join] and the [mkdirSync] of the handler; none
    is inside a [try]. *)
Theorem process_throws_exactly_outside_the_callbacks
  (cwd : list string) (req : Process.request) (fs0 : Fs.state)
  (trace : list Process.event) :
  Process.threw (Process.handler cwd req fs0 trace) = true <->
  Process.method req = "POST" /\
  (Process.parsed req = None \/
   exists v,
     Process.body req !! "filename" = Some v /\
     Js.truthy v = true /\
     ((forall s, v <> Js.Str s) \/
      exists name, v = Js.Str name /\
                   Fs.existsSync (Process.inputPath cwd name) fs0 = true /\
                   Fs.ensure_dir (Path.join cwd ["outputs"]) fs0 = None)).
Proof.
  assert (forall r fs, Process.threw (Process.reply r fs) = false) as Hreply by reflexivity.
  assert (forall fs, Process.threw (Process.throw fs) = true) as Hthrow by reflexivity.
  unfold Process.handler.
  destruct (String.eqb_spec (Process.method req) "POST") as [Hm|Hm]; cbn [negb].
  2:{ rewrite Hreply. split; [discriminate | intros (H & _); contradiction]. }
  destruct (Process.parsed req) as [properties|] eqn:Hp.
  2:{ rewrite Hthrow. split; [|reflexivity]. intros _. split; [exact Hm | now left]. }
  rewrite <- (body_parsed _ _ Hp).
  destruct (Process.body req !! "filename") as [v|] eqn:Hq; cbn [default from_option id].
  2:{ cbn [Js.truthy negb]. rewrite Hreply.
      split; [discriminate | intros (_ & [H|(v & H & _)]); discriminate H]. }
  destruct (Js.truthy v) eqn:Ht; cbn [negb].
  2:{ rewrite Hreply. split; [discriminate|].
      intros (_ & [H|(w & [= <-] & H & _)]); [discriminate H | congruence]. }
  destruct v as [| |b|n|name|items|fields]; try discriminate Ht;
    try (rewrite Hthrow; split; [|reflexivity]; intros _;
         split; [exact Hm|]; right; eexists; split; [reflexivity|]; split; [exact Ht|];
         left; discriminate).
  destruct (Fs.existsSync (Process.inputPath cwd name) fs0) eqn:Hin; cbn [negb].
  2:{ rewrite Hreply. split; [discriminate|].
      intros (_ & [H|(w & [= <-] & _ & [H|(n & [= <-] & H & _)])]);
        [discriminate H | now destruct (H name) | congruence]. }
  destruct (Fs.ensure_dir (Path.join cwd ["outputs"]) fs0) as [fs1|] eqn:Hout.
  - cbn [Process.threw]. split; [discriminate|].
    intros (_ & [H|(w & [= <-] & _ & [H|(n & [= <-] & _ & H)])]);
      [discriminate H | now destruct (H name) | discriminate H].
  - rewrite Hthrow. split; [|reflexivity]. intros _. split; [exact Hm|].
    right. exists (Js.Str name). split; [reflexivity|]. split; [exact Ht|].
    right. now exists name.
Qed.

(** A body that is the JSON text [null] is such a request. *)
Example null_body_throws :
  Process.threw
    (Process.handler Sample.cwd (Process.incoming "POST" None) Sample.tree
       [Process.Close (Some 0%Z)]) = true /\
  Process.response
    (Process.final
       (Process.handler Sample.cwd (Process.incoming "POST" None) Sample.tree
          [Process.Close (Some 0%Z)])) = None.
Proof. split; reflexivity. Qed.

(** ** Where an upload lands *)

(** X21.  An accepted upload is stored in the uploads directory or
    below it, as long as the stored name, which ends in the name the
    client gave, has no [..] segment. *)
Theorem accepted_upload_lands_in_uploads
  (cwd : list string) (now : N) (req : Upload.request) (fs fs' : Fs.state)
  (r : Http.response) (name : string) :
  Upload.handler cwd now req fs = Http.Sent r fs' ->
  Http.status r = 200 ->
  Http.field r "filename" = Some (Js.Str name) ->
  ~ In ".." (Path.split name) ->
  exists rest content,
    fs' !! ((cwd ++ ["uploads"]) ++ rest) = Some (Fs.File content) /\
    Path.segments (Path.join (Path.segments (Path.join cwd ["uploads"])) [name])
      = (cwd ++ ["uploads"]) ++ rest.
Proof.
  intros Hsent Hstatus Hfield Hno.
  destruct (accepted_upload _ _ _ _ _ _ Hsent Hstatus)
    as (files & f & original & c & _ & _ & _ & -> & Hfile & _).
  injection Hfield as <-.
  destruct (inputPath_below_uploads cwd _ Hno) as (rest & Hrest).
  exists rest, c. rewrite <- Hrest. split; [exact Hfile|].
  now rewrite (join_nested cwd "uploads" _ eq_refl (stored_name_nonempty now original)).
Qed.

Lemma accepted_upload_lands_in_uploads_witness :
  exists rest content,
    Http.fs_of (Upload.handler Sample.cwd Sample.timestamp Sample.upload_docx Sample.tree)
      !! ((Sample.cwd ++ ["uploads"]) ++ rest) = Some (Fs.File content) /\
    Path.segments
      (Path.join (Path.segments (Path.join Sample.cwd ["uploads"]))
                 ["1700000000000_thesis.docx"])
      = (Sample.cwd ++ ["uploads"]) ++ rest.
Proof.
  apply (accepted_upload_lands_in_uploads
           Sample.cwd Sample.timestamp Sample.upload_docx Sample.tree _
           (Http.json 200 [("success", Js.Bool true);
                           ("filename", Js.Str "1700000000000_thesis.docx");
                           ("originalName", Js.Str "thesis.docx")])).
  - reflexivity.
  - reflexivity.
  - reflexivity.
  - cbn. intros [H|[]]. discriminate.
Defined.

(** With [..] in the name the client gives, the stored file leaves the
    uploads directory: the handler does not clean the name. *)
Example upload_climbs_out_of_uploads :
  exists r fs',
    Upload.handler Sample.cwd Sample.timestamp Visit.upload_climbing Sample.tree
      = Http.Sent r fs' /\
    Http.status r = 200 /\
    Http.field r "filename" = Some (Js.Str "1700000000000_x/../../next.config.docx") /\
    fs' !! ["srv"; "app"; "next.config.docx"] = Some (Fs.File "PK-thesis") /\
    Sample.tree !! ["srv"; "app"; "next.config.docx"] = None.
Proof. eexists _, _. repeat split; vm_compute; reflexivity. Qed.
